(** * rockit: the rocBLAS GEMM benchmark drivers

    A shallow embedding of [src/rocblas-benchmark.py] and
    [src/rocblas-quick.py].  Both scripts drive the HIP runtime and the
    rocBLAS library through ctypes: every foreign call is an event answered
    by the outside world, Python exceptions are an error result, and the
    script's variables ([results], [results_sorted], what it prints) are an
    explicit state.  Python floats are IEEE binary64 numbers, embedded as
    Rocq's primitive floats. *)

From Stdlib Require Import ZArith List String Bool Lia Floats Permutation Sorted.
Import ListNotations.

Local Open Scope Z_scope.

(** ** Constants of the scripts *)

Definition HIP_SUCCESS : Z := 0.
Definition ROCBLAS_STATUS_SUCCESS : Z := 0.
Definition ROCBLAS_OPERATION_NONE : Z := 111.
Definition ROCBLAS_OPERATION_TRANSPOSE : Z := 112.
Definition ROCBLAS_DATATYPE_F16_R : Z := 150.
Definition ROCBLAS_DATATYPE_F32_R : Z := 151.
Definition ROCBLAS_DATATYPE_BF16_R : Z := 168.
Definition ROCBLAS_GEMM_DEFAULT : Z := 0.

(** ** Foreign calls *)

(** The [value] of a [ctypes.c_void_p]: [None] is the NULL pointer of a
    fresh [c_void_p()]. *)
Definition c_void_p : Type := option Z.

(** The host arrays handed to [hipMemcpy]: [np.random.randn(rows, cols)]
    converted to float16.  Their contents are random and never read back;
    building them is taken to succeed. *)
Inductive host_array : Type :=
| h_A (rows cols : Z)
| h_B (rows cols : Z).

(** The 24 arguments of [rocblas_gemm_ex], in the order of the call. *)
Record gemm_ex_args : Type := mk_gemm_ex {
  g_handle : c_void_p;
  g_transA : Z;
  g_transB : Z;
  g_m : Z;
  g_n : Z;
  g_k : Z;
  g_alpha : float;
  g_A : c_void_p;
  g_a_type : Z;
  g_lda : Z;
  g_B : c_void_p;
  g_b_type : Z;
  g_ldb : Z;
  g_beta : float;
  g_C : c_void_p;
  g_c_type : Z;
  g_ldc : Z;
  g_D : c_void_p;
  g_d_type : Z;
  g_ldd : Z;
  g_compute_type : Z;
  g_algo : Z;
  g_solution_index : Z;
  g_flags : Z
}.

(** Everything the scripts ask of the outside world.  The arguments are the
    Python values handed to ctypes.  [CDLL] is the loading of a shared
    library and [time_time] a reading of the wall clock. *)
Inductive call : Type :=
| CDLL (name : string)
| hipGetDeviceCount
| hipGetDeviceProperties (device : Z)
| rocblas_create_handle
| hipMalloc (size : Z)
| hipMemcpy (dst : c_void_p) (src : host_array) (size : Z) (kind : Z)
| rocblas_gemm_ex (a : gemm_ex_args)
| hipDeviceSynchronize
| hipFree (p : c_void_p)
| rocblas_destroy_handle (h : c_void_p)
| time_time.

(** What the world answers: the returned status code (for [CDLL], non-zero
    stands for the [OSError] of a failed load), the pointer left in the
    [c_void_p] passed by reference ([hipMalloc], [rocblas_create_handle]),
    the integer left in the [c_int] passed by reference
    ([hipGetDeviceCount]) and the float returned by [time.time()].  A call
    reads only the fields it has. *)
Record reply : Type := mk_reply {
  status : Z;
  out_ptr : c_void_p;
  out_int : Z;
  out_float : float
}.

Definition event : Type := (call * reply)%type.

Definition ev_call (e : event) : call := fst e.
Definition ev_reply (e : event) : reply := snd e.

(** The outside world is deterministic in the history of the run: it
    answers a call knowing every earlier call and its answer. *)
Definition world : Type := list event -> call -> reply.

(** ** Program state, exceptions, and the monad of the scripts *)

(** One dictionary appended to [results]. *)
Record result : Type := mk_result {
  r_m : Z;
  r_n : Z;
  r_k : Z;
  r_time_ms : float;
  r_tops : float
}.

(** The lines printed from measured values; the banners are left out and the
    [:.2f] formatting is not applied. *)
Inductive line : Type :=
| PerfLine (time_ms tops : float)
| SummaryLine (count : Z)
| TopLine (i : Z) (r : result)
| ResultLine (r : result).

Record state : Type := mk_state {
  trace : list event;               (* foreign calls so far, oldest first *)
  results : list result;            (* the list [results] *)
  results_sorted : option (list result);  (* [results_sorted], once bound *)
  stdout : list line                (* printed lines, oldest first *)
}.

Definition initial_state : state := mk_state [] [] None [].

Inductive exn : Type :=
| RuntimeError (msg : string) (code : Z)
| SystemExit (code : Z)
| ZeroDivisionError
| OverflowError.

Inductive outcome (A : Type) : Type :=
| Ok (a : A)
| Raise (e : exn).

Arguments Ok {A} a.
Arguments Raise {A} e.

Definition is_ok {A} (o : outcome A) : bool :=
  match o with Ok _ => true | Raise _ => false end.

Definition M (A : Type) : Type := world -> state -> outcome A * state.

Definition ret {A} (a : A) : M A := fun _ st => (Ok a, st).

Definition raise {A} (e : exn) : M A := fun _ st => (Raise e, st).

Definition bind {A B} (c : M A) (f : A -> M B) : M B :=
  fun w st =>
    match c w st with
    | (Ok a, st') => f a w st'
    | (Raise e, st') => (Raise e, st')
    end.

Declare Scope py_scope.
Delimit Scope py_scope with py.
Notation "x <- c1 ;; c2" := (bind c1 (fun x => c2))
  (at level 61, c1 at next level, right associativity) : py_scope.
Notation "c1 ;; c2" := (bind c1 (fun _ => c2))
  (at level 61, right associativity) : py_scope.
Local Open Scope py_scope.

(** A foreign call: the world answers from the history, and the call with
    its answer joins the trace. *)
Definition ffi (c : call) : M reply :=
  fun w st =>
    let r := w (trace st) c in
    (Ok r,
     mk_state (trace st ++ [(c, r)]) (results st) (results_sorted st) (stdout st)).

Definition print (l : line) : M unit :=
  fun _ st =>
    (Ok tt, mk_state (trace st) (results st) (results_sorted st) (stdout st ++ [l])).

(** [results.append(r)] *)
Definition results_append (r : result) : M unit :=
  fun _ st =>
    (Ok tt, mk_state (trace st) (results st ++ [r]) (results_sorted st) (stdout st)).

Definition get_results : M (list result) := fun _ st => (Ok (results st), st).

Definition set_results_sorted (l : list result) : M unit :=
  fun _ st => (Ok tt, mk_state (trace st) (results st) (Some l) (stdout st)).

(** Lifting a pure computation that may raise. *)
Definition lift {A} (o : outcome A) : M A := fun _ st => (o, st).

(** [for _ in range(n): body] *)
Fixpoint for_range (n : nat) (body : M unit) : M unit :=
  match n with
  | O => ret tt
  | S n' => body ;; for_range n' body
  end.

(** [for x in l: body x] *)
Fixpoint for_each {A} (l : list A) (body : A -> M unit) : M unit :=
  match l with
  | [] => ret tt
  | x :: l' => body x ;; for_each l' body
  end.

(** ** The helpers of the scripts *)

Definition hip_check (st : Z) (msg : string) : M unit :=
  if negb (st =? HIP_SUCCESS) then raise (RuntimeError msg st) else ret tt.

Definition rocblas_check (st : Z) (msg : string) : M unit :=
  if negb (st =? ROCBLAS_STATUS_SUCCESS) then raise (RuntimeError msg st) else ret tt.

(** ** Python arithmetic on [int] and [float] *)

(** [float(z)] as CPython's [PyLong_AsDouble] computes it: the nearest
    binary64 number, ties to even, and [OverflowError] when that would not
    be finite. *)
Definition float_of_int (z : Z) : float :=
  SF2Prim (binary_normalize prec emax z 0 false).

Definition py_float_of_int (z : Z) : outcome float :=
  if Z.abs z <? 2 ^ 1024 - 2 ^ 970 then Ok (float_of_int z) else Raise OverflowError.

(** [x / y] on floats: [ZeroDivisionError] when [y == 0.0]. *)
Definition py_float_div (x y : float) : outcome float :=
  if PrimFloat.eqb y 0%float then Raise ZeroDivisionError else Ok (PrimFloat.div x y).

(** [z / y] for an int [z] and a float [y]: the int is converted first. *)
Definition py_int_div_float (z : Z) (y : float) : outcome float :=
  match py_float_of_int z with
  | Ok x => py_float_div x y
  | Raise e => Raise e
  end.

(** ** The body of the sweep: one shape *)

Definition shape : Type := (Z * Z * Z)%type.

Definition element_size : Z := 2.
Definition warmup_iters : nat := 3.
Definition bench_iters : nat := 10.

(** [avg_time = elapsed / bench_iters], the int [bench_iters = 10] being
    converted to the float 10.0. *)
Definition avg_time (elapsed : float) : float :=
  PrimFloat.div elapsed 10%float.

(** [tops = (2 * m * n * k) / (avg_time * 1e12)] *)
Definition tops (m n k : Z) (avg : float) : outcome float :=
  py_int_div_float (2 * m * n * k) (PrimFloat.mul avg 1e12%float).

(** [avg_time * 1000], the int 1000 being converted to 1000.0. *)
Definition time_ms (avg : float) : float := PrimFloat.mul avg 1000%float.

(** The [rocblas_gemm_ex] call, written twice in each script (warmup and
    timed loop) with the same arguments. *)
Definition gemm_call (handle : c_void_p) (m n k : Z) (alpha beta : float)
    (d_A d_B d_C : c_void_p) (lda ldb ldc : Z) : call :=
  rocblas_gemm_ex
    (mk_gemm_ex handle
       ROCBLAS_OPERATION_NONE ROCBLAS_OPERATION_NONE
       m n k
       alpha
       d_A ROCBLAS_DATATYPE_BF16_R lda
       d_B ROCBLAS_DATATYPE_BF16_R ldb
       beta
       d_C ROCBLAS_DATATYPE_BF16_R ldc
       d_C ROCBLAS_DATATYPE_BF16_R ldc
       ROCBLAS_DATATYPE_F32_R
       ROCBLAS_GEMM_DEFAULT
       0 0).

(** The loop body of both scripts, from the buffer sizes to the three
    [hipFree] calls. *)
Definition bench_shape (handle : c_void_p) (s : shape) : M unit :=
  let '(m, n, k) := s in
  let A_size := m * k * element_size in
  let B_size := k * n * element_size in
  let C_size := m * n * element_size in
  rA <- ffi (hipMalloc A_size) ;;
  hip_check (status rA) "Failed to allocate d_A" ;;
  let d_A := out_ptr rA in
  rB <- ffi (hipMalloc B_size) ;;
  hip_check (status rB) "Failed to allocate d_B" ;;
  let d_B := out_ptr rB in
  rC <- ffi (hipMalloc C_size) ;;
  hip_check (status rC) "Failed to allocate d_C" ;;
  let d_C := out_ptr rC in
  r <- ffi (hipMemcpy d_A (h_A m k) A_size 1) ;;
  hip_check (status r) "Failed to copy A to device" ;;
  r <- ffi (hipMemcpy d_B (h_B k n) B_size 1) ;;
  hip_check (status r) "Failed to copy B to device" ;;
  let alpha := 1%float in
  let beta := 0%float in
  let lda := m in
  let ldb := k in
  let ldc := m in
  for_range warmup_iters
    (r <- ffi (gemm_call handle m n k alpha beta d_A d_B d_C lda ldb ldc) ;;
     rocblas_check (status r) "Warmup GEMM failed") ;;
  r <- ffi hipDeviceSynchronize ;;
  hip_check (status r) "Failed to synchronize" ;;
  t0 <- ffi time_time ;;
  let start := out_float t0 in
  for_range bench_iters
    (r <- ffi (gemm_call handle m n k alpha beta d_A d_B d_C lda ldb ldc) ;;
     rocblas_check (status r) "Benchmark GEMM failed") ;;
  r <- ffi hipDeviceSynchronize ;;
  hip_check (status r) "Failed to synchronize" ;;
  t1 <- ffi time_time ;;
  let elapsed := PrimFloat.sub (out_float t1) start in
  let avg := avg_time elapsed in
  tp <- lift (tops m n k avg) ;;
  print (PerfLine (time_ms avg) tp) ;;
  results_append (mk_result m n k (time_ms avg) tp) ;;
  ffi (hipFree d_A) ;;
  ffi (hipFree d_B) ;;
  ffi (hipFree d_C) ;;
  ret tt.

(** ** The two scripts *)

(** The [try] block loading the two shared libraries: an [OSError] on
    either load ends the script through [sys.exit(1)]. *)
Definition load_libraries : M unit :=
  r <- ffi (CDLL "libamdhip64.so") ;;
  (if negb (status r =? 0) then raise (SystemExit 1) else ret tt) ;;
  r <- ffi (CDLL "librocblas.so") ;;
  (if negb (status r =? 0) then raise (SystemExit 1) else ret tt).

(** [rocblas.rocblas_create_handle(ctypes.byref(handle))] under
    [rocblas_check]. *)
Definition create_handle : M c_void_p :=
  h <- ffi rocblas_create_handle ;;
  rocblas_check (status h) "Failed to create rocBLAS handle" ;;
  ret (out_ptr h).

(** Python's [sorted(l, key=lambda x: x['tops'], reverse=True)]: a stable
    sort, descending, that compares keys with [<] only and returns a new
    list.  Written as an insertion sort from the right, which a stable sort
    agrees with whenever [<] orders the keys (no NaN among them). *)
Fixpoint insert_by_tops (x : result) (l : list result) : list result :=
  match l with
  | [] => [x]
  | y :: l' =>
      if PrimFloat.ltb (r_tops x) (r_tops y)
      then y :: insert_by_tops x l'
      else x :: y :: l'
  end.

Definition sorted_by_tops (l : list result) : list result :=
  fold_right insert_by_tops [] l.

(** [enumerate(l, start)] *)
Fixpoint enumerate {A} (l : list A) (start : Z) : list (Z * A) :=
  match l with
  | [] => []
  | x :: l' => (start, x) :: enumerate l' (start + 1)
  end.

Module Benchmark.

Definition dims : list Z := [1024; 2048; 4096; 8192].

(** The three nested [for] loops over [dims].  The counter [current_test]
    only feeds the progress line and is left out with it. *)
Definition sweep (handle : c_void_p) : M unit :=
  for_each dims (fun m =>
    for_each dims (fun n =>
      for_each dims (fun k =>
        bench_shape handle (m, n, k)))).

(** The summary printed after the sweep. *)
Definition report : M unit :=
  rs <- get_results ;;
  print (SummaryLine (Z.of_nat (List.length rs))) ;;
  rs <- get_results ;;
  let srt := sorted_by_tops rs in
  set_results_sorted srt ;;
  for_each (enumerate (firstn 10 srt) 1)
    (fun ir => print (TopLine (fst ir) (snd ir))) ;;
  rs <- get_results ;;
  for_each rs (fun r => print (ResultLine r)).

(** From the loading of the libraries to the creation of the handle.  In
    [rocblas-benchmark.py] the statuses of [hipGetDeviceCount] and
    [hipGetDeviceProperties] are not checked. *)
Definition setup : M c_void_p :=
  load_libraries ;;
  dc <- ffi hipGetDeviceCount ;;
  (if out_int dc =? 0 then raise (SystemExit 1) else ret tt) ;;
  ffi (hipGetDeviceProperties 0) ;;
  create_handle.

(** [rocblas-benchmark.py], top to bottom. *)
Definition main : M unit :=
  handle <- setup ;;
  sweep handle ;;
  ffi (rocblas_destroy_handle handle) ;;
  report.

End Benchmark.

Module Quick.

Definition test_cases : list shape :=
  [ (1024, 1024, 1024);
    (2048, 2048, 2048);
    (4096, 4096, 4096);
    (8192, 8192, 8192);
    (2048, 4096, 2048) ].

Definition sweep (handle : c_void_p) : M unit :=
  for_each test_cases (bench_shape handle).

Definition report : M unit :=
  rs <- get_results ;;
  for_each rs (fun r => print (ResultLine r)).

(** In [rocblas-quick.py] every runtime call of the set-up goes through
    [hip_check] with its default message. *)
Definition setup : M c_void_p :=
  load_libraries ;;
  dc <- ffi hipGetDeviceCount ;;
  hip_check (status dc) "HIP operation failed" ;;
  (if out_int dc =? 0 then raise (SystemExit 1) else ret tt) ;;
  r <- ffi (hipGetDeviceProperties 0) ;;
  hip_check (status r) "HIP operation failed" ;;
  create_handle.

(** [rocblas-quick.py], top to bottom. *)
Definition main : M unit :=
  handle <- setup ;;
  sweep handle ;;
  ffi (rocblas_destroy_handle handle) ;;
  report.

End Quick.

(** ** Worlds to run the scripts in *)

(** A healthy device: every call succeeds, each allocation returns a fresh
    address, one device is present, and the clock advances by one
    millisecond per foreign call. *)
Definition healthy_world : world :=
  fun h _ =>
    let t := Z.of_nat (List.length h) in
    mk_reply 0 (Some (4096 * (t + 1))) 1
      (PrimFloat.div (float_of_int t) 1000%float).

(** The same device, except that the [n]-th foreign call of the run
    (counting from 0) returns status [code]. *)
Definition failing_world (n : nat) (code : Z) : world :=
  fun h c =>
    let r := healthy_world h c in
    if Nat.eqb (List.length h) n
    then mk_reply code (out_ptr r) (out_int r) (out_float r)
    else r.

Definition run {A} (c : M A) (w : world) : outcome A * state :=
  c w initial_state.

(** ** Observing a trace *)

Definition is_prefix {A} (l1 l2 : list A) : Prop := exists t, l2 = l1 ++ t.

(** The pointer left by the [i]-th call of a trace, and the clock value it
    returned. *)
Definition ptr_at (i : nat) (l : list event) : c_void_p :=
  match nth_error l i with Some e => out_ptr (ev_reply e) | None => None end.

Definition clock_at (i : nat) (l : list event) : float :=
  match nth_error l i with Some e => out_float (ev_reply e) | None => 0%float end.

(** The calls of the loop body whose status goes through [hip_check] or
    [rocblas_check]; the status of [hipFree] is dropped. *)
Definition checked (c : call) : bool :=
  match c with
  | hipMalloc _ | hipMemcpy _ _ _ _ | rocblas_gemm_ex _ | hipDeviceSynchronize => true
  | _ => false
  end.

Definition succeeded (e : event) : bool :=
  negb (checked (ev_call e)) || (status (ev_reply e) =? 0).

Definition is_malloc (c : call) : bool :=
  match c with hipMalloc _ => true | _ => false end.
Definition is_gemm (c : call) : bool :=
  match c with rocblas_gemm_ex _ => true | _ => false end.
Definition is_sync (c : call) : bool :=
  match c with hipDeviceSynchronize => true | _ => false end.
Definition is_free (c : call) : bool :=
  match c with hipFree _ => true | _ => false end.
Definition is_destroy (c : call) : bool :=
  match c with rocblas_destroy_handle _ => true | _ => false end.
Definition is_setup (c : call) : bool :=
  match c with
  | CDLL _ | hipGetDeviceCount | hipGetDeviceProperties _ | rocblas_create_handle => true
  | _ => false
  end.

Definition count (p : call -> bool) (l : list event) : nat :=
  List.length (filter p (map ev_call l)).

(** Every answer of a piece of trace [l] is the world's, [h] being the
    history before it. *)
Fixpoint answered_by (w : world) (h : list event) (l : list event) : Prop :=
  match l with
  | [] => True
  | e :: l' => ev_reply e = w h (ev_call e) /\ answered_by w (h ++ [e]) l'
  end.

(** ** The per-shape protocol

    The state machine of one shape as the design describes it:
    Allocate, Upload, Warmup (3 calls), BarrierSync, TimedRun (10 calls)
    between two clock readings, BarrierSync, Free.  It is written here
    independently of [bench_shape], as the list of calls of a complete
    iteration working on the device buffers [d_A], [d_B] and [d_C]. *)
Definition shape_protocol (handle : c_void_p) (s : shape)
    (d_A d_B d_C : c_void_p) : list call :=
  let '(m, n, k) := s in
  let gemm := gemm_call handle m n k 1%float 0%float d_A d_B d_C m k m in
  [hipMalloc (m * k * 2); hipMalloc (k * n * 2); hipMalloc (m * n * 2);
   hipMemcpy d_A (h_A m k) (m * k * 2) 1; hipMemcpy d_B (h_B k n) (k * n * 2) 1]
  ++ repeat gemm 3 ++ [hipDeviceSynchronize; time_time]
  ++ repeat gemm 10 ++ [hipDeviceSynchronize; time_time]
  ++ [hipFree d_A; hipFree d_B; hipFree d_C].

(** [avg_time] as an iteration with trace [l] measures it: the clock is
    read by the calls number 9 and 21. *)
Definition measured_avg (l : list event) : float :=
  avg_time (PrimFloat.sub (clock_at 21 l) (clock_at 9 l)).

(** The trace [l] of an iteration, whatever its end: its calls follow the
    protocol on the buffers its first three calls returned, and every
    checked call but possibly the last one returned 0. *)
Definition iteration_ok (handle : c_void_p) (s : shape) (l : list event) : Prop :=
  is_prefix (map ev_call l)
    (shape_protocol handle s (ptr_at 0 l) (ptr_at 1 l) (ptr_at 2 l)) /\
  forallb succeeded (removelast l) = true.

(** A complete iteration and the record it appends. *)
Definition complete (l : list event) : Prop :=
  List.length l = 25%nat /\ forallb succeeded l = true.

Definition recorded (s : shape) (l : list event) (r : result) : Prop :=
  let '(m, n, k) := s in
  exists tp,
    tops m n k (measured_avg l) = Ok tp /\
    r = mk_result m n k (time_ms (measured_avg l)) tp.

Definition perf_line (r : result) : line := PerfLine (r_time_ms r) (r_tops r).

(** How an iteration with trace [l] ends in the exception [e]: a checked
    call, the last of [l], returned a non-zero status, or the 22 calls up
    to the second clock reading succeeded and the division of [tops]
    raised. *)
Definition raised_at (s : shape) (l : list event) (e : exn) : Prop :=
  (exists msg ev,
      e = RuntimeError msg (status (ev_reply ev)) /\
      last (map Some l) None = Some ev /\
      checked (ev_call ev) = true /\
      status (ev_reply ev) <> 0)
  \/
  (List.length l = 22%nat /\
   forallb succeeded l = true /\
   (e = ZeroDivisionError \/ e = OverflowError) /\
   let '(m, n, k) := s in tops m n k (measured_avg l) = Raise e).

Definition no_free (l : list event) : Prop :=
  forallb (fun ev => negb (is_free (ev_call ev))) l = true.

(** What one run of the loop body does to the state. *)
Definition iteration_post (handle : c_void_p) (s : shape) (w : world) (st : state)
    (o : outcome unit) (st' : state) : Prop :=
  exists l,
    trace st' = trace st ++ l /\
    results_sorted st' = results_sorted st /\
    answered_by w (trace st) l /\
    iteration_ok handle s l /\
    match o with
    | Ok _ =>
        complete l /\
        exists r,
          recorded s l r /\
          results st' = results st ++ [r] /\
          stdout st' = stdout st ++ [perf_line r]
    | Raise e =>
        results st' = results st /\
        stdout st' = stdout st /\
        no_free l /\
        raised_at s l e
    end.

(** ** The sweep and the whole script, as they leave the state *)

(** The iterations of a sweep: each shape with its piece of the trace. *)
Definition events_of (runs : list (shape * list event)) : list event :=
  List.concat (map snd runs).

(** Completed iterations and the records they appended, in order. *)
Definition completed (handle : c_void_p)
    (runs : list (shape * list event)) (rs : list result) : Prop :=
  Forall2
    (fun run r =>
       iteration_ok handle (fst run) (snd run) /\
       complete (snd run) /\
       recorded (fst run) (snd run) r)
    runs rs.

(** What [for s in shapes: bench_shape(s)] does to the state: the shapes of
    [done] ran to completion; on an exception, [tail] is the trace of the
    iteration that raised, and the shapes after it never start. *)
Definition sweep_post (handle : c_void_p) (shapes : list shape) (w : world)
    (st : state) (o : outcome unit) (st' : state) : Prop :=
  exists done rs tail,
    trace st' = trace st ++ events_of done ++ tail /\
    answered_by w (trace st) (events_of done ++ tail) /\
    results st' = results st ++ rs /\
    results_sorted st' = results_sorted st /\
    stdout st' = stdout st ++ map perf_line rs /\
    completed handle done rs /\
    match o with
    | Ok _ => tail = [] /\ map fst done = shapes
    | Raise e =>
        exists s rest,
          shapes = map fst done ++ s :: rest /\
          iteration_ok handle s tail /\
          no_free tail /\
          raised_at s tail e
    end.

(** The shapes of [rocblas-benchmark.py] in the order its three nested
    loops visit them. *)
Definition benchmark_shapes : list shape :=
  flat_map (fun m =>
    flat_map (fun n =>
      map (fun k => (m, n, k)) Benchmark.dims) Benchmark.dims) Benchmark.dims.

(** ctypes hands a Python int to a C [int] parameter by keeping its low 32
    bits.  The dimensions and byte sizes of both sweeps are small enough
    for that to change nothing, so the calls are recorded with the Python
    values.  The source of [hipMemcpy] is recorded as the host array the
    script names: [rocblas-quick.py] declares it a pointer, while
    [rocblas-benchmark.py], which declares no argument types, hands its
    address over as a Python int, and what the library then receives is
    not modelled. *)
Definition c_int (z : Z) : Z := (z + 2 ^ 31) mod 2 ^ 32 - 2 ^ 31.

Definition fits_c_int (s : shape) : bool :=
  let '(m, n, k) := s in
  forallb (fun z => c_int z =? z)
    [m; n; k; m * k * element_size; k * n * element_size; m * n * element_size].

(** How the set-up ends: it only issues set-up calls, touches neither
    [results] nor the output, and returns the handle that
    [rocblas_create_handle], its last call, left with status 0. *)
Definition setup_post (w : world) (st : state)
    (o : outcome c_void_p) (st' : state) : Prop :=
  exists pre,
    trace st' = trace st ++ pre /\
    answered_by w (trace st) pre /\
    results st' = results st /\
    results_sorted st' = results_sorted st /\
    stdout st' = stdout st /\
    forallb is_setup (map ev_call pre) = true /\
    match o with
    | Ok handle =>
        exists hr,
          last (map Some pre) None = Some (rocblas_create_handle, hr) /\
          status hr = 0 /\
          handle = out_ptr hr
    | Raise e =>
        e = SystemExit 1 \/ exists msg code, e = RuntimeError msg code /\ code <> 0
    end.

(** The lines of the two reports, from the final [results]. *)
Definition benchmark_report_lines (rs : list result) : list line :=
  SummaryLine (Z.of_nat (List.length rs))
  :: map (fun ir => TopLine (fst ir) (snd ir))
       (enumerate (firstn 10 (sorted_by_tops rs)) 1)
  ++ map ResultLine rs.

Definition quick_report_lines (rs : list result) : list line :=
  map ResultLine rs.

Definition report_post (lines : list result -> list line)
    (sorted : list result -> option (list result))
    (st : state) (o : outcome unit) (st' : state) : Prop :=
  o = Ok tt /\
  trace st' = trace st /\
  results st' = results st /\
  results_sorted st' = sorted (results st) /\
  stdout st' = stdout st ++ lines (results st).

(** How a run from the empty state ends.  Either the set-up failed, and
    nothing but set-up calls was issued; or the handle was created and the
    sweep ran: to its end, followed by [rocblas_destroy_handle] and the
    report, or up to the iteration that raised. *)
Definition script_post (shapes : list shape) (lines : list result -> list line)
    (sorted : list result -> option (list result))
    (w : world) (o : outcome unit) (st' : state) : Prop :=
  exists pre,
    forallb is_setup (map ev_call pre) = true /\
    answered_by w [] (trace st') /\
    ((exists e,
         o = Raise e /\
         (e = SystemExit 1 \/ exists msg code, e = RuntimeError msg code /\ code <> 0) /\
         trace st' = pre /\
         results st' = [] /\
         results_sorted st' = None /\
         stdout st' = [])
     \/
     (exists hr done,
         last (map Some pre) None = Some (rocblas_create_handle, hr) /\
         status hr = 0 /\
         completed (out_ptr hr) done (results st') /\
         match o with
         | Ok _ =>
             map fst done = shapes /\
             (exists dr,
                 trace st' =
                 pre ++ events_of done ++ [(rocblas_destroy_handle (out_ptr hr), dr)]) /\
             results_sorted st' = sorted (results st') /\
             stdout st' = map perf_line (results st') ++ lines (results st')
         | Raise e =>
             exists s rest tail,
               shapes = map fst done ++ s :: rest /\
               trace st' = pre ++ events_of done ++ tail /\
               iteration_ok (out_ptr hr) s tail /\
               no_free tail /\
               raised_at s tail e /\
               results_sorted st' = None /\
               stdout st' = map perf_line (results st')
         end)).

(** ** Observations on iterations and runs *)

(** The events one run of the loop body adds to the trace, and how it
    ends. *)
Definition iteration_trace (handle : c_void_p) (s : shape) (w : world)
    (st : state) : list event :=
  skipn (List.length (trace st)) (trace (snd (bench_shape handle s w st))).

Definition iteration_outcome (handle : c_void_p) (s : shape) (w : world)
    (st : state) : outcome unit :=
  fst (bench_shape handle s w st).

(** The requested allocation sizes of a trace, in order. *)
Definition malloc_sizes (l : list event) : list Z :=
  flat_map (fun e => match ev_call e with hipMalloc sz => [sz] | _ => [] end) l.

(** The kind of a call, forgetting its arguments. *)
Inductive kind : Type :=
| KLoad | KDeviceCount | KDeviceProperties | KCreate
| KMalloc | KMemcpy | KGemm | KSync | KFree | KDestroy | KClock.

Definition kind_of (c : call) : kind :=
  match c with
  | CDLL _ => KLoad
  | hipGetDeviceCount => KDeviceCount
  | hipGetDeviceProperties _ => KDeviceProperties
  | rocblas_create_handle => KCreate
  | hipMalloc _ => KMalloc
  | hipMemcpy _ _ _ _ => KMemcpy
  | rocblas_gemm_ex _ => KGemm
  | hipDeviceSynchronize => KSync
  | hipFree _ => KFree
  | rocblas_destroy_handle _ => KDestroy
  | time_time => KClock
  end.

(** The kinds of the 25 calls of a complete iteration: the barrier is call
    8, right after the three warmup calls 5 to 7, and call 20, right after
    the ten timed calls 10 to 19; the clock is read by calls 9 and 21. *)
Definition iteration_kinds : list kind :=
  [KMalloc; KMalloc; KMalloc; KMemcpy; KMemcpy]
  ++ repeat KGemm 3 ++ [KSync; KClock]
  ++ repeat KGemm 10 ++ [KSync; KClock]
  ++ [KFree; KFree; KFree].

Definition is_create (c : call) : bool :=
  match c with rocblas_create_handle => true | _ => false end.

(** A handle was created: [rocblas_create_handle] returned status 0. *)
Definition handle_created (l : list event) : bool :=
  existsb (fun e => is_create (ev_call e) && (status (ev_reply e) =? 0)) l.

(** The allocations that returned status 0. *)
Definition successful_mallocs (l : list event) : nat :=
  List.length
    (filter (fun e => is_malloc (ev_call e) && (status (ev_reply e) =? 0)) l).

Definition shape_of (r : result) : shape := (r_m r, r_n r, r_k r).

(** How often, and when, a run destroys the handle. *)
Definition destroy_discipline (p : outcome unit * state) : Prop :=
  count is_destroy (trace (snd p)) = (if is_ok (fst p) then 1 else 0)%nat /\
  (is_ok (fst p) = true ->
   exists hr dr,
     In (rocblas_create_handle, hr) (trace (snd p)) /\
     status hr = 0 /\
     last (map Some (trace (snd p))) None =
       Some (rocblas_destroy_handle (out_ptr hr), dr)).

(** Release on every exit path, read on one run: once the handle has been
    created, the run destroys it exactly once, however it ends. *)
Definition destroyed_once_created (p : outcome unit * state) : Prop :=
  handle_created (trace (snd p)) = true ->
  count is_destroy (trace (snd p)) = 1%nat.

(** The run ended at the failing call [ev]: [ev] is its last foreign call,
    issued for the shape [s] after the shapes of [done] ran to completion;
    nothing was freed for [s], the shapes of [rest] never started, and
    [results] and the output hold one entry per completed shape only. *)
Definition run_ended_at (shapes : list shape) (ev : event)
    (p : outcome unit * state) : Prop :=
  exists msg pre hr done s rest tail,
    fst p = Raise (RuntimeError msg (status (ev_reply ev))) /\
    forallb is_setup (map ev_call pre) = true /\
    trace (snd p) = pre ++ events_of done ++ tail /\
    last (map Some (trace (snd p))) None = Some ev /\
    In ev tail /\
    shapes = map fst done ++ s :: rest /\
    completed (out_ptr hr) done (results (snd p)) /\
    iteration_ok (out_ptr hr) s tail /\
    no_free tail /\
    map shape_of (results (snd p)) = map fst done /\
    stdout (snd p) = map perf_line (results (snd p)).

(** The arguments of a GEMM call as the scripts issue it for a shape of
    [shapes]. *)
Definition gemm_as_issued (shapes : list shape) (a : gemm_ex_args) : Prop :=
  In (g_m a, g_n a, g_k a) shapes /\
  g_transA a = ROCBLAS_OPERATION_NONE /\ g_transB a = ROCBLAS_OPERATION_NONE /\
  g_lda a = g_m a /\ g_ldb a = g_k a /\ g_ldc a = g_m a /\
  g_D a = g_C a /\ g_d_type a = g_c_type a /\ g_ldd a = g_ldc a /\
  g_alpha a = 1%float /\ g_beta a = 0%float.

(** No entry is followed by one with a strictly larger [tops]. *)
Definition not_below (a b : result) : Prop :=
  PrimFloat.ltb (r_tops a) (r_tops b) = false.

Definition descending (l : list result) : Prop := Sorted not_below l.

(** [results] lists the shapes in the order of the sweep: all of them once
    the run is complete, those before the failure otherwise. *)
Definition in_sweep_order (shapes : list shape) (p : outcome unit * state) : Prop :=
  is_prefix (map shape_of (results (snd p))) shapes /\
  (fst p = Ok tt -> map shape_of (results (snd p)) = shapes).

(** ** Concrete runs *)

(** A concrete iteration: the last shape of [rocblas-quick.py] on the
    healthy device, from the empty state. *)
Definition example_handle : c_void_p := Some 1.
Abbreviation example_shape := (2048, 4096, 2048) (only parsing).
Abbreviation example_trace :=
  (iteration_trace example_handle example_shape healthy_world initial_state)
  (only parsing).
Definition example_gemm : gemm_ex_args :=
  mk_gemm_ex example_handle 111 111 2048 4096 2048
    1%float (Some 4096) 168 2048 (Some 8192) 168 2048
    0%float (Some 12288) 168 2048 (Some 12288) 168 2048
    151 0 0 0.

(** The first GEMM call of [rocblas-quick.py] on the healthy device: call
    number 10 of the run, on the handle and the three buffers returned by
    calls 4 to 7. *)
Definition example_run_gemm : gemm_ex_args :=
  mk_gemm_ex (Some 20480) 111 111 1024 1024 1024
    1%float (Some 24576) 168 1024 (Some 28672) 168 1024
    0%float (Some 32768) 168 1024 (Some 32768) 168 1024
    151 0 0 0.

(** The seventh foreign call of [rocblas-quick.py] under
    [failing_world 6 2]: the allocation of [d_B] for the first shape,
    answered with status 2. *)
Definition failed_event : event :=
  (hipMalloc (1024 * 1024 * 2),
   mk_reply 2 (Some 28672) 1 (PrimFloat.div (float_of_int 6) 1000%float)).

(** ** Further observations on the rocBLAS scripts *)

(** The message of the [RuntimeError] each checked call of the loop body
    raises on a non-zero status, by the position of the call in the
    iteration. *)
Definition failure_messages : list (option string) :=
  let warmup := Some "Warmup GEMM failed"%string in
  let timed := Some "Benchmark GEMM failed"%string in
  [ Some "Failed to allocate d_A"%string;
    Some "Failed to allocate d_B"%string;
    Some "Failed to allocate d_C"%string;
    Some "Failed to copy A to device"%string;
    Some "Failed to copy B to device"%string;
    warmup; warmup; warmup;
    Some "Failed to synchronize"%string;
    None;
    timed; timed; timed; timed; timed; timed; timed; timed; timed; timed;
    Some "Failed to synchronize"%string ].

Definition failure_message (i : nat) : option string :=
  nth i failure_messages None.

Definition stops_at_first_failure (l : list event) (o : outcome unit) : Prop :=
  forall msg code,
    o = Raise (RuntimeError msg code) ->
    failure_message (List.length l - 1) = Some msg /\
    code <> 0 /\
    exists c r,
      last (map Some l) None = Some (c, r) /\ checked c = true /\ status r = code.

(** The set-up, case by case.  [strict] tells the two scripts apart: in
    [rocblas-quick.py] the statuses of [hipGetDeviceCount] and
    [hipGetDeviceProperties] go through [hip_check], in
    [rocblas-benchmark.py] they are dropped. *)
Definition setup_cases (strict : bool) (pre : list event)
    (o : outcome c_void_p) : Prop :=
  let load_hip := CDLL "libamdhip64.so" in
  let load_rocblas := CDLL "librocblas.so" in
  (exists r1,
      pre = [(load_hip, r1)] /\ status r1 <> 0 /\ o = Raise (SystemExit 1))
  \/
  (exists r1 r2,
      pre = [(load_hip, r1); (load_rocblas, r2)] /\
      status r1 = 0 /\ status r2 <> 0 /\ o = Raise (SystemExit 1))
  \/
  (exists r1 r2 r3,
      pre = [(load_hip, r1); (load_rocblas, r2); (hipGetDeviceCount, r3)] /\
      status r1 = 0 /\ status r2 = 0 /\
      strict = true /\ status r3 <> 0 /\
      o = Raise (RuntimeError "HIP operation failed" (status r3)))
  \/
  (exists r1 r2 r3,
      pre = [(load_hip, r1); (load_rocblas, r2); (hipGetDeviceCount, r3)] /\
      status r1 = 0 /\ status r2 = 0 /\
      (strict = true -> status r3 = 0) /\ out_int r3 = 0 /\
      o = Raise (SystemExit 1))
  \/
  (exists r1 r2 r3 r4,
      pre = [(load_hip, r1); (load_rocblas, r2); (hipGetDeviceCount, r3);
             (hipGetDeviceProperties 0, r4)] /\
      status r1 = 0 /\ status r2 = 0 /\
      (strict = true -> status r3 = 0) /\ out_int r3 <> 0 /\
      strict = true /\ status r4 <> 0 /\
      o = Raise (RuntimeError "HIP operation failed" (status r4)))
  \/
  (exists r1 r2 r3 r4 r5,
      pre = [(load_hip, r1); (load_rocblas, r2); (hipGetDeviceCount, r3);
             (hipGetDeviceProperties 0, r4); (rocblas_create_handle, r5)] /\
      status r1 = 0 /\ status r2 = 0 /\
      (strict = true -> status r3 = 0) /\ out_int r3 <> 0 /\
      (strict = true -> status r4 = 0) /\
      ((status r5 <> 0 /\
        o = Raise (RuntimeError "Failed to create rocBLAS handle" (status r5)))
       \/
       (status r5 = 0 /\ o = Ok (out_ptr r5)))).

Definition setup_explained (strict : bool) (w : world) (st : state)
    (o : outcome c_void_p) (st' : state) : Prop :=
  exists pre,
    trace st' = trace st ++ pre /\
    results st' = results st /\
    results_sorted st' = results_sorted st /\
    stdout st' = stdout st /\
    setup_cases strict pre o.

(** A run, split at the end of the set-up: the set-up calls [pre], then
    the calls [more] of the sweep and of the clean-up, none of them a
    set-up call, all on the handle the set-up returned. *)
Definition run_explained (strict : bool) (p : outcome unit * state) : Prop :=
  exists pre o_setup more,
    setup_cases strict pre o_setup /\
    trace (snd p) = pre ++ more /\
    forallb (fun c => negb (is_setup c)) (map ev_call more) = true /\
    match o_setup with
    | Raise e =>
        more = [] /\ fst p = Raise e /\
        results (snd p) = [] /\ stdout (snd p) = []
    | Ok handle =>
        forall c, In c (map ev_call more) ->
          c = rocblas_destroy_handle handle \/
          exists s d_A d_B d_C, In c (shape_protocol handle s d_A d_B d_C)
    end.

(** The run stopped in the set-up, at the call [ev]: the exception [e]
    ends the script, [ev] is the last of its [n] foreign calls, which are
    all set-up calls, and nothing was measured or printed. *)
Definition stopped_in_setup (e : exn) (ev : event) (n : nat)
    (p : outcome unit * state) : Prop :=
  fst p = Raise e /\
  List.length (trace (snd p)) = n /\
  last (map Some (trace (snd p))) None = Some ev /\
  forallb is_setup (map ev_call (trace (snd p))) = true /\
  results (snd p) = [] /\
  stdout (snd p) = [].

(** The device queries of the set-up. *)
Definition is_query (c : call) : bool :=
  match c with
  | hipGetDeviceCount | hipGetDeviceProperties _ => true
  | _ => false
  end.

(** The fields every GEMM call of a run is issued with, on the handle the
    run created. *)
Definition gemm_on_created_handle (p : outcome unit * state)
    (a : gemm_ex_args) : Prop :=
  exists hr,
    In (rocblas_create_handle, hr) (trace (snd p)) /\
    status hr = 0 /\
    g_handle a = out_ptr hr /\
    g_a_type a = ROCBLAS_DATATYPE_BF16_R /\
    g_b_type a = ROCBLAS_DATATYPE_BF16_R /\
    g_c_type a = ROCBLAS_DATATYPE_BF16_R /\
    g_d_type a = ROCBLAS_DATATYPE_BF16_R /\
    g_compute_type a = ROCBLAS_DATATYPE_F32_R /\
    g_algo a = ROCBLAS_GEMM_DEFAULT /\
    g_solution_index a = 0 /\
    g_flags a = 0.

Definition buffers_balance (shapes : list shape) (p : outcome unit * state) : Prop :=
  let l := trace (snd p) in
  let records := List.length (results (snd p)) in
  count is_free l = (3 * records)%nat /\
  (3 * records <= count is_malloc l <= 3 * records + 3)%nat /\
  (count is_gemm l <= 13 * records + 13)%nat /\
  (fst p = Ok tt ->
   records = List.length shapes /\
   count is_malloc l = (3 * records)%nat /\
   count is_gemm l = (13 * records)%nat /\
   count is_sync l = (2 * records)%nat).

(** The size in bytes of a host array: [astype(np.float16)] makes every
    item 2 bytes wide. *)
Definition nbytes (h : host_array) : Z :=
  match h with
  | h_A rows cols | h_B rows cols => rows * cols * 2
  end.

(** Every upload of a trace comes three calls after the allocation of its
    destination: it copies, host to device, as many bytes as its host
    array holds into the buffer that allocation returned for this size. *)
Definition uploads_fit (l : list event) : Prop :=
  forall j dst src size kind r,
    nth_error l j = Some (hipMemcpy dst src size kind, r) ->
    size = nbytes src /\ kind = 1 /\
    exists i r',
      j = (i + 3)%nat /\
      nth_error l i = Some (hipMalloc size, r') /\
      status r' = 0 /\ out_ptr r' = dst.

(** The healthy machine without a device: [hipGetDeviceCount] succeeds and
    reports 0 devices. *)
Definition no_device_world : world :=
  fun h c =>
    let r := healthy_world h c in
    mk_reply (status r) (out_ptr r) 0 (out_float r).

(** The healthy machine with a clock that does not advance. *)
Definition frozen_clock_world : world :=
  fun h c =>
    let r := healthy_world h c in
    mk_reply (status r) (out_ptr r) (out_int r) 0%float.

Definition failed_reply (n code : Z) : reply :=
  mk_reply code (Some (4096 * (n + 1))) 1 (PrimFloat.div (float_of_int n) 1000%float).

Definition is_top_line (l : line) : bool :=
  match l with TopLine _ _ => true | _ => false end.

Definition is_perf_line (l : line) : bool :=
  match l with PerfLine _ _ => true | _ => false end.

(** The lines a computation printed from the state [st]. *)
Definition printed {A} (c : M A) (w : world) (st : state) : list line :=
  skipn (List.length (stdout st)) (stdout (snd (c w st))).

Definition report_only_when_complete (lines : list result -> list line)
    (p : outcome unit * state) : Prop :=
  (forall e, fst p = Raise e ->
             forallb is_perf_line (stdout (snd p)) = true /\
             List.length (stdout (snd p)) = List.length (results (snd p))) /\
  (fst p = Ok tt ->
   skipn (List.length (results (snd p))) (stdout (snd p)) = lines (results (snd p)) /\
   firstn (List.length (results (snd p))) (stdout (snd p)) =
     map perf_line (results (snd p))).

(** The healthy machine with a clock that runs backwards, a millisecond
    per foreign call. *)
Definition backwards_clock_world : world :=
  fun h c =>
    let r := healthy_world h c in
    mk_reply (status r) (out_ptr r) (out_int r)
      (PrimFloat.div (float_of_int (100 - Z.of_nat (List.length h))) 1000%float).

Abbreviation backwards_avg :=
  (measured_avg
     (iteration_trace example_handle example_shape backwards_clock_world initial_state))
  (only parsing).

(** ** The PyTorch counterpart: [pytorch-matmul-fp16-quick.py]

    The script measures the same five shapes through [torch.mm].  A call
    into torch may raise; the script catches nothing.  Its computations are
    written as trees of effects: the calls, what is printed, and what is
    appended to [results]. *)

Module Torch.

Inductive device : Type := cuda | cpu.

(** A tensor is opaque to the script: the token the library returned. *)
Definition tensor : Type := Z.

Inductive call : Type :=
| is_available                              (* torch.cuda.is_available() *)
| get_device_name (index : Z)               (* torch.cuda.get_device_name(0) *)
| version                                   (* torch.__version__ *)
| randn (rows cols : Z) (dev : device)      (* torch.randn(.., dtype=torch.float16) *)
| mm (a b : tensor)                         (* torch.mm(a, b) *)
| synchronize                               (* torch.cuda.synchronize() *)
| time_time.                                (* time.time() *)

(** The answer to a call: the exception it raised, if any, and the value
    it returned, read in the field of its type. *)
Record reply : Type := mk_reply {
  raised : option string;
  out_bool : bool;
  out_text : string;
  out_tensor : tensor;
  out_float : float
}.

Inductive line : Type :=
| Rule                                      (* "=" * 70 *)
| Title
| NotAvailable
| DeviceLine (dev : device)
| GpuLine (name : string)
| VersionLine (v : string)
| Starting
| Progress (i total : Z) (s : shape)
| PerfLine (time_ms tops : float)
| SummaryTitle
| ResultLine (r : result).

(** What a run leaves behind, in order. *)
Inductive obs : Type :=
| Called (c : call) (r : reply)
| Printed (l : line)
| Appended (r : result).

(** An exception of the script: one of Python's own, or one raised inside
    torch. *)
Inductive failure : Type :=
| Py (e : exn)
| Lib (what : string).

Inductive ending (A : Type) : Type :=
| Done (a : A)
| Failed (f : failure).

Arguments Done {A} a.
Arguments Failed {A} f.

Inductive prog (A : Type) : Type :=
| Ret (a : A)
| Throw (f : failure)
| Do (c : call) (k : reply -> prog A)
| Out (l : line) (k : prog A)
| Append (r : result) (k : prog A)
| GetResults (k : list result -> prog A).

Arguments Ret {A} a.
Arguments Throw {A} f.
Arguments Do {A} c k.
Arguments Out {A} l k.
Arguments Append {A} r k.
Arguments GetResults {A} k.

Fixpoint bind {A B} (p : prog A) (f : A -> prog B) : prog B :=
  match p with
  | Ret a => f a
  | Throw e => Throw e
  | Do c k => Do c (fun r => bind (k r) f)
  | Out l k => Out l (bind k f)
  | Append r k => Append r (bind k f)
  | GetResults k => GetResults (fun rs => bind (k rs) f)
  end.

Declare Scope torch_scope.
Delimit Scope torch_scope with torch.
Notation "x <- c1 ;; c2" := (bind c1 (fun x => c2))
  (at level 61, c1 at next level, right associativity) : torch_scope.
Notation "c1 ;; c2" := (bind c1 (fun _ => c2))
  (at level 61, right associativity) : torch_scope.
Local Open Scope torch_scope.

Definition ask (c : call) : prog reply := Do c Ret.
Definition print (l : line) : prog unit := Out l (Ret tt).
Definition results_append (r : result) : prog unit := Append r (Ret tt).
Definition get_results : prog (list result) := GetResults Ret.
Definition throw {A} (f : failure) : prog A := Throw f.

(** A pure computation of the rocBLAS scripts, with its Python exception. *)
Definition lift {A} (o : outcome A) : prog A :=
  match o with
  | Ok a => Ret a
  | Raise e => Throw (Py e)
  end.

Fixpoint for_range (n : nat) (body : prog unit) : prog unit :=
  match n with
  | O => Ret tt
  | S n' => body ;; for_range n' body
  end.

Fixpoint for_each {A} (l : list A) (body : A -> prog unit) : prog unit :=
  match l with
  | [] => Ret tt
  | x :: l' => body x ;; for_each l' body
  end.

(** The records appended so far. *)
Definition appended (log : list obs) : list result :=
  flat_map (fun o => match o with Appended r => [r] | _ => [] end) log.

Definition calls (log : list obs) : list (call * reply) :=
  flat_map (fun o => match o with Called c r => [(c, r)] | _ => [] end) log.

Definition printed (log : list obs) : list line :=
  flat_map (fun o => match o with Printed l => [l] | _ => [] end) log.

(** The world answers a call from what happened so far. *)
Definition world : Type := list obs -> call -> reply.

(** Running a computation after [log]: how it ends and what it adds. *)
Fixpoint run {A} (p : prog A) (w : world) (log : list obs) : ending A * list obs :=
  match p with
  | Ret a => (Done a, [])
  | Throw f => (Failed f, [])
  | Do c k =>
      let r := w log c in
      match raised r with
      | Some what => (Failed (Lib what), [Called c r])
      | None =>
          let '(e, l) := run (k r) w (log ++ [Called c r]) in
          (e, Called c r :: l)
      end
  | Out l k =>
      let '(e, l') := run k w (log ++ [Printed l]) in (e, Printed l :: l')
  | Append r k =>
      let '(e, l') := run k w (log ++ [Appended r]) in (e, Appended r :: l')
  | GetResults k => run (k (appended log)) w log
  end.

Definition test_cases : list shape :=
  [ (1024, 1024, 1024);
    (2048, 2048, 2048);
    (4096, 4096, 4096);
    (8192, 8192, 8192);
    (2048, 4096, 2048) ].

(** The loop body, lines 39 to 74. *)
Definition bench_shape (dev : device) (i : Z) (s : shape) : prog unit :=
  let '(m, n, k) := s in
  print (Progress i (Z.of_nat (List.length test_cases)) s) ;;
  rA <- ask (randn m k dev) ;;
  let A := out_tensor rA in
  rB <- ask (randn k n dev) ;;
  let B := out_tensor rB in
  for_range 3 (ask (mm A B) ;; Ret tt) ;;
  ask synchronize ;;
  t0 <- ask time_time ;;
  let start := out_float t0 in
  for_range 10 (ask (mm A B) ;; Ret tt) ;;
  ask synchronize ;;
  t1 <- ask time_time ;;
  let elapsed := PrimFloat.sub (out_float t1) start in
  let avg := avg_time elapsed in
  tp <- lift (tops m n k avg) ;;
  print (PerfLine (time_ms avg) tp) ;;
  results_append (mk_result m n k (time_ms avg) tp).

(** The script, top to bottom. *)
Definition main : prog unit :=
  print Rule ;; print Title ;; print Rule ;;
  a1 <- ask is_available ;;
  let dev := if out_bool a1 then cuda else cpu in
  a2 <- ask is_available ;;
  (if negb (out_bool a2)
   then print NotAvailable ;; throw (Py (SystemExit 1))
   else Ret tt) ;;
  print (DeviceLine dev) ;;
  name <- ask (get_device_name 0) ;;
  print (GpuLine (out_text name)) ;;
  v <- ask version ;;
  print (VersionLine (out_text v)) ;;
  print Rule ;; print Starting ;; print Rule ;;
  for_each (enumerate test_cases 1) (fun ir => bench_shape dev (fst ir) (snd ir)) ;;
  print Rule ;; print SummaryTitle ;; print Rule ;;
  rs <- get_results ;;
  for_each rs (fun r => print (ResultLine r)) ;;
  print Rule.

(** The weakest precondition of a computation started after [log]: [Q]
    holds of its ending and of what it adds, whatever the world answers. *)
Fixpoint wp {A} (p : prog A) (log : list obs)
    (Q : ending A -> list obs -> Prop) : Prop :=
  match p with
  | Ret a => Q (Done a) []
  | Throw f => Q (Failed f) []
  | Do c k =>
      forall r,
        match raised r with
        | Some what => Q (Failed (Lib what)) [Called c r]
        | None => wp (k r) (log ++ [Called c r]) (fun e l => Q e (Called c r :: l))
        end
  | Out l k => wp k (log ++ [Printed l]) (fun e l' => Q e (Printed l :: l'))
  | Append r k => wp k (log ++ [Appended r]) (fun e l' => Q e (Appended r :: l'))
  | GetResults k => wp (k (appended log)) log Q
  end.

(** A healthy machine: nothing raises, a GPU is there, each tensor gets a
    fresh token, the clock advances by a millisecond per event. *)
Definition healthy_world : world :=
  fun log _ =>
    let t := Z.of_nat (List.length log) in
    mk_reply None true "gpu" t (PrimFloat.div (float_of_int t) 1000%float).

(** The same machine without a GPU. *)
Definition no_gpu_world : world :=
  fun log c =>
    let r := healthy_world log c in
    mk_reply None false (out_text r) (out_tensor r) (out_float r).


(** *** Observing an iteration *)

Definition tensor_at (i : nat) (cs : list (call * reply)) : tensor :=
  match nth_error cs i with Some cr => out_tensor (snd cr) | None => 0 end.

Definition clock_at (i : nat) (cs : list (call * reply)) : float :=
  match nth_error cs i with Some cr => out_float (snd cr) | None => 0%float end.

Definition returned (cr : call * reply) : bool :=
  match raised (snd cr) with None => true | Some _ => false end.

Definition called (cr : call * reply) : obs := Called (fst cr) (snd cr).

(** The calls of a complete iteration on the tensors [A] and [B]. *)
Definition protocol (dev : device) (s : shape) (A B : tensor) : list call :=
  let '(m, n, k) := s in
  [randn m k dev; randn k n dev]
  ++ repeat (mm A B) 3 ++ [synchronize; time_time]
  ++ repeat (mm A B) 10 ++ [synchronize; time_time].

(** [avg_time] as an iteration measures it: the clock is read by the calls
    number 6 and 18. *)
Definition measured_avg (cs : list (call * reply)) : float :=
  avg_time (PrimFloat.sub (clock_at 18 cs) (clock_at 6 cs)).

Definition progress (i : Z) (s : shape) : obs :=
  Printed (Progress i (Z.of_nat (List.length test_cases)) s).

(** What one run of the loop body adds to the log, and how it ends. *)
Definition iteration_post (dev : device) (i : Z) (s : shape)
    (e : ending unit) (l : list obs) : Prop :=
  let cs := calls l in
  let '(m, n, k) := s in
  is_prefix (map fst cs) (protocol dev s (tensor_at 0 cs) (tensor_at 1 cs)) /\
  forallb returned (removelast cs) = true /\
  match e with
  | Done _ =>
      List.length cs = 19%nat /\
      forallb returned cs = true /\
      exists tp,
        tops m n k (measured_avg cs) = Ok tp /\
        l = progress i s :: map called cs
            ++ [Printed (PerfLine (time_ms (measured_avg cs)) tp);
                Appended (mk_result m n k (time_ms (measured_avg cs)) tp)]
  | Failed (Lib what) =>
      (exists c r,
          last (map Some cs) None = Some (c, r) /\ raised r = Some what) /\
      l = progress i s :: map called cs
  | Failed (Py x) =>
      List.length cs = 19%nat /\
      forallb returned cs = true /\
      tops m n k (measured_avg cs) = Raise x /\
      l = progress i s :: map called cs
  end.

(** The iterations of a sweep, one after the other, up to the first that
    fails. *)
Fixpoint sweep_post (dev : device) (items : list (Z * shape))
    (e : ending unit) (l : list obs) : Prop :=
  match items with
  | [] => e = Done tt /\ l = []
  | (i, s) :: rest =>
      exists e1 l1,
        iteration_post dev i s e1 l1 /\
        match e1 with
        | Done _ => exists l2, l = l1 ++ l2 /\ sweep_post dev rest e l2
        | Failed x => e = Failed x /\ l = l1
        end
  end.

(** *** Observing a run *)

Definition banner : list obs := [Printed Rule; Printed Title; Printed Rule].

Definition chosen_device (r1 : reply) : device :=
  if out_bool r1 then cuda else cpu.

(** What a run leaves before its sweep starts, the four calls having
    returned [r1] to [r4]. *)
Definition prologue (r1 r2 r3 r4 : reply) : list obs :=
  banner
  ++ [Called is_available r1; Called is_available r2;
      Printed (DeviceLine (chosen_device r1));
      Called (get_device_name 0) r3; Printed (GpuLine (out_text r3));
      Called version r4; Printed (VersionLine (out_text r4));
      Printed Rule; Printed Starting; Printed Rule].

(** What a run leaves after its sweep, [rs] being the records. *)
Definition summary (rs : list result) : list obs :=
  [Printed Rule; Printed SummaryTitle; Printed Rule]
  ++ map (fun r => Printed (ResultLine r)) rs
  ++ [Printed Rule].

(** How a run from the empty log ends, case by case: a call before the
    sweep raised; the second availability query answered [False]; or the
    sweep ran, to its end and the summary, or up to the iteration that
    failed. *)
Definition run_post (e : ending unit) (l : list obs) : Prop :=
  (exists r1 what,
      raised r1 = Some what /\ e = Failed (Lib what) /\
      l = banner ++ [Called is_available r1])
  \/
  (exists r1 r2 what,
      raised r1 = None /\ raised r2 = Some what /\ e = Failed (Lib what) /\
      l = banner ++ [Called is_available r1; Called is_available r2])
  \/
  (exists r1 r2,
      raised r1 = None /\ raised r2 = None /\ out_bool r2 = false /\
      e = Failed (Py (SystemExit 1)) /\
      l = banner ++ [Called is_available r1; Called is_available r2;
                     Printed NotAvailable])
  \/
  (exists r1 r2 r3 what,
      raised r1 = None /\ raised r2 = None /\ out_bool r2 = true /\
      raised r3 = Some what /\ e = Failed (Lib what) /\
      l = banner ++ [Called is_available r1; Called is_available r2;
                     Printed (DeviceLine (chosen_device r1));
                     Called (get_device_name 0) r3])
  \/
  (exists r1 r2 r3 r4 what,
      raised r1 = None /\ raised r2 = None /\ out_bool r2 = true /\
      raised r3 = None /\ raised r4 = Some what /\ e = Failed (Lib what) /\
      l = banner ++ [Called is_available r1; Called is_available r2;
                     Printed (DeviceLine (chosen_device r1));
                     Called (get_device_name 0) r3;
                     Printed (GpuLine (out_text r3));
                     Called version r4])
  \/
  (exists r1 r2 r3 r4 e1 body,
      raised r1 = None /\ raised r2 = None /\ out_bool r2 = true /\
      raised r3 = None /\ raised r4 = None /\
      sweep_post (chosen_device r1) (enumerate test_cases 1) e1 body /\
      match e1 with
      | Done _ =>
          e = Done tt /\
          l = prologue r1 r2 r3 r4 ++ body ++ summary (appended body)
      | Failed x =>
          e = Failed x /\ l = prologue r1 r2 r3 r4 ++ body
      end).

(** The healthy machine, except that the first availability query, the
    fourth event of a run, answers [False]. *)
Definition late_gpu_world : world :=
  fun log c =>
    let r := healthy_world log c in
    if Nat.eqb (List.length log) 3
    then mk_reply None false (out_text r) (out_tensor r) (out_float r)
    else r.

End Torch.

(** ** The kernel filter of [pytorch-profiler.py] *)

Module Profiler.

(** [needle in hay] on Python strings. *)
Fixpoint contains (needle hay : string) : bool :=
  String.prefix needle hay
  || match hay with
     | EmptyString => false
     | String _ rest => contains needle rest
     end.

(** The test of line 58 on [key_lower], the value of [evt.key.lower()]. *)
Definition selected (key_lower : string) : bool :=
  contains "gemm" key_lower || contains "mm" key_lower || contains "blas" key_lower.

End Profiler.

(** ** The weakest precondition of a computation *)

(** [wp c w st Q]: run from [st] in the world [w], the computation [c] ends
    with an outcome and a state that satisfy [Q]. *)
Variant wp {A} (c : M A) (w : world) (st : state)
    (Q : outcome A -> state -> Prop) : Prop :=
| wp_intro : Q (fst (c w st)) (snd (c w st)) -> wp c w st Q.

(** ** The rules of the calculus *)

Lemma wp_elim {A} (c : M A) w st Q :
  wp c w st Q -> Q (fst (c w st)) (snd (c w st)).
Proof. intros [H]. exact H. Qed.

Lemma wp_consequence {A} (c : M A) w st (Q Q' : outcome A -> state -> Prop) :
  wp c w st Q -> (forall o st', Q o st' -> Q' o st') -> wp c w st Q'.
Proof. intros [H] HQ. constructor. apply HQ, H. Qed.

Lemma wp_ret {A} (a : A) w st Q : Q (Ok a) st -> wp (ret a) w st Q.
Proof. intros H. constructor. exact H. Qed.

Lemma wp_raise {A} e w st (Q : outcome A -> state -> Prop) :
  Q (Raise e) st -> wp (raise e) w st Q.
Proof. intros H. constructor. exact H. Qed.

Lemma wp_lift {A} (o : outcome A) w st Q : Q o st -> wp (lift o) w st Q.
Proof. intros H. constructor. exact H. Qed.

Lemma wp_bind {A B} (c : M A) (f : A -> M B) w st Q :
  wp c w st (fun o st' =>
    match o with Ok a => wp (f a) w st' Q | Raise e => Q (Raise e) st' end) ->
  wp (bind c f) w st Q.
Proof.
  intros [H]. constructor. unfold bind.
  destruct (c w st) as [[a|e] st']; cbn in *; [ destruct H as [H] | ]; exact H.
Qed.

Lemma wp_ffi c w st (Q : outcome reply -> state -> Prop) :
  (forall r, r = w (trace st) c ->
     Q (Ok r)
       (mk_state (trace st ++ [(c, r)]) (results st) (results_sorted st) (stdout st))) ->
  wp (ffi c) w st Q.
Proof. intros H. constructor. apply H. reflexivity. Qed.

Lemma wp_hip_check s msg w st (Q : outcome unit -> state -> Prop) :
  (s <> 0 -> Q (Raise (RuntimeError msg s)) st) ->
  (s = 0 -> Q (Ok tt) st) ->
  wp (hip_check s msg) w st Q.
Proof.
  intros Hne Heq. constructor. unfold hip_check, HIP_SUCCESS.
  destruct (Z.eqb_spec s 0); cbn; auto.
Qed.

Lemma wp_rocblas_check s msg w st (Q : outcome unit -> state -> Prop) :
  (s <> 0 -> Q (Raise (RuntimeError msg s)) st) ->
  (s = 0 -> Q (Ok tt) st) ->
  wp (rocblas_check s msg) w st Q.
Proof.
  intros Hne Heq. constructor. unfold rocblas_check, ROCBLAS_STATUS_SUCCESS.
  destruct (Z.eqb_spec s 0); cbn; auto.
Qed.

Lemma wp_print l w st (Q : outcome unit -> state -> Prop) :
  Q (Ok tt) (mk_state (trace st) (results st) (results_sorted st) (stdout st ++ [l])) ->
  wp (print l) w st Q.
Proof. intros H. constructor. exact H. Qed.

Lemma wp_results_append r w st (Q : outcome unit -> state -> Prop) :
  Q (Ok tt) (mk_state (trace st) (results st ++ [r]) (results_sorted st) (stdout st)) ->
  wp (results_append r) w st Q.
Proof. intros H. constructor. exact H. Qed.

Lemma wp_get_results w st (Q : outcome (list result) -> state -> Prop) :
  Q (Ok (results st)) st -> wp get_results w st Q.
Proof. intros H. constructor. exact H. Qed.

Lemma wp_set_results_sorted l w st (Q : outcome unit -> state -> Prop) :
  Q (Ok tt) (mk_state (trace st) (results st) (Some l) (stdout st)) ->
  wp (set_results_sorted l) w st Q.
Proof. intros H. constructor. exact H. Qed.

(** Symbolic execution: one rule per step, the state kept in normal form. *)
Ltac wp_simpl :=
  cbv beta iota; cbn [trace results results_sorted stdout for_range].

Ltac wp_step :=
  first
    [ apply wp_bind
    | apply wp_ffi;
      let r := fresh "r" in
      let Hr := fresh "Hr" in
      intros r Hr; cbn [trace results results_sorted stdout] in Hr
    | apply wp_hip_check;
      [ let H := fresh "Hfail" in intro H | let H := fresh "Hok" in intro H ]
    | apply wp_rocblas_check;
      [ let H := fresh "Hfail" in intro H | let H := fresh "Hok" in intro H ]
    | apply wp_print
    | apply wp_results_append
    | apply wp_get_results
    | apply wp_set_results_sorted
    | apply wp_lift;
      match goal with
      | |- match ?o with Ok _ => _ | Raise _ => _ end =>
          let E := fresh "Earith" in destruct o eqn:E
      end
    | apply wp_ret
    | apply wp_raise ];
  wp_simpl.

Ltac use_ok :=
  repeat match goal with
         | H : status ?r = 0 |- _ => rewrite H
         end.

Ltac answered :=
  cbn [answered_by ev_reply ev_call fst snd app];
  repeat match goal with
         | |- _ /\ _ => split
         | |- True => exact I
         | H : ?r = ?w ?h ?c |- ?r = ?w ?h' ?c => exact H
         end.

(** ** Python arithmetic: which exceptions [tops] can raise *)

Lemma tops_raises m n k avg e :
  tops m n k avg = Raise e -> e = ZeroDivisionError \/ e = OverflowError.
Proof.
  unfold tops, py_int_div_float, py_float_of_int, py_float_div.
  destruct (Z.abs (2 * m * n * k) <? 2 ^ 1024 - 2 ^ 970).
  - destruct (PrimFloat.eqb _ _); intros H; inversion H; auto.
  - intros H; inversion H; auto.
Qed.

(** ** One iteration *)

Lemma bench_shape_post handle s w st :
  wp (bench_shape handle s) w st (iteration_post handle s w st).
Proof.
  destruct s as [[m n] k]. destruct st as [t0 r0 s0 o0].
  unfold bench_shape, warmup_iters, bench_iters, element_size.
  cbv zeta. wp_simpl.
  repeat wp_step.
  all: unfold iteration_post; cbn [trace results results_sorted stdout];
    rewrite <- ?app_assoc; cbn [app];
    eexists; split; [ reflexivity | ];
    split; [ reflexivity | ];
    split; [ answered | ].
  all: unfold iteration_ok, complete, no_free, raised_at, recorded, perf_line.
  all: (split; [ split; [ eexists; cbn; reflexivity | ] | ]).
  all: cbn -[tops measured_avg time_ms Z.mul]; use_ok;
    cbn -[tops measured_avg time_ms Z.mul].
  all: unfold measured_avg, clock_at; cbn [nth_error ev_reply snd].
  all: try (repeat split; try reflexivity;
            left; do 2 eexists; repeat split; try reflexivity; assumption).
  - split; [ split; reflexivity | ].
    eexists; split; [ eexists; split; [ exact Earith | reflexivity ] | ].
    split; reflexivity.
  - repeat split; try reflexivity.
    right; repeat split; try reflexivity; [ | exact Earith ].
    exact (tops_raises _ _ _ _ _ Earith).
Qed.

(** ** The sweep: a sequence of iterations *)

Lemma answered_by_app w h l1 l2 :
  answered_by w h (l1 ++ l2) <->
  answered_by w h l1 /\ answered_by w (h ++ l1) l2.
Proof.
  revert h. induction l1 as [|e l1 IH]; intros h; cbn [app answered_by].
  - rewrite app_nil_r. tauto.
  - rewrite IH, <- app_assoc. cbn [app]. tauto.
Qed.

Lemma for_each_post handle shapes w st :
  wp (for_each shapes (bench_shape handle)) w st (sweep_post handle shapes w st).
Proof.
  revert st. induction shapes as [|s shapes IH]; intros st; cbn [for_each].
  - apply wp_ret. exists [], [], []. cbn. rewrite !app_nil_r.
    repeat split; auto. constructor.
  - apply wp_bind.
    eapply wp_consequence; [ apply bench_shape_post | ].
    intros [[]|e] st1 (l & Htr & Hsrt & Hans & Hit & Hout).
    + destruct Hout as (Hc & r & Hrec & Hres & Hpr).
      eapply wp_consequence; [ apply IH | ].
      intros o st2 (done & rs & tail & Htr2 & Hans2 & Hres2 & Hsrt2 & Hpr2 & Hdone & Hend).
      exists ((s, l) :: done), (r :: rs), tail.
      unfold events_of in *. cbn [map snd List.concat].
      rewrite Htr2, Htr, Hres2, Hres, Hsrt2, Hsrt, Hpr2, Hpr, <- !app_assoc.
      cbn [map app].
      repeat split; auto.
      * apply answered_by_app. split; [ exact Hans | ].
        rewrite <- Htr. exact Hans2.
      * constructor; [ cbn; auto | exact Hdone ].
      * destruct o as [[]|e2]; cbn [map fst].
        -- destruct Hend as [-> <-]. auto.
        -- destruct Hend as (s2 & rest & -> & Hrest). exists s2, rest. auto.
    + destruct Hout as (Hres & Hpr & Hnf & Hra).
      exists [], [], l. cbn. rewrite Htr, Hres, Hpr, Hsrt, !app_nil_r.
      repeat split; auto; [ constructor | ].
      exists s, shapes. auto.
Qed.

(** Loops over lists built by [++], [map] and [flat_map]. *)
Lemma for_each_app {A} (l1 l2 : list A) body w st :
  for_each (l1 ++ l2) body w st =
  (for_each l1 body ;; for_each l2 body) w st.
Proof.
  revert st. induction l1 as [|x l1 IH]; intros st; cbn [app for_each].
  - unfold bind, ret. reflexivity.
  - unfold bind at 1 2 3.
    destruct (body x w st) as [[[]|e] st1]; [ | reflexivity ].
    rewrite IH. reflexivity.
Qed.

Lemma for_each_map {A B} (g : A -> B) (l : list A) body w st :
  for_each (map g l) body w st = for_each l (fun x => body (g x)) w st.
Proof.
  revert st. induction l as [|x l IH]; intros st; cbn [map for_each].
  - reflexivity.
  - unfold bind. destruct (body (g x) w st) as [[[]|e] st1]; auto.
Qed.

Lemma for_each_ext {A} (l : list A) (body body' : A -> M unit) w st :
  (forall x st1, body x w st1 = body' x w st1) ->
  for_each l body w st = for_each l body' w st.
Proof.
  intros Hext. revert st. induction l as [|x l IH]; intros st; cbn [for_each].
  - reflexivity.
  - unfold bind. rewrite Hext. destruct (body' x w st) as [[[]|e] st1]; auto.
Qed.

Lemma for_each_flat_map {A B} (g : A -> list B) (l : list A) body w st :
  for_each (flat_map g l) body w st =
  for_each l (fun x => for_each (g x) body) w st.
Proof.
  revert st. induction l as [|x l IH]; intros st; cbn [flat_map for_each].
  - reflexivity.
  - rewrite for_each_app. unfold bind.
    destruct (for_each (g x) body w st) as [[[]|e] st1]; auto.
Qed.

Lemma benchmark_sweep_flat handle w st :
  Benchmark.sweep handle w st =
  for_each benchmark_shapes (bench_shape handle) w st.
Proof.
  unfold Benchmark.sweep, benchmark_shapes.
  rewrite for_each_flat_map. apply for_each_ext. intros m st1.
  rewrite for_each_flat_map. apply for_each_ext. intros n st2.
  rewrite for_each_map. reflexivity.
Qed.

Lemma benchmark_shapes_order :
  List.length benchmark_shapes = 64%nat /\
  firstn 5 benchmark_shapes =
    [ (1024, 1024, 1024); (1024, 1024, 2048); (1024, 1024, 4096);
      (1024, 1024, 8192); (1024, 2048, 1024) ].
Proof. split; reflexivity. Qed.

Lemma sweep_arguments_fit_c_int :
  forallb fits_c_int (benchmark_shapes ++ Quick.test_cases) = true.
Proof. vm_compute. reflexivity. Qed.

(** ** The set-up and the report *)

Ltac wp_if :=
  match goal with
  | |- wp (if ?b then _ else _) _ _ _ =>
      let E := fresh "Eif" in destruct b eqn:E
  end.

Ltac setup_end :=
  unfold setup_post; cbn [trace results results_sorted stdout];
  rewrite <- ?app_assoc; cbn [app];
  eexists; split; [ reflexivity | ];
  split; [ answered | ];
  repeat split; try reflexivity;
  try (left; reflexivity);
  try (right; do 2 eexists; split; [ reflexivity | assumption ]);
  try (eexists; split; [ reflexivity | split; [ assumption | reflexivity ] ]).

Lemma benchmark_setup_post w st : wp Benchmark.setup w st (setup_post w st).
Proof.
  destruct st as [t0 r0 s0 o0].
  unfold Benchmark.setup, load_libraries, create_handle.
  repeat first [ wp_step | wp_if ]; setup_end.
Qed.

Lemma quick_setup_post w st : wp Quick.setup w st (setup_post w st).
Proof.
  destruct st as [t0 r0 s0 o0].
  unfold Quick.setup, load_libraries, create_handle.
  repeat first [ wp_step | wp_if ]; setup_end.
Qed.

Lemma for_each_print {A} (f : A -> line) (l : list A) w st :
  for_each l (fun x => print (f x)) w st =
  (Ok tt,
   mk_state (trace st) (results st) (results_sorted st) (stdout st ++ map f l)).
Proof.
  revert st. induction l as [|x l IH]; intros st; cbn [for_each map].
  - rewrite app_nil_r. destruct st; reflexivity.
  - unfold bind, print at 1. rewrite IH. cbn [trace results results_sorted stdout].
    rewrite <- app_assoc. reflexivity.
Qed.

Lemma wp_for_each_print {A} (f : A -> line) (l : list A) w st
    (Q : outcome unit -> state -> Prop) :
  Q (Ok tt)
    (mk_state (trace st) (results st) (results_sorted st) (stdout st ++ map f l)) ->
  wp (for_each l (fun x => print (f x))) w st Q.
Proof. intros H. constructor. rewrite for_each_print. exact H. Qed.

Lemma benchmark_report_post w st :
  wp Benchmark.report w st
    (report_post benchmark_report_lines (fun rs => Some (sorted_by_tops rs)) st).
Proof.
  destruct st as [t0 r0 s0 o0]. unfold Benchmark.report. cbv zeta.
  repeat first [ apply wp_for_each_print; wp_simpl | wp_step ].
  unfold report_post, benchmark_report_lines.
  cbn [trace results results_sorted stdout].
  rewrite <- !app_assoc. cbn [app]. auto.
Qed.

Lemma quick_report_post w st :
  results_sorted st = None ->
  wp Quick.report w st (report_post quick_report_lines (fun _ => None) st).
Proof.
  intros Hs. destruct st as [t0 r0 s0 o0]. unfold Quick.report.
  repeat first [ apply wp_for_each_print; wp_simpl | wp_step ].
  unfold report_post, quick_report_lines.
  cbn [trace results results_sorted stdout] in *. auto.
Qed.

(** ** A whole script *)

Lemma wp_ext {A} (c c' : M A) w st Q :
  c w st = c' w st -> wp c' w st Q -> wp c w st Q.
Proof. intros E [H]. constructor. rewrite E. exact H. Qed.

Section Script.

Variable setup : M c_void_p.
Variable sweep : c_void_p -> M unit.
Variable report : M unit.
Variable shapes : list shape.
Variable lines : list result -> list line.
Variable sorted : list result -> option (list result).

Hypothesis setup_spec : forall w st, wp setup w st (setup_post w st).
Hypothesis sweep_spec :
  forall handle w st,
    sweep handle w st = for_each shapes (bench_shape handle) w st.
Hypothesis report_spec :
  forall w st, results_sorted st = None ->
    wp report w st (report_post lines sorted st).

Definition script : M unit :=
  handle <- setup ;;
  sweep handle ;;
  ffi (rocblas_destroy_handle handle) ;;
  report.

Lemma script_wp w :
  wp script w initial_state (script_post shapes lines sorted w).
Proof.
  unfold script. apply wp_bind.
  eapply wp_consequence; [ apply setup_spec | ].
  intros [handle|e] st1 (pre & Htr1 & Hans1 & Hres1 & Hsrt1 & Hout1 & Hpre & Hend1);
    cbn [initial_state trace results results_sorted stdout app] in *.
  - destruct Hend1 as (hr & Hlast & Hst & ->).
    apply wp_bind. eapply wp_ext; [ apply sweep_spec | ].
    eapply wp_consequence; [ apply for_each_post | ].
    intros [[]|e] st2
      (done & rs & tail & Htr2 & Hans2 & Hres2 & Hsrt2 & Hout2 & Hdone & Hend2);
      rewrite Htr1 in Htr2, Hans2; rewrite Hres1 in Hres2; rewrite Hsrt1 in Hsrt2;
      rewrite Hout1 in Hout2; cbn [app] in *.
    + destruct Hend2 as [-> Hshapes]. rewrite app_nil_r in *.
      apply wp_bind, wp_ffi. intros dr Hdr.
      eapply wp_consequence;
        [ apply report_spec; cbn [results_sorted]; exact Hsrt2 | ].
      intros o st4 (-> & Htr4 & Hres4 & Hsrt4 & Hout4);
        cbn [trace results results_sorted stdout] in *.
      exists pre. split; [ exact Hpre | ].
      rewrite Htr4, Hres4, Hsrt4, Hout4, Hres2, Hout2, Htr2.
      split.
      * apply answered_by_app. split.
        -- apply (answered_by_app w [] pre (events_of done)). auto.
        -- cbn. rewrite Hdr, Htr2. auto.
      * right. exists hr, done. repeat split; auto.
        exists dr. rewrite <- app_assoc. reflexivity.
    + destruct Hend2 as (s & rest & Hshapes & Hit & Hnf & Hra).
      exists pre. split; [ exact Hpre | ].
      rewrite Htr2, Hres2, Hsrt2, Hout2.
      split.
      * apply (answered_by_app w [] pre (events_of done ++ tail)). auto.
      * right. exists hr, done. repeat split; auto.
        exists s, rest, tail. repeat split; auto; apply Hit.
  - exists pre. split; [ exact Hpre | ].
    rewrite Htr1, Hres1, Hsrt1, Hout1. split; [ exact Hans1 | ].
    left. exists e. repeat split; auto.
Qed.

Lemma script_run w :
  script_post shapes lines sorted w (fst (run script w)) (snd (run script w)).
Proof. exact (wp_elim _ _ _ _ (script_wp w)). Qed.

End Script.

Lemma benchmark_main_run w :
  script_post benchmark_shapes benchmark_report_lines
    (fun rs => Some (sorted_by_tops rs)) w
    (fst (run Benchmark.main w)) (snd (run Benchmark.main w)).
Proof.
  apply (script_run Benchmark.setup Benchmark.sweep Benchmark.report).
  - exact benchmark_setup_post.
  - exact benchmark_sweep_flat.
  - intros w' st _. apply benchmark_report_post.
Qed.

Lemma quick_main_run w :
  script_post Quick.test_cases quick_report_lines (fun _ => None) w
    (fst (run Quick.main w)) (snd (run Quick.main w)).
Proof.
  apply (script_run Quick.setup Quick.sweep Quick.report).
  - exact quick_setup_post.
  - reflexivity.
  - exact quick_report_post.
Qed.

(** ** The trace of one iteration *)

Lemma skipn_length_app {A} (l1 l2 : list A) :
  skipn (List.length l1) (l1 ++ l2) = l2.
Proof. induction l1 as [|x l1 IH]; cbn; auto. Qed.

Lemma iteration_trace_post handle s w st :
  let st' := snd (bench_shape handle s w st) in
  let l := iteration_trace handle s w st in
  trace st' = trace st ++ l /\
  results_sorted st' = results_sorted st /\
  answered_by w (trace st) l /\
  iteration_ok handle s l /\
  match iteration_outcome handle s w st with
  | Ok _ =>
      complete l /\
      exists r,
        recorded s l r /\
        results st' = results st ++ [r] /\
        stdout st' = stdout st ++ [perf_line r]
  | Raise e =>
      results st' = results st /\
      stdout st' = stdout st /\
      no_free l /\
      raised_at s l e
  end.
Proof.
  cbv zeta. unfold iteration_trace, iteration_outcome.
  destruct (wp_elim _ _ _ _ (bench_shape_post handle s w st))
    as (l & Htr & Hsrt & Hans & Hit & Hend).
  rewrite Htr, skipn_length_app. rewrite <- Htr. auto.
Qed.

Lemma is_prefix_forallb {A} (p : A -> bool) (l1 l2 : list A) :
  is_prefix l1 l2 -> forallb p l2 = true -> forallb p l1 = true.
Proof.
  intros [t ->]. rewrite forallb_app. intros H.
  apply andb_true_iff in H. tauto.
Qed.

Lemma is_prefix_map {A B} (f : A -> B) (l1 l2 : list A) :
  is_prefix l1 l2 -> is_prefix (map f l1) (map f l2).
Proof. intros [t ->]. exists (map f t). apply map_app. Qed.

Lemma is_prefix_full {A} (l1 l2 : list A) :
  is_prefix l1 l2 -> List.length l1 = List.length l2 -> l1 = l2.
Proof.
  intros [t ->]. rewrite length_app. intros H.
  destruct t; [ symmetry; apply app_nil_r | cbn in H; lia ].
Qed.

(** A property of every call of the protocol holds of every call an
    iteration issues. *)
Lemma iteration_calls_forall (p : call -> bool) handle s l :
  iteration_ok handle s l ->
  (forall d_A d_B d_C, forallb p (shape_protocol handle s d_A d_B d_C) = true) ->
  forallb p (map ev_call l) = true.
Proof.
  intros [Hpre _] Hp. eapply is_prefix_forallb; [ exact Hpre | apply Hp ].
Qed.

(** A complete iteration issued the whole protocol. *)
Lemma complete_calls handle s l :
  iteration_ok handle s l -> complete l ->
  map ev_call l = shape_protocol handle s (ptr_at 0 l) (ptr_at 1 l) (ptr_at 2 l).
Proof.
  intros [Hpre _] [Hlen _]. apply is_prefix_full; [ exact Hpre | ].
  rewrite length_map, Hlen. destruct s as [[m n] k]. reflexivity.
Qed.

Lemma forallb_In {A} (p : A -> bool) (l : list A) x :
  forallb p l = true -> In x l -> p x = true.
Proof. intros H. apply (proj1 (forallb_forall p l) H). Qed.

Lemma is_prefix_In {A} (l1 l2 : list A) x :
  is_prefix l1 l2 -> In x l1 -> In x l2.
Proof. intros [t ->] H. apply in_or_app. auto. Qed.

(** Every call an iteration issues is a call of the protocol on the
    buffers its first three calls returned. *)
Lemma iteration_call_in_protocol handle s w st c :
  let l := iteration_trace handle s w st in
  In c (map ev_call l) ->
  In c (shape_protocol handle s (ptr_at 0 l) (ptr_at 1 l) (ptr_at 2 l)).
Proof.
  cbv zeta. intros Hin.
  destruct (iteration_trace_post handle s w st) as (_ & _ & _ & [Hpre _] & _).
  eapply is_prefix_In; eassumption.
Qed.

(** Case analysis on membership in an explicit list. *)
Ltac in_cases H :=
  cbn [shape_protocol repeat app In] in H;
  repeat match type of H with
         | _ \/ _ => destruct H as [H|H]
         | False => destruct H
         end.

Lemma protocol_kinds handle s d_A d_B d_C :
  map kind_of (shape_protocol handle s d_A d_B d_C) = iteration_kinds.
Proof. destruct s as [[m n] k]. reflexivity. Qed.

Lemma is_prefix_nth_error {A} (l1 l2 : list A) i x :
  is_prefix l1 l2 -> nth_error l1 i = Some x -> nth_error l2 i = Some x.
Proof.
  intros [t ->] H. rewrite nth_error_app1; [ exact H | ].
  apply nth_error_Some. congruence.
Qed.

(** ** Every call of a run *)

Lemma completed_call_in_protocol handle done rs c :
  completed handle done rs ->
  In c (map ev_call (events_of done)) ->
  exists s d_A d_B d_C,
    In s (map fst done) /\ In c (shape_protocol handle s d_A d_B d_C).
Proof.
  intros Hdone. unfold events_of.
  induction Hdone as [|[s l] r done rs (Hit & _) _ IH]; cbn [map snd fst List.concat].
  - intros [].
  - rewrite map_app. intros Hin. apply in_app_or in Hin. destruct Hin as [Hin|Hin].
    + exists s, (ptr_at 0 l), (ptr_at 1 l), (ptr_at 2 l). split; [ left; reflexivity | ].
      eapply is_prefix_In; [ apply Hit | exact Hin ].
    + destruct (IH Hin) as (s' & dA & dB & dC & Hs & Hc).
      exists s', dA, dB, dC. split; [ right; exact Hs | exact Hc ].
Qed.

(** A call of a run is a set-up call, the final [rocblas_destroy_handle],
    or a call of the protocol of a shape of the sweep. *)
Lemma script_call_in_protocol shapes lines sorted w o st c :
  script_post shapes lines sorted w o st ->
  In c (map ev_call (trace st)) ->
  is_setup c = true \/ is_destroy c = true \/
  exists handle s d_A d_B d_C,
    In s shapes /\ In c (shape_protocol handle s d_A d_B d_C).
Proof.
  intros (pre & Hpre & _ & [(e & _ & _ & Htr & _) | (hr & done & _ & _ & Hdone & Hend)]) Hin.
  - rewrite Htr in Hin. left. exact (forallb_In _ _ _ Hpre Hin).
  - assert (Hsweep : forall tail s rest,
               shapes = map fst done ++ s :: rest \/ (tail = [] /\ shapes = map fst done) ->
               (tail <> [] -> iteration_ok (out_ptr hr) s tail) ->
               In c (map ev_call (pre ++ events_of done ++ tail)) ->
               is_setup c = true \/
               exists handle s d_A d_B d_C,
                 In s shapes /\ In c (shape_protocol handle s d_A d_B d_C)).
    { intros tail s rest Hshapes Hit Hc. rewrite !map_app in Hc.
      apply in_app_or in Hc. destruct Hc as [Hc|Hc];
        [ left; exact (forallb_In _ _ _ Hpre Hc) | right ].
      apply in_app_or in Hc. destruct Hc as [Hc|Hc].
      - destruct (completed_call_in_protocol _ _ _ _ Hdone Hc)
          as (s' & dA & dB & dC & Hs & Hp).
        exists (out_ptr hr), s', dA, dB, dC. split; [ | exact Hp ].
        destruct Hshapes as [->|[_ ->]]; [ apply in_or_app; left | ]; exact Hs.
      - destruct tail as [|ev tail]; [ destruct Hc | ].
        destruct Hshapes as [->|[Hnil _]]; [ | discriminate Hnil ].
        exists (out_ptr hr), s, (ptr_at 0 (ev :: tail)), (ptr_at 1 (ev :: tail)),
          (ptr_at 2 (ev :: tail)).
        split; [ apply in_or_app; right; left; reflexivity | ].
        eapply is_prefix_In; [ apply Hit; discriminate | exact Hc ]. }
    destruct o as [[]|e].
    + destruct Hend as (Hshapes & (dr & Htr) & _). rewrite Htr in Hin.
      rewrite app_assoc, map_app in Hin. apply in_app_or in Hin.
      destruct Hin as [Hin|[<-|[]]]; [ | right; left; reflexivity ].
      destruct (Hsweep [] (0, 0, 0) []) as [H|H]; auto.
      * intros Hne. destruct (Hne eq_refl).
      * rewrite app_nil_r. exact Hin.
    + destruct Hend as (s & rest & tail & Hshapes & Htr & Hit & _).
      rewrite Htr in Hin.
      destruct (Hsweep tail s rest) as [H|H]; auto.
Qed.

Lemma script_gemm_call shapes lines sorted w o st a :
  script_post shapes lines sorted w o st ->
  In (rocblas_gemm_ex a) (map ev_call (trace st)) ->
  gemm_as_issued shapes a.
Proof.
  intros Hpost Hin.
  destruct (script_call_in_protocol _ _ _ _ _ _ _ Hpost Hin)
    as [H|[H|(handle & [[m n] k] & dA & dB & dC & Hs & Hc)]];
    try discriminate H.
  in_cases Hc; try discriminate Hc; inversion Hc; unfold gemm_as_issued; cbn;
    repeat split; auto.
Qed.

Lemma benchmark_gemm_call w a :
  In (rocblas_gemm_ex a) (map ev_call (trace (snd (run Benchmark.main w)))) ->
  gemm_as_issued benchmark_shapes a.
Proof. eapply script_gemm_call, benchmark_main_run. Qed.

Lemma quick_gemm_call w a :
  In (rocblas_gemm_ex a) (map ev_call (trace (snd (run Quick.main w)))) ->
  gemm_as_issued Quick.test_cases a.
Proof. eapply script_gemm_call, quick_main_run. Qed.

(** ** The calls of an iteration *)

(** C6.  For every shape [(m, n, k)], every [rocblas_gemm_ex] call of its
    iteration is passed the leading dimensions [lda = m], [ldb = k] and
    [ldc = m]; and so is, for the [m] and [k] it is passed, every
    [rocblas_gemm_ex] call of a run of either script. *)
Theorem C6_leading_dimensions handle m n k w st a :
  (In (rocblas_gemm_ex a) (map ev_call (iteration_trace handle (m, n, k) w st)) ->
   g_lda a = m /\ g_ldb a = k /\ g_ldc a = m) /\
  (In (rocblas_gemm_ex a) (map ev_call (trace (snd (run Benchmark.main w)))) \/
   In (rocblas_gemm_ex a) (map ev_call (trace (snd (run Quick.main w)))) ->
   g_lda a = g_m a /\ g_ldb a = g_k a /\ g_ldc a = g_m a).
Proof.
  split.
  - intros Hin. apply iteration_call_in_protocol in Hin.
    in_cases Hin; try discriminate Hin; inversion Hin; cbn; auto.
  - intros [Hin|Hin];
      [ apply benchmark_gemm_call in Hin | apply quick_gemm_call in Hin ];
      destruct Hin as (_ & _ & _ & Ha & Hb & Hc & _); auto.
Qed.

(** C9.  Every [rocblas_gemm_ex] call, of one iteration and of a run of
    either script, passes the same device pointer, the same element type
    and the same leading dimension in the C-input slot and in the D-output
    slot: D aliases C. *)
Theorem C9_output_aliases_c handle s w st a :
  In (rocblas_gemm_ex a) (map ev_call (iteration_trace handle s w st)) \/
  In (rocblas_gemm_ex a) (map ev_call (trace (snd (run Benchmark.main w)))) \/
  In (rocblas_gemm_ex a) (map ev_call (trace (snd (run Quick.main w)))) ->
  g_D a = g_C a /\ g_d_type a = g_c_type a /\ g_ldd a = g_ldc a.
Proof.
  destruct s as [[m n] k].
  intros [Hin|[Hin|Hin]].
  - apply iteration_call_in_protocol in Hin.
    in_cases Hin; try discriminate Hin; inversion Hin; cbn; auto.
  - apply benchmark_gemm_call in Hin.
    destruct Hin as (_ & _ & _ & _ & _ & _ & Ha & Hb & Hc & _); auto.
  - apply quick_gemm_call in Hin.
    destruct Hin as (_ & _ & _ & _ & _ & _ & Ha & Hb & Hc & _); auto.
Qed.

Lemma example_gemm_issued :
  In (rocblas_gemm_ex example_gemm) (map ev_call example_trace).
Proof. apply nth_error_In with (n := 5%nat). vm_compute. reflexivity. Defined.

Lemma example_run_gemm_issued :
  In (rocblas_gemm_ex example_run_gemm)
    (map ev_call (trace (snd (run Quick.main healthy_world)))).
Proof. apply nth_error_In with (n := 10%nat). vm_compute. reflexivity. Defined.

Lemma C6_leading_dimensions_witness :
  (g_lda example_gemm = 2048 /\ g_ldb example_gemm = 2048 /\
   g_ldc example_gemm = 2048) /\
  (g_lda example_run_gemm = g_m example_run_gemm /\
   g_ldb example_run_gemm = g_k example_run_gemm /\
   g_ldc example_run_gemm = g_m example_run_gemm).
Proof.
  split.
  - exact (proj1 (C6_leading_dimensions example_handle 2048 4096 2048
                    healthy_world initial_state example_gemm)
             example_gemm_issued).
  - exact (proj2 (C6_leading_dimensions example_handle 2048 4096 2048
                    healthy_world initial_state example_run_gemm)
             (or_intror example_run_gemm_issued)).
Defined.

Lemma C9_output_aliases_c_witness :
  (g_D example_gemm = g_C example_gemm /\
   g_d_type example_gemm = g_c_type example_gemm /\
   g_ldd example_gemm = g_ldc example_gemm) /\
  (g_D example_run_gemm = g_C example_run_gemm /\
   g_d_type example_run_gemm = g_c_type example_run_gemm /\
   g_ldd example_run_gemm = g_ldc example_run_gemm).
Proof.
  split.
  - exact (C9_output_aliases_c example_handle example_shape
             healthy_world initial_state example_gemm
             (or_introl example_gemm_issued)).
  - exact (C9_output_aliases_c example_handle example_shape
             healthy_world initial_state example_run_gemm
             (or_intror (or_intror example_run_gemm_issued))).
Defined.

(** C7.  For every shape [(m, n, k)] the sizes requested from [hipMalloc]
    are, in this order, [m * k * 2] bytes for A, [k * n * 2] for B and
    [m * n * 2] for C, two bytes per element: an iteration never requests
    another size, and one that runs to its end requested exactly these
    three. *)
Theorem C7_buffer_sizes handle m n k w st :
  let l := iteration_trace handle (m, n, k) w st in
  element_size = 2 /\
  is_prefix (malloc_sizes l)
    [m * k * element_size; k * n * element_size; m * n * element_size] /\
  (iteration_outcome handle (m, n, k) w st = Ok tt ->
   malloc_sizes l = [m * k * 2; k * n * 2; m * n * 2]).
Proof.
  cbv zeta.
  destruct (iteration_trace_post handle (m, n, k) w st)
    as (_ & _ & _ & Hit & Hend).
  assert (Hsizes : forall l' : list event,
             malloc_sizes l' =
             flat_map (fun c => match c with hipMalloc sz => [sz] | _ => [] end)
               (map ev_call l')).
  { intros l'. unfold malloc_sizes.
    induction l' as [|e l' IH]; cbn [map flat_map]; [ | rewrite IH ]; reflexivity. }
  split; [ reflexivity | ]. split.
  - destruct Hit as [[t Ht] _]. rewrite Hsizes.
    exists (flat_map (fun c => match c with hipMalloc sz => [sz] | _ => [] end) t).
    rewrite <- flat_map_app, <- Ht. reflexivity.
  - intros Hok. rewrite Hok in Hend. destruct Hend as [Hc _].
    rewrite Hsizes, (complete_calls _ _ _ Hit Hc). reflexivity.
Qed.

Lemma C7_buffer_sizes_witness :
  malloc_sizes example_trace = [2048 * 2048 * 2; 2048 * 4096 * 2; 2048 * 4096 * 2].
Proof.
  apply (C7_buffer_sizes example_handle 2048 4096 2048 healthy_world initial_state).
  vm_compute. reflexivity.
Defined.

(** C10.  In every iteration the only host-to-device copies are the one of
    [h_A] into the A buffer and the one of [h_B] into the B buffer (the
    buffers returned by the first and the second [hipMalloc]); the C
    buffer, returned by the third, is the C and D operand of every GEMM
    call and, being distinct from A and B, is the destination of no copy;
    and every GEMM call passes [alpha = 1.0] and [beta = 0.0]. *)
Theorem C10_c_buffer_never_uploaded handle m n k w st :
  let l := iteration_trace handle (m, n, k) w st in
  let d_A := ptr_at 0 l in
  let d_B := ptr_at 1 l in
  let d_C := ptr_at 2 l in
  (forall dst src size kind,
      In (hipMemcpy dst src size kind) (map ev_call l) ->
      kind = 1 /\
      ((dst = d_A /\ src = h_A m k) \/ (dst = d_B /\ src = h_B k n))) /\
  (forall a,
      In (rocblas_gemm_ex a) (map ev_call l) ->
      g_alpha a = 1%float /\ g_beta a = 0%float /\ g_C a = d_C /\ g_D a = d_C) /\
  (d_C <> d_A -> d_C <> d_B ->
   forall dst src size kind,
     In (hipMemcpy dst src size kind) (map ev_call l) -> dst <> d_C).
Proof.
  cbv zeta.
  assert (Hcopy : forall dst src size kind,
             In (hipMemcpy dst src size kind)
               (map ev_call (iteration_trace handle (m, n, k) w st)) ->
             kind = 1 /\
             ((dst = ptr_at 0 (iteration_trace handle (m, n, k) w st) /\ src = h_A m k) \/
              (dst = ptr_at 1 (iteration_trace handle (m, n, k) w st) /\ src = h_B k n))).
  { intros dst src size kind Hin. apply iteration_call_in_protocol in Hin.
    in_cases Hin; try discriminate Hin; inversion Hin; auto. }
  split; [ exact Hcopy | ]. split.
  - intros a Hin. apply iteration_call_in_protocol in Hin.
    in_cases Hin; try discriminate Hin; inversion Hin; cbn; auto.
  - intros HA HB dst src size kind Hin.
    destruct (Hcopy _ _ _ _ Hin) as [_ [[-> _]|[-> _]]]; congruence.
Qed.

Lemma C10_c_buffer_never_uploaded_witness :
  (1 = 1 /\
   ((Some 4096 = ptr_at 0 example_trace /\ h_A 2048 2048 = h_A 2048 2048) \/
    (Some 4096 = ptr_at 1 example_trace /\ h_A 2048 2048 = h_B 2048 4096))) /\
  (g_alpha example_gemm = 1%float /\ g_beta example_gemm = 0%float /\
   g_C example_gemm = ptr_at 2 example_trace /\
   g_D example_gemm = ptr_at 2 example_trace) /\
  Some 4096 <> ptr_at 2 example_trace.
Proof.
  pose proof (C10_c_buffer_never_uploaded example_handle 2048 4096 2048
                healthy_world initial_state) as (Hcopy & Hgemm & Hdst).
  assert (Hin : In (hipMemcpy (Some 4096) (h_A 2048 2048) (2048 * 2048 * 2) 1)
                  (map ev_call example_trace)).
  { apply nth_error_In with (n := 3%nat). vm_compute. reflexivity. }
  split; [ exact (Hcopy _ _ _ _ Hin) | ].
  split; [ exact (Hgemm _ example_gemm_issued) | ].
  refine (Hdst _ _ _ _ _ _ Hin); vm_compute; discriminate.
Defined.

(** C5.  The calls of an iteration follow, as far as it runs, the kinds
    [iteration_kinds], and all of them when it runs to its end: the barrier
    [hipDeviceSynchronize] is then issued exactly twice, as call 8, right
    after the three warmup GEMM calls, and as call 20, right after the last
    of the ten timed GEMM calls 10 to 19.  In no iteration is a barrier
    issued at another position, so none falls between two timed calls. *)
Theorem C5_sync_barriers handle s w st :
  let l := iteration_trace handle s w st in
  let calls := map ev_call l in
  is_prefix (map kind_of calls) iteration_kinds /\
  (forall i, nth_error calls i = Some hipDeviceSynchronize ->
             i = 8%nat \/ i = 20%nat) /\
  (iteration_outcome handle s w st = Ok tt ->
   map kind_of calls = iteration_kinds /\
   count is_sync l = 2%nat /\
   count is_gemm l = 13%nat).
Proof.
  cbv zeta.
  destruct (iteration_trace_post handle s w st) as (_ & _ & _ & Hit & Hend).
  assert (Hkinds : is_prefix
                     (map kind_of (map ev_call (iteration_trace handle s w st)))
                     iteration_kinds).
  { rewrite <- (protocol_kinds handle s
                  (ptr_at 0 (iteration_trace handle s w st))
                  (ptr_at 1 (iteration_trace handle s w st))
                  (ptr_at 2 (iteration_trace handle s w st))).
    apply is_prefix_map, Hit. }
  split; [ exact Hkinds | ]. split.
  - intros i Hi.
    assert (Hk : nth_error iteration_kinds i = Some KSync).
    { eapply is_prefix_nth_error; [ exact Hkinds | ].
      rewrite nth_error_map, Hi. reflexivity. }
    do 25 (destruct i as [|i]; [ cbn in Hk; try discriminate Hk; auto | ]).
    destruct i; discriminate Hk.
  - intros Hok. rewrite Hok in Hend. destruct Hend as [Hc _].
    unfold count. rewrite (complete_calls _ _ _ Hit Hc).
    destruct s as [[m n] k]. repeat split; reflexivity.
Qed.

Lemma C5_sync_barriers_witness :
  (8 = 8 \/ 8 = 20)%nat /\
  map kind_of (map ev_call example_trace) = iteration_kinds /\
  count is_sync example_trace = 2%nat /\
  count is_gemm example_trace = 13%nat.
Proof.
  pose proof (C5_sync_barriers example_handle example_shape healthy_world initial_state)
    as (_ & Hpos & Hend).
  split.
  - apply Hpos. vm_compute. reflexivity.
  - apply Hend. vm_compute. reflexivity.
Defined.

(** What every GEMM call of an iteration is passed in its operand slots:
    the A buffer with [lda = m] first, the B buffer with [ldb = k] second,
    and the dimensions [m], [n], [k] in this order, without transposition. *)
Lemma gemm_operands handle m n k w st a :
  let l := iteration_trace handle (m, n, k) w st in
  In (rocblas_gemm_ex a) (map ev_call l) ->
  g_A a = ptr_at 0 l /\ g_B a = ptr_at 1 l /\
  g_m a = m /\ g_n a = n /\ g_k a = k /\
  g_transA a = ROCBLAS_OPERATION_NONE /\ g_transB a = ROCBLAS_OPERATION_NONE /\
  g_handle a = handle.
Proof.
  cbv zeta. intros Hin. apply iteration_call_in_protocol in Hin.
  in_cases Hin; try discriminate Hin; inversion Hin; cbn; repeat split; reflexivity.
Qed.

(** C1, on the code.  For the shape (2048, 4096, 2048) of
    [rocblas-quick.py] on the healthy device, [h_A] is copied into the
    buffer at 4096 and [h_B] into the buffer at 8192, and each of the 13
    GEMM calls is [example_gemm]: the A buffer sits in the first operand
    slot with [lda = m = 2048], the B buffer in the second with
    [ldb = k = 2048], and the dimensions are passed as [m = 2048],
    [n = 4096].  The call for the transposed product would pass the B
    buffer first, and [n = 4096] as its first dimension. *)
Lemma C1_gemm_operands_not_swapped :
  nth_error (map ev_call example_trace) 3 =
    Some (hipMemcpy (Some 4096) (h_A 2048 2048) (2048 * 2048 * 2) 1) /\
  nth_error (map ev_call example_trace) 4 =
    Some (hipMemcpy (Some 8192) (h_B 2048 4096) (2048 * 4096 * 2) 1) /\
  filter is_gemm (map ev_call example_trace) =
    repeat (rocblas_gemm_ex example_gemm) 13 /\
  g_A example_gemm = Some 4096 /\
  g_B example_gemm = Some 8192 /\
  (g_m example_gemm, g_n example_gemm, g_k example_gemm) = (2048, 4096, 2048).
Proof. vm_compute. repeat split; reflexivity. Qed.

(** ** Facts about whole runs *)

Lemma count_app p l1 l2 : count p (l1 ++ l2) = (count p l1 + count p l2)%nat.
Proof. unfold count. rewrite map_app, filter_app, length_app. reflexivity. Qed.

Lemma count_none p l :
  forallb (fun c => negb (p c)) (map ev_call l) = true -> count p l = 0%nat.
Proof.
  unfold count. induction l as [|e l IH]; cbn [map forallb filter]; [ reflexivity | ].
  intros H. apply andb_true_iff in H. destruct H as [He Hl].
  destruct (p (ev_call e)); [ discriminate He | auto ].
Qed.

Lemma forallb_weaken {A} (p q : A -> bool) (l : list A) :
  (forall x, p x = true -> q x = true) ->
  forallb p l = true -> forallb q l = true.
Proof.
  intros Hpq. induction l as [|x l IH]; cbn [forallb]; [ reflexivity | ].
  intros H. apply andb_true_iff in H. destruct H as [Hx Hl].
  rewrite (Hpq _ Hx), (IH Hl). reflexivity.
Qed.

(** A property of every call of the protocol holds of every call of the
    completed iterations of a sweep. *)
Lemma completed_calls_forallb (p : call -> bool) handle done rs :
  completed handle done rs ->
  (forall s d_A d_B d_C, forallb p (shape_protocol handle s d_A d_B d_C) = true) ->
  forallb p (map ev_call (events_of done)) = true.
Proof.
  intros Hdone Hp. unfold events_of.
  induction Hdone as [|[s l] r done rs (Hit & _) _ IH]; [ reflexivity | ].
  cbn [map snd List.concat]. rewrite map_app, forallb_app, IH, andb_true_r.
  eapply iteration_calls_forall; [ exact Hit | apply Hp ].
Qed.

Lemma completed_succeeded handle done rs :
  completed handle done rs -> forallb succeeded (events_of done) = true.
Proof.
  intros Hdone. unfold events_of.
  induction Hdone as [|[s l] r done rs (_ & [_ Hs] & _) _ IH]; [ reflexivity | ].
  cbn [map snd List.concat]. rewrite forallb_app, IH, andb_true_r. exact Hs.
Qed.

Lemma completed_shapes handle done rs :
  completed handle done rs -> map shape_of rs = map fst done.
Proof.
  intros Hdone.
  induction Hdone as [|[[[m n] k] l] r done rs (_ & _ & Hrec) _ IH]; [ reflexivity | ].
  cbn [map fst]. rewrite IH. destruct Hrec as (tp & _ & ->). reflexivity.
Qed.

Lemma protocol_no_destroy handle s d_A d_B d_C :
  forallb (fun c => negb (is_destroy c)) (shape_protocol handle s d_A d_B d_C) = true.
Proof. destruct s as [[m n] k]. reflexivity. Qed.

Lemma setup_no_destroy pre :
  forallb is_setup (map ev_call pre) = true ->
  forallb (fun c => negb (is_destroy c)) (map ev_call pre) = true.
Proof. apply forallb_weaken. intros []; cbn; congruence. Qed.

Lemma last_app_singleton {A} (l : list A) (x : A) d :
  last (map Some (l ++ [x])) d = Some x.
Proof.
  rewrite map_app. cbn [map]. apply last_last.
Qed.

Lemma last_app_nonempty {A} (l1 l2 : list (option A)) d :
  l2 <> [] -> last (l1 ++ l2) d = last l2 d.
Proof.
  intros H. induction l1 as [|x l1 IH]; [ reflexivity | ].
  cbn [app last]. destruct (l1 ++ l2) eqn:E; [ | exact IH ].
  apply app_eq_nil in E. tauto.
Qed.

Lemma last_Some_In {A} (l : list A) x :
  last (map Some l) None = Some x -> In x l.
Proof.
  induction l as [|y l IH]; cbn [map last]; [ discriminate | ].
  destruct l as [|z l]; cbn [map] in *.
  - intros E. inversion E. left. reflexivity.
  - intros E. right. apply IH. exact E.
Qed.

Lemma script_destroy_discipline shapes lines sorted w o st :
  script_post shapes lines sorted w o st -> destroy_discipline (o, st).
Proof.
  intros (pre & Hpre & _ & [(e & -> & _ & Htr & _) | (hr & done & Hlast & Hst & Hdone & Hend)]).
  - unfold destroy_discipline. cbn [is_ok fst snd]. rewrite Htr.
    split; [ | discriminate ].
    apply count_none, setup_no_destroy, Hpre.
  - pose proof (count_none is_destroy pre (setup_no_destroy _ Hpre)) as Hc1.
    pose proof (count_none is_destroy (events_of done)
                  (completed_calls_forallb _ _ _ _ Hdone
                     (protocol_no_destroy (out_ptr hr)))) as Hc2.
    destruct o as [[]|e]; unfold destroy_discipline; cbn [is_ok fst snd].
    + destruct Hend as (_ & (dr & Htr) & _). rewrite Htr.
      split.
      * rewrite !count_app, Hc1, Hc2. reflexivity.
      * intros _. exists hr, dr. split; [ | split; [ exact Hst | ] ].
        -- apply in_or_app. left. apply last_Some_In, Hlast.
        -- rewrite !app_assoc. apply last_app_singleton.
    + destruct Hend as (s & rest & tail & _ & Htr & Hit & _).
      rewrite Htr. split; [ | discriminate ].
      rewrite !count_app, Hc1, Hc2.
      apply count_none.
      eapply iteration_calls_forall; [ exact Hit | ].
      apply protocol_no_destroy.
Qed.

(** C3 fails where a call fails mid-sweep.  In [rocblas-quick.py], let the
    seventh foreign call, the [hipMalloc] of [d_B] for the first shape,
    return status 2: the handle was created, the [RuntimeError] of
    [hip_check] ends the script, and [rocblas_destroy_handle] is never
    called. *)
Lemma C3_counterexample :
  ~ destroyed_once_created (run Quick.main (failing_world 6 2)).
Proof.
  unfold destroyed_once_created. vm_compute. intros H.
  specialize (H eq_refl). discriminate H.
Qed.

(** C3, amended.  A run of either script calls [rocblas_destroy_handle]
    exactly once when it runs to its end, as its last foreign call and on
    the handle [rocblas_create_handle] returned; a run that ends in an
    exception, during the set-up or mid-sweep, never calls it. *)
Theorem C3_handle_destroyed_iff_run_completes w :
  destroy_discipline (run Benchmark.main w) /\
  destroy_discipline (run Quick.main w).
Proof.
  split.
  - rewrite (surjective_pairing (run Benchmark.main w)).
    eapply script_destroy_discipline, benchmark_main_run.
  - rewrite (surjective_pairing (run Quick.main w)).
    eapply script_destroy_discipline, quick_main_run.
Qed.

Lemma C3_handle_destroyed_iff_run_completes_witness :
  count is_destroy (trace (snd (run Quick.main healthy_world))) = 1%nat /\
  count is_destroy (trace (snd (run Quick.main (failing_world 6 2)))) = 0%nat.
Proof.
  assert (E1 : (if is_ok (fst (run Quick.main healthy_world)) then 1 else 0)%nat
               = 1%nat) by (vm_compute; reflexivity).
  assert (E2 : (if is_ok (fst (run Quick.main (failing_world 6 2))) then 1 else 0)%nat
               = 0%nat) by (vm_compute; reflexivity).
  split.
  - exact (eq_trans
             (proj1 (proj2 (C3_handle_destroyed_iff_run_completes healthy_world)))
             E1).
  - exact (eq_trans
             (proj1 (proj2 (C3_handle_destroyed_iff_run_completes (failing_world 6 2))))
             E2).
Defined.

(** ** A failing call ends the run *)

Lemma unsuccessful e :
  checked (ev_call e) = true -> status (ev_reply e) <> 0 -> succeeded e = false.
Proof.
  intros Hc Hs. unfold succeeded. rewrite Hc. cbn.
  apply Z.eqb_neq, Hs.
Qed.

Lemma failed_is_last ev l :
  In ev l -> forallb succeeded (removelast l) = true -> succeeded ev = false ->
  last (map Some l) None = Some ev.
Proof.
  induction l as [|x l IH]; [ intros [] | ].
  destruct l as [|y l].
  - intros [->|[]] _ _. reflexivity.
  - intros Hin Hall Hev. cbn [removelast forallb] in Hall.
    apply andb_true_iff in Hall. destruct Hall as [Hx Hall].
    destruct Hin as [->|Hin]; [ congruence | ].
    cbn [map last]. cbn [map] in IH. apply IH; assumption.
Qed.

Lemma setup_not_checked pre ev :
  forallb is_setup (map ev_call pre) = true -> In ev pre ->
  checked (ev_call ev) = true -> False.
Proof.
  intros Hpre Hin Hc.
  pose proof (forallb_In _ _ _ Hpre (in_map ev_call _ _ Hin)) as Hs.
  destruct (ev_call ev); discriminate.
Qed.

Lemma script_run_ended_at shapes lines sorted w o st ev :
  script_post shapes lines sorted w o st ->
  In ev (trace st) ->
  checked (ev_call ev) = true ->
  status (ev_reply ev) <> 0 ->
  run_ended_at shapes ev (o, st).
Proof.
  intros (pre & Hpre & _ & Hcases) Hin Hc Hs.
  pose proof (unsuccessful _ Hc Hs) as Hev.
  destruct Hcases as [(e & -> & _ & Htr & _) | (hr & done & Hlast & Hst & Hdone & Hend)].
  - rewrite Htr in Hin. destruct (setup_not_checked _ _ Hpre Hin Hc).
  - pose proof (completed_succeeded _ _ _ Hdone) as Hsucc.
    assert (Hnd : ~ In ev (events_of done)).
    { intros Hd. rewrite (forallb_In _ _ _ Hsucc Hd) in Hev. discriminate. }
    destruct o as [[]|e].
    + destruct Hend as (_ & (dr & Htr) & _). rewrite Htr in Hin.
      apply in_app_or in Hin. destruct Hin as [Hin|Hin];
        [ destruct (setup_not_checked _ _ Hpre Hin Hc) | ].
      apply in_app_or in Hin. destruct Hin as [Hin|[<-|[]]];
        [ tauto | discriminate Hc ].
    + destruct Hend as (s & rest & tail & Hshapes & Htr & Hit & Hnf & Hra & _ & Hout).
      rewrite Htr in Hin.
      apply in_app_or in Hin. destruct Hin as [Hin|Hin];
        [ destruct (setup_not_checked _ _ Hpre Hin Hc) | ].
      apply in_app_or in Hin. destruct Hin as [Hin|Hin]; [ tauto | ].
      pose proof (failed_is_last _ _ Hin (proj2 Hit) Hev) as Hl.
      destruct Hra as [(msg & ev' & -> & Hl' & _) | (_ & Hall & _)].
      * rewrite Hl in Hl'. inversion Hl'. subst ev'.
        exists msg, pre, hr, done, s, rest, tail. cbn [fst snd].
        repeat split; auto; try apply Hit.
        -- rewrite Htr, app_assoc, map_app. rewrite last_app_nonempty; [ exact Hl | ].
           destruct tail; [ destruct Hin | discriminate ].
        -- apply (completed_shapes _ _ _ Hdone).
      * rewrite (forallb_In _ _ _ Hall Hin) in Hev. discriminate.
Qed.

(** C2 fails where an allocation fails.  In [rocblas-quick.py], let the
    seventh foreign call, the [hipMalloc] of [d_B] for the first shape,
    return status 2 after the [hipMalloc] of [d_A] succeeded: the script
    ends in the [RuntimeError] instead of going on, the buffer [d_A] is
    never freed, nothing records the failed shape, and the four shapes
    after it are never tried (the whole run issues two allocations). *)
Lemma C2_counterexample :
  let p := run Quick.main (failing_world 6 2) in
  fst p = Raise (RuntimeError "Failed to allocate d_B" 2) /\
  successful_mallocs (trace (snd p)) = 1%nat /\
  count is_free (trace (snd p)) = 0%nat /\
  count is_malloc (trace (snd p)) = 2%nat /\
  results (snd p) = [] /\
  stdout (snd p) = [].
Proof. vm_compute. repeat split; reflexivity. Qed.

(** C2, amended.  In a run of either script, when a device allocation, a
    host-to-device copy, a GEMM call or a barrier returns a non-zero
    status, the script ends there with a [RuntimeError] carrying that
    status: the failing call is the last foreign call of the run, no buffer
    of its shape is freed, the shapes after it never start, and [results]
    holds the records of the shapes completed before it. *)
Theorem C2_failure_ends_the_run w ev :
  checked (ev_call ev) = true ->
  status (ev_reply ev) <> 0 ->
  (In ev (trace (snd (run Benchmark.main w))) ->
   run_ended_at benchmark_shapes ev (run Benchmark.main w)) /\
  (In ev (trace (snd (run Quick.main w))) ->
   run_ended_at Quick.test_cases ev (run Quick.main w)).
Proof.
  intros Hc Hs. split; intros Hin.
  - rewrite (surjective_pairing (run Benchmark.main w)).
    eapply script_run_ended_at; eauto using benchmark_main_run.
  - rewrite (surjective_pairing (run Quick.main w)).
    eapply script_run_ended_at; eauto using quick_main_run.
Qed.

Lemma C2_failure_ends_the_run_witness :
  run_ended_at Quick.test_cases failed_event (run Quick.main (failing_world 6 2)).
Proof.
  refine (proj2 (C2_failure_ends_the_run (failing_world 6 2) failed_event _ _) _).
  - vm_compute. reflexivity.
  - vm_compute. discriminate.
  - apply nth_error_In with (n := 6%nat). vm_compute. reflexivity.
Defined.

(** ** The order of [results] and the sorted view *)

Lemma insert_by_tops_perm x l : Permutation (insert_by_tops x l) (x :: l).
Proof.
  induction l as [|y l IH]; cbn [insert_by_tops]; [ reflexivity | ].
  destruct (PrimFloat.ltb (r_tops x) (r_tops y)); [ | reflexivity ].
  rewrite IH. apply perm_swap.
Qed.

Lemma sorted_by_tops_perm l : Permutation (sorted_by_tops l) l.
Proof.
  induction l as [|x l IH]; cbn [sorted_by_tops fold_right]; [ reflexivity | ].
  rewrite insert_by_tops_perm. constructor. exact IH.
Qed.

Lemma SFltb_asym f1 f2 : SFltb f1 f2 = true -> SFltb f2 f1 = false.
Proof.
  unfold SFltb, SFcompare.
  destruct f1 as [s1|s1| |s1 m1 e1], f2 as [s2|s2| |s2 m2 e2];
    try destruct s1; try destruct s2; try reflexivity; try discriminate.
  - rewrite (Z.compare_antisym e1 e2).
    change (Pos.compare_cont Eq m2 m1) with (Pos.compare m2 m1).
    change (Pos.compare_cont Eq m1 m2) with (Pos.compare m1 m2).
    rewrite (Pos.compare_antisym m1 m2).
    destruct (e1 ?= e2); destruct (m1 ?= m2)%positive; cbn; congruence.
  - rewrite (Z.compare_antisym e1 e2).
    change (Pos.compare_cont Eq m2 m1) with (Pos.compare m2 m1).
    change (Pos.compare_cont Eq m1 m2) with (Pos.compare m1 m2).
    rewrite (Pos.compare_antisym m1 m2).
    destruct (e1 ?= e2); destruct (m1 ?= m2)%positive; cbn; congruence.
Qed.

Lemma float_ltb_asym x y : PrimFloat.ltb x y = true -> PrimFloat.ltb y x = false.
Proof. rewrite !ltb_spec. apply SFltb_asym. Qed.

Lemma insert_by_tops_hd y x l :
  HdRel not_below y l -> not_below y x -> HdRel not_below y (insert_by_tops x l).
Proof.
  intros Hl Hx. destruct l as [|z l]; cbn [insert_by_tops].
  - constructor. exact Hx.
  - destruct (PrimFloat.ltb (r_tops x) (r_tops z)); constructor;
      [ inversion Hl; assumption | exact Hx ].
Qed.

Lemma insert_by_tops_descending x l :
  descending l -> descending (insert_by_tops x l).
Proof.
  unfold descending. induction 1 as [|y l Hs IH Hhd]; cbn [insert_by_tops].
  - repeat constructor.
  - destruct (PrimFloat.ltb (r_tops x) (r_tops y)) eqn:E.
    + constructor; [ exact IH | ].
      apply insert_by_tops_hd; [ exact Hhd | ].
      apply float_ltb_asym, E.
    + constructor; [ constructor; assumption | ].
      constructor. exact E.
Qed.

Lemma sorted_by_tops_descending l : descending (sorted_by_tops l).
Proof.
  induction l as [|x l IH]; cbn [sorted_by_tops fold_right].
  - constructor.
  - apply insert_by_tops_descending, IH.
Qed.

Lemma script_in_sweep_order shapes lines sorted w o st :
  script_post shapes lines sorted w o st -> in_sweep_order shapes (o, st).
Proof.
  intros (pre & _ & _ & [(e & Ho & _ & _ & Hres & _) | (hr & done & _ & _ & Hdone & Hend)]);
    unfold in_sweep_order; cbn [fst snd].
  - subst o. rewrite Hres. split; [ exists shapes; reflexivity | discriminate ].
  - rewrite (completed_shapes _ _ _ Hdone). destruct o as [[]|e].
    + destruct Hend as (<- & _). split; [ exists []; symmetry; apply app_nil_r | auto ].
    + destruct Hend as (s & rest & tail & -> & _).
      split; [ exists (s :: rest); reflexivity | discriminate ].
Qed.

Lemma script_report shapes lines sorted w o st :
  script_post shapes lines sorted w o st -> o = Ok tt ->
  results_sorted st = sorted (results st) /\
  stdout st = map perf_line (results st) ++ lines (results st).
Proof.
  intros (pre & _ & _ & [(e & Ho & _) | (hr & done & _ & _ & _ & Hend)]) Hok;
    subst o; [ discriminate | ].
  destruct Hend as (_ & _ & Hs & Hout). auto.
Qed.

(** C8.  In a run of either script [results] lists the shapes in the order
    of the sweep (all of them once the sweep is complete).  The report of
    [rocblas-benchmark.py] binds [results_sorted] to a permutation of
    [results] in descending order of [tops] and leaves [results] as it
    was: the lines it then prints under "All results" are those of
    [results], in sweep order. *)
Theorem C8_results_in_sweep_order w st :
  in_sweep_order benchmark_shapes (run Benchmark.main w) /\
  in_sweep_order Quick.test_cases (run Quick.main w) /\
  (let st' := snd (Benchmark.report w st) in
   results st' = results st /\
   results_sorted st' = Some (sorted_by_tops (results st)) /\
   Permutation (sorted_by_tops (results st)) (results st) /\
   descending (sorted_by_tops (results st))) /\
  (fst (run Benchmark.main w) = Ok tt ->
   let st' := snd (run Benchmark.main w) in
   results_sorted st' = Some (sorted_by_tops (results st')) /\
   stdout st' =
     map perf_line (results st') ++ benchmark_report_lines (results st')).
Proof.
  split; [ | split; [ | split ] ].
  - rewrite (surjective_pairing (run Benchmark.main w)).
    eapply script_in_sweep_order, benchmark_main_run.
  - rewrite (surjective_pairing (run Quick.main w)).
    eapply script_in_sweep_order, quick_main_run.
  - cbv zeta.
    destruct (wp_elim _ _ _ _ (benchmark_report_post w st)) as (_ & _ & Hres & Hs & _).
    repeat split; auto.
    + apply sorted_by_tops_perm.
    + apply sorted_by_tops_descending.
  - intros Hok. cbv zeta.
    eapply (script_report _ _ (fun rs => Some (sorted_by_tops rs)));
      [ apply benchmark_main_run | exact Hok ].
Qed.

Lemma C8_results_in_sweep_order_witness :
  map shape_of (results (snd (run Quick.main healthy_world))) = Quick.test_cases /\
  map shape_of (results (snd (run Benchmark.main healthy_world))) = benchmark_shapes /\
  results_sorted (snd (run Benchmark.main healthy_world)) =
    Some (sorted_by_tops (results (snd (run Benchmark.main healthy_world)))).
Proof.
  pose proof (C8_results_in_sweep_order healthy_world initial_state)
    as ([_ Hb] & [_ Hq] & _ & Hr).
  assert (Eb : fst (run Benchmark.main healthy_world) = Ok tt)
    by (vm_compute; reflexivity).
  assert (Eq : fst (run Quick.main healthy_world) = Ok tt)
    by (vm_compute; reflexivity).
  split; [ exact (Hq Eq) | ].
  split; [ exact (Hb Eb) | exact (proj1 (Hr Eb)) ].
Defined.

(** ** Binary64 arithmetic: a positive float times [1e12] is not zero *)

Lemma digits2_pos_lower p : 2 ^ (Zpos (digits2_pos p) - 1) <= Zpos p.
Proof.
  induction p as [p IH|p IH|]; cbn [digits2_pos]; rewrite ?Pos2Z.inj_succ.
  - replace (Z.succ (Zpos (digits2_pos p)) - 1) with (Z.succ (Zpos (digits2_pos p) - 1)) by lia.
    rewrite Z.pow_succ_r by lia. lia.
  - replace (Z.succ (Zpos (digits2_pos p)) - 1) with (Z.succ (Zpos (digits2_pos p) - 1)) by lia.
    rewrite Z.pow_succ_r by lia. lia.
  - cbn. lia.
Qed.

Lemma digits2_pos_upper p : Zpos p < 2 ^ Zpos (digits2_pos p).
Proof.
  induction p as [p IH|p IH|]; cbn [digits2_pos]; rewrite ?Pos2Z.inj_succ.
  - rewrite Z.pow_succ_r by lia. lia.
  - rewrite Z.pow_succ_r by lia. lia.
  - cbn. lia.
Qed.

Lemma shr_1_lower k mrs :
  0 <= k -> 2 ^ (k + 1) <= shr_m mrs -> 2 ^ k <= shr_m (shr_1 mrs).
Proof.
  intros Hk. rewrite Z.pow_add_r by lia. change (2 ^ 1) with 2.
  pose proof (Z.pow_pos_nonneg 2 k ltac:(lia) Hk) as Hp.
  destruct mrs as [[|[p|p|]|p] r s]; cbn [shr_m shr_1]; lia.
Qed.

Lemma iter_shr_1_lower n : forall k mrs,
  0 <= k -> 2 ^ (k + Zpos n) <= shr_m mrs ->
  2 ^ k <= shr_m (iter_pos shr_1 n mrs).
Proof.
  induction n as [n IH|n IH|]; intros k mrs Hk Hm; cbn [iter_pos].
  - apply IH; [ exact Hk | ]. apply IH; [ lia | ].
    apply shr_1_lower; [ lia | ].
    replace (k + Zpos n + Zpos n + 1) with (k + Zpos n~1) by lia. exact Hm.
  - apply IH; [ exact Hk | ]. apply IH; [ lia | ].
    replace (k + Zpos n + Zpos n) with (k + Zpos n~0) by lia. exact Hm.
  - apply shr_1_lower; assumption.
Qed.

Lemma shr_m_record_of_loc m l : shr_m (shr_record_of_loc m l) = m.
Proof. destruct l as [|[]]; reflexivity. Qed.

(** Shifting a positive mantissa down to its format exponent keeps it
    positive, as long as the shift is shorter than the mantissa. *)
Lemma shr_fexp_positive p e l :
  fexp prec emax (Zpos (digits2_pos p) + e) - e <= Zpos (digits2_pos p) - 1 ->
  0 < shr_m (fst (shr_fexp prec emax (Zpos p) e l)) /\
  emin <= snd (shr_fexp prec emax (Zpos p) e l).
Proof.
  intros Hn. unfold shr_fexp, shr. cbn [Zdigits2].
  pose proof (Z.le_max_r (Zpos (digits2_pos p) + e - prec) emin) as Hmin.
  fold (fexp prec emax (Zpos (digits2_pos p) + e)) in Hmin.
  destruct (fexp prec emax (Zpos (digits2_pos p) + e) - e) as [|n|n] eqn:En;
    cbn [fst snd]; rewrite ?shr_m_record_of_loc.
  - split; lia.
  - split; [ | lia ].
    assert (2 ^ 0 <= shr_m (iter_pos shr_1 n (shr_record_of_loc (Zpos p) l))).
    { apply iter_shr_1_lower; [ lia | ]. rewrite shr_m_record_of_loc.
      etransitivity; [ | apply digits2_pos_lower ].
      apply Z.pow_le_mono_r; lia. }
    change (2 ^ 0) with 1 in *. lia.
  - split; lia.
Qed.

Lemma round_nearest_even_ge m l : 0 < m -> 0 < round_nearest_even m l.
Proof.
  intros Hm. destruct l as [|[]]; cbn [round_nearest_even]; try lia.
  destruct (Z.even m); lia.
Qed.

Lemma binary_round_aux_nonzero sx p e l :
  fexp prec emax (Zpos (digits2_pos p) + e) - e <= Zpos (digits2_pos p) - 1 ->
  forall sz, binary_round_aux prec emax sx (Zpos p) e l <> S754_zero sz.
Proof.
  intros Hn sz. unfold binary_round_aux.
  destruct (shr_fexp_positive p e l Hn) as [Hm1 He1].
  destruct (shr_fexp prec emax (Zpos p) e l) as [mrs1 e1]. cbn [fst snd] in *.
  pose proof (round_nearest_even_ge _ (loc_of_shr_record mrs1) Hm1) as Hr.
  destruct (round_nearest_even (shr_m mrs1) (loc_of_shr_record mrs1)) as [|q|q];
    try lia.
  assert (Hn2 : fexp prec emax (Zpos (digits2_pos q) + e1) - e1
                <= Zpos (digits2_pos q) - 1).
  { unfold fexp. unfold FloatOps.prec in *. lia. }
  destruct (shr_fexp_positive q e1 loc_Exact Hn2) as [Hm2 _].
  destruct (shr_fexp prec emax (Zpos q) e1 loc_Exact) as [mrs2 e2]. cbn [fst snd] in *.
  destruct (shr_m mrs2) as [|m2|m2]; try lia.
  destruct (e2 <=? emax - prec); discriminate.
Qed.

Lemma positive_times_1e12_nonzero (x : float) :
  PrimFloat.ltb 0%float x = true ->
  PrimFloat.eqb (PrimFloat.mul x 1e12%float) 0%float = false.
Proof.
  rewrite ltb_spec, eqb_spec, mul_spec.
  pose proof (Prim2SF_valid x) as Hv.
  assert (E12 : Prim2SF 1e12%float = S754_finite false 8192000000000000 (-13))
    by (vm_compute; reflexivity).
  assert (E0 : Prim2SF 0%float = S754_zero false) by (vm_compute; reflexivity).
  rewrite E12, E0.
  destruct (Prim2SF x) as [s|s| |s m e]; cbn [SFltb SFcompare]; try discriminate.
  - destruct s; [ discriminate | ]. reflexivity.
  - destruct s; [ discriminate | ]. intros _.
    unfold SF64mul, SFmul. cbn [xorb].
    pose proof (binary_round_aux_nonzero false (m * 8192000000000000) (e + -13)
                  loc_Exact) as Hnz.
    cbn [valid_binary] in Hv. unfold bounded, canonical_mantissa in Hv.
    apply andb_true_iff in Hv. destruct Hv as [Hc _]. apply Z.eqb_eq in Hc.
    assert (Hd : 53 <= Zpos (digits2_pos (m * 8192000000000000))).
    { pose proof (digits2_pos_upper (m * 8192000000000000)) as Hu.
      assert (2 ^ 52 < 2 ^ Zpos (digits2_pos (m * 8192000000000000))) by
        (rewrite Pos2Z.inj_mul in Hu; change (2 ^ 52) with 4503599627370496; nia).
      apply Z.pow_lt_mono_r_iff in H; lia. }
    assert (He : emin <= e).
    { rewrite <- Hc. apply Z.le_max_r. }
    assert (Hsh : fexp prec emax (Zpos (digits2_pos (m * 8192000000000000)) + (e + -13))
                  - (e + -13)
                  <= Zpos (digits2_pos (m * 8192000000000000)) - 1).
    { unfold fexp. unfold SpecFloat.emin, FloatOps.prec, FloatOps.emax in *. lia. }
    specialize (Hnz Hsh).
    destruct (binary_round_aux prec emax false (Zpos (m * 8192000000000000))
                (e + -13) loc_Exact) as [s'|s'| |s' m' e'];
      [ destruct (Hnz s' eq_refl) | destruct s'; reflexivity | reflexivity
      | destruct s'; reflexivity ].
Qed.

(** ** The throughput *)

Lemma u32_product_converts m n k :
  0 < m < 2 ^ 32 -> 0 < n < 2 ^ 32 -> 0 < k < 2 ^ 32 ->
  py_float_of_int (2 * m * n * k) = Ok (float_of_int (2 * m * n * k)).
Proof.
  intros Hm Hn Hk. unfold py_float_of_int.
  assert (Hmn : 0 < m * n < 2 ^ 32 * 2 ^ 32) by nia.
  assert (Hmnk : 0 < m * n * k < 2 ^ 32 * 2 ^ 32 * 2 ^ 32) by nia.
  assert (Hbig : 2 * (2 ^ 32 * 2 ^ 32 * 2 ^ 32) <= 2 ^ 1024 - 2 ^ 970)
    by (vm_compute; discriminate).
  replace (Z.abs (2 * m * n * k) <? 2 ^ 1024 - 2 ^ 970) with true; [ reflexivity | ].
  symmetry. apply Z.ltb_lt. rewrite Z.abs_eq by nia.
  eapply Z.lt_le_trans; [ | exact Hbig ].
  rewrite <- !Z.mul_assoc. rewrite (Z.mul_assoc m n k). lia.
Qed.

(** C4.  For every shape with [0 < m, n, k] (32-bit dimensions) and every
    positive [avg], the expression [tops] evaluates, without raising, to
    [(2 * m * n * k) / (avg * 1e12)] in Python arithmetic: the integer
    converted to binary64, divided by the binary64 product.  Take an
    iteration whose elapsed time, the second clock reading (call 21) minus
    the first (call 9), divided by 10 is this [avg].  It raises only if one
    of its calls returns a non-zero status.  Otherwise the calls from the
    first reading to the second are the 10 timed GEMM calls and the
    barrier, so that [avg] is the elapsed time of the timed loop divided by
    the number of timed calls; and the iteration prints and appends to
    [results] exactly the value above, with [avg * 1000] as [time_ms]. *)
Theorem C4_tops_formula m n k avg :
  0 < m < 2 ^ 32 -> 0 < n < 2 ^ 32 -> 0 < k < 2 ^ 32 ->
  PrimFloat.ltb 0%float avg = true ->
  let value :=
    PrimFloat.div (float_of_int (2 * m * n * k)) (PrimFloat.mul avg 1e12%float) in
  tops m n k avg = Ok value /\
  forall handle w st,
    let l := iteration_trace handle (m, n, k) w st in
    let st' := snd (bench_shape handle (m, n, k) w st) in
    let elapsed := PrimFloat.sub (clock_at 21 l) (clock_at 9 l) in
    PrimFloat.div elapsed 10%float = avg ->
    (forallb succeeded l = true ->
     iteration_outcome handle (m, n, k) w st = Ok tt) /\
    (iteration_outcome handle (m, n, k) w st = Ok tt ->
     map kind_of (firstn 13 (skipn 9 (map ev_call l))) =
       KClock :: repeat KGemm 10 ++ [KSync; KClock] /\
     results st' =
       results st ++ [mk_result m n k (PrimFloat.mul avg 1000%float) value] /\
     stdout st' =
       stdout st ++ [PerfLine (PrimFloat.mul avg 1000%float) value]).
Proof.
  intros Hm Hn Hk Havg. cbv zeta.
  assert (Htops : tops m n k avg =
                  Ok (PrimFloat.div (float_of_int (2 * m * n * k))
                        (PrimFloat.mul avg 1e12%float))).
  { unfold tops, py_int_div_float, py_float_div.
    rewrite (u32_product_converts m n k Hm Hn Hk).
    rewrite (positive_times_1e12_nonzero avg Havg). reflexivity. }
  split; [ exact Htops | ].
  intros handle w st Hmeasured.
  destruct (iteration_trace_post handle (m, n, k) w st)
    as (_ & _ & _ & Hit & Hend).
  unfold recorded, raised_at, perf_line, measured_avg, avg_time, time_ms in Hend.
  rewrite Hmeasured in Hend.
  split.
  - intros Hall.
    destruct (iteration_outcome handle (m, n, k) w st) as [[]|e]; [ reflexivity | ].
    destruct Hend as (_ & _ & _ & [(msg & ev & _ & Hlast & Hc & Hs) | (_ & _ & _ & Hr)]).
    + pose proof (forallb_In _ _ _ Hall (last_Some_In _ _ Hlast)) as Hev.
      rewrite (unsuccessful _ Hc Hs) in Hev. discriminate Hev.
    + rewrite Htops in Hr. discriminate Hr.
  - intros Hok. rewrite Hok in Hend.
    destruct Hend as (Hc & r & (tp & Htp & ->) & Hres & Hout).
    rewrite Htops in Htp. inversion Htp. subst tp.
    split; [ | split; [ exact Hres | exact Hout ] ].
    rewrite (complete_calls _ _ _ Hit Hc). reflexivity.
Qed.

(** The first end-to-end scenario of the design: 1024 x 1024 x 1024 at one
    millisecond per call is 2.147483648 TOPS (the binary64 numbers nearest
    to 0.001 and to 2.147483648, written exactly). *)
Lemma tops_scenario_1 :
  tops 1024 1024 1024 0x1.0624dd2f1a9fcp-10%float = Ok 0x1.12e0be826d695p+1%float.
Proof. vm_compute. reflexivity. Qed.

Lemma C4_tops_formula_witness :
  tops 1024 1024 1024 0x1.0624dd2f1a9fcp-10%float =
    Ok (PrimFloat.div (float_of_int (2 * 1024 * 1024 * 1024))
          (PrimFloat.mul 0x1.0624dd2f1a9fcp-10%float 1e12%float)) /\
  iteration_outcome example_handle example_shape healthy_world initial_state = Ok tt.
Proof.
  split.
  - refine (proj1 (C4_tops_formula 1024 1024 1024 0x1.0624dd2f1a9fcp-10%float _ _ _ _));
      try (vm_compute; split; reflexivity); vm_compute; reflexivity.
  - refine (proj1 (proj2 (C4_tops_formula 2048 4096 2048
                            (PrimFloat.div
                               (PrimFloat.sub (clock_at 21 example_trace)
                                  (clock_at 9 example_trace)) 10%float)
                            _ _ _ _)
                     example_handle healthy_world initial_state eq_refl) _);
      try (vm_compute; split; reflexivity); vm_compute; reflexivity.
Defined.

(** ** The set-up, case by case *)

Lemma iteration_trace_intro (P : list event -> outcome unit -> state -> Prop)
    handle s w st :
  wp (bench_shape handle s) w st
    (fun o st' => exists l, trace st' = trace st ++ l /\ P l o st') ->
  P (iteration_trace handle s w st) (iteration_outcome handle s w st)
    (snd (bench_shape handle s w st)).
Proof.
  intros H. destruct (wp_elim _ _ _ _ H) as (l & Htr & HP).
  unfold iteration_trace, iteration_outcome.
  rewrite Htr, skipn_length_app. exact HP.
Qed.

Lemma bench_shape_message handle s w st :
  wp (bench_shape handle s) w st
    (fun o st' => exists l, trace st' = trace st ++ l /\ stops_at_first_failure l o).
Proof.
  destruct s as [[m n] k]. destruct st as [t0 r0 s0 o0].
  unfold bench_shape, warmup_iters, bench_iters, element_size.
  cbv zeta. wp_simpl.
  repeat wp_step.
  all: cbn [trace results results_sorted stdout];
    rewrite <- ?app_assoc; cbn [app];
    eexists; split; [ reflexivity | ].
  all: intros msg code Hraise; try discriminate Hraise.
  all: try (injection Hraise as <- <-;
            split; [ reflexivity | split; [ assumption | ] ];
            do 2 eexists; split; [ reflexivity | split; reflexivity ]).
  destruct (tops_raises _ _ _ _ _ Earith) as [He|He]; rewrite He in Hraise;
    discriminate Hraise.
Qed.

Lemma negb_eqb_true x : negb (x =? 0) = true -> x <> 0.
Proof. intros H. apply negb_true_iff in H. apply Z.eqb_neq, H. Qed.

Lemma negb_eqb_false x : negb (x =? 0) = false -> x = 0.
Proof. intros H. apply negb_false_iff in H. apply Z.eqb_eq, H. Qed.

Ltac setup_facts :=
  repeat match goal with
         | H : negb (_ =? 0) = true |- _ => apply negb_eqb_true in H
         | H : negb (_ =? 0) = false |- _ => apply negb_eqb_false in H
         | H : (_ =? 0) = true |- _ => apply Z.eqb_eq in H
         | H : (_ =? 0) = false |- _ => apply Z.eqb_neq in H
         end.

Ltac setup_case :=
  solve [ repeat eexists; try reflexivity; try assumption;
          try (intros; discriminate); try (intros; assumption);
          first [ left; split; [ assumption | reflexivity ]
                | right; split; [ assumption | reflexivity ] ] ]
  || solve [ repeat eexists; try reflexivity; try assumption;
             try (intros; discriminate); try (intros; assumption) ].

Ltac setup_disjunct :=
  first [ left; setup_case | right; setup_disjunct | setup_case ].

Ltac setup_explain :=
  unfold setup_explained; cbn [trace results results_sorted stdout];
  rewrite <- ?app_assoc; cbn [app];
  eexists; split; [ reflexivity | ];
  do 3 (split; [ reflexivity | ]);
  setup_facts; unfold setup_cases; cbv zeta; setup_disjunct.

Lemma benchmark_setup_explained w st :
  wp Benchmark.setup w st (setup_explained false w st).
Proof.
  destruct st as [t0 r0 s0 o0].
  unfold Benchmark.setup, load_libraries, create_handle.
  repeat first [ wp_step | wp_if ]; setup_explain.
Qed.

Lemma quick_setup_explained w st :
  wp Quick.setup w st (setup_explained true w st).
Proof.
  destruct st as [t0 r0 s0 o0].
  unfold Quick.setup, load_libraries, create_handle.
  repeat first [ wp_step | wp_if ]; setup_explain.
Qed.

Lemma protocol_no_setup handle s d_A d_B d_C :
  forallb (fun c => negb (is_setup c)) (shape_protocol handle s d_A d_B d_C) = true.
Proof. destruct s as [[m n] k]. reflexivity. Qed.

Section ScriptFromSetup.

Variable strict : bool.
Variable setup : M c_void_p.
Variable sweep : c_void_p -> M unit.
Variable report : M unit.
Variable shapes : list shape.
Variable lines : list result -> list line.
Variable sorted : list result -> option (list result).

Hypothesis setup_explained_spec :
  forall w st, wp setup w st (setup_explained strict w st).
Hypothesis sweep_spec :
  forall handle w st,
    sweep handle w st = for_each shapes (bench_shape handle) w st.
Hypothesis report_spec :
  forall w st, results_sorted st = None ->
    wp report w st (report_post lines sorted st).

Lemma script_explained w :
  run_explained strict (run (script setup sweep report) w).
Proof.
  unfold run.
  rewrite (surjective_pairing (script setup sweep report w initial_state)).
  apply (wp_elim _ _ _ (fun o st => run_explained strict (o, st))).
  unfold script. apply wp_bind.
  eapply wp_consequence; [ apply setup_explained_spec | ].
  intros [handle|e] st1 (pre & Htr1 & Hres1 & Hsrt1 & Hout1 & Hcases);
    cbn [initial_state trace results results_sorted stdout app] in *.
  - apply wp_bind. eapply wp_ext; [ apply sweep_spec | ].
    eapply wp_consequence; [ apply for_each_post | ].
    intros [[]|e] st2
      (done & rs & tail & Htr2 & _ & _ & Hsrt2 & _ & Hdone & Hend).
    + destruct Hend as [-> _]. rewrite app_nil_r in Htr2.
      apply wp_bind, wp_ffi. intros dr _.
      eapply wp_consequence;
        [ apply report_spec; cbn [results_sorted]; congruence | ].
      intros o st4 (_ & Htr4 & _); cbn [trace] in Htr4.
      exists pre, (Ok handle),
        (events_of done ++ [(rocblas_destroy_handle handle, dr)]).
      cbn [fst snd]. split; [ exact Hcases | ].
      split; [ rewrite Htr4, Htr2, Htr1, <- app_assoc; reflexivity | ].
      split.
      * rewrite map_app, forallb_app.
        rewrite (completed_calls_forallb _ _ _ _ Hdone (protocol_no_setup handle)).
        reflexivity.
      * intros c Hc. rewrite map_app in Hc. apply in_app_or in Hc.
        destruct Hc as [Hc|[<-|[]]]; [ right | left; reflexivity ].
        destruct (completed_call_in_protocol _ _ _ _ Hdone Hc)
          as (s & dA & dB & dC & _ & Hp).
        exists s, dA, dB, dC. exact Hp.
    + destruct Hend as (s & rest & _ & Hit & _).
      exists pre, (Ok handle), (events_of done ++ tail).
      cbn [fst snd]. split; [ exact Hcases | ].
      split; [ rewrite Htr2, Htr1; reflexivity | ].
      split.
      * rewrite map_app, forallb_app.
        rewrite (completed_calls_forallb _ _ _ _ Hdone (protocol_no_setup handle)).
        apply (iteration_calls_forall _ _ _ _ Hit (protocol_no_setup handle s)).
      * intros c Hc. rewrite map_app in Hc. apply in_app_or in Hc.
        right. destruct Hc as [Hc|Hc].
        -- destruct (completed_call_in_protocol _ _ _ _ Hdone Hc)
             as (s' & dA & dB & dC & _ & Hp).
           exists s', dA, dB, dC. exact Hp.
        -- exists s, (ptr_at 0 tail), (ptr_at 1 tail), (ptr_at 2 tail).
           eapply is_prefix_In; [ apply Hit | exact Hc ].
  - exists pre, (Raise e), []. cbn [fst snd].
    rewrite app_nil_r. repeat split; auto; congruence.
Qed.

End ScriptFromSetup.

Lemma benchmark_run_explained w : run_explained false (run Benchmark.main w).
Proof.
  apply (script_explained false Benchmark.setup Benchmark.sweep Benchmark.report
           benchmark_shapes benchmark_report_lines
           (fun rs => Some (sorted_by_tops rs))).
  - exact benchmark_setup_explained.
  - exact benchmark_sweep_flat.
  - intros w' st _. apply benchmark_report_post.
Qed.

Lemma quick_run_explained w : run_explained true (run Quick.main w).
Proof.
  apply (script_explained true Quick.setup Quick.sweep Quick.report
           Quick.test_cases quick_report_lines (fun _ => None)).
  - exact quick_setup_explained.
  - reflexivity.
  - exact quick_report_post.
Qed.

(** A set-up call found in the trace of a run was issued by the set-up. *)
Lemma run_explained_setup_call strict p ev :
  run_explained strict p ->
  In ev (trace (snd p)) -> is_setup (ev_call ev) = true ->
  exists pre o_setup more,
    setup_cases strict pre o_setup /\ In ev pre /\
    trace (snd p) = pre ++ more /\
    match o_setup with
    | Raise e =>
        more = [] /\ fst p = Raise e /\
        results (snd p) = [] /\ stdout (snd p) = []
    | Ok _ => True
    end.
Proof.
  intros (pre & o & more & Hcases & Htr & Hmore & Hend) Hin Hs.
  exists pre, o, more. split; [ exact Hcases | ]. split.
  - rewrite Htr in Hin. apply in_app_or in Hin. destruct Hin as [Hin|Hin]; [ exact Hin | ].
    pose proof (forallb_In _ _ _ Hmore (in_map ev_call _ _ Hin)) as Hn.
    cbv beta in Hn. rewrite Hs in Hn. discriminate Hn.
  - split; [ exact Htr | ]. destruct o; [ exact I | exact Hend ].
Qed.

Ltac split_cases H :=
  unfold setup_cases in H; cbv zeta in H;
  decompose [or ex and] H; clear H.

Ltac find_event Hin :=
  cbn [In map ev_call fst] in Hin;
  repeat match type of Hin with
         | _ \/ _ => destruct Hin as [Hin|Hin]
         end;
  try (destruct Hin; fail);
  try discriminate Hin;
  try (injection Hin as ?; subst).

Ltac stopped :=
  match goal with
  | Hend : _ = [] /\ _ /\ _ /\ _, Htr : trace _ = _ |- stopped_in_setup _ _ _ _ =>
      destruct Hend as (-> & Ho & Hres & Hout);
      rewrite app_nil_r in Htr;
      unfold stopped_in_setup; rewrite Htr, Ho, Hres, Hout;
      repeat split; reflexivity
  end.

(** X2.  No device.  If [hipGetDeviceCount] reports 0 devices, the run ends
    in [sys.exit(1)] right after that call, the third of the run: no handle
    is created and nothing is measured.  In [rocblas-benchmark.py] this
    holds whatever status the call returned, since the status is dropped;
    in [rocblas-quick.py] it holds when the status is 0. *)
Theorem X2_no_device_exits w r :
  out_int r = 0 ->
  (In (hipGetDeviceCount, r) (trace (snd (run Benchmark.main w))) ->
   stopped_in_setup (SystemExit 1) (hipGetDeviceCount, r) 3 (run Benchmark.main w)) /\
  (In (hipGetDeviceCount, r) (trace (snd (run Quick.main w))) ->
   status r = 0 ->
   stopped_in_setup (SystemExit 1) (hipGetDeviceCount, r) 3 (run Quick.main w)).
Proof.
  intros Hzero. split.
  - intros Hin.
    destruct (run_explained_setup_call _ _ _ (benchmark_run_explained w) Hin eq_refl)
      as (pre & o & more & Hcases & Hpre & Htr & Hend).
    split_cases Hcases; subst pre o; find_event Hpre;
      try discriminate; try contradiction; stopped.
  - intros Hin Hst.
    destruct (run_explained_setup_call _ _ _ (quick_run_explained w) Hin eq_refl)
      as (pre & o & more & Hcases & Hpre & Htr & Hend).
    split_cases Hcases; subst pre o; find_event Hpre;
      try discriminate; try contradiction; stopped.
Qed.

Lemma X2_no_device_exits_witness :
  stopped_in_setup (SystemExit 1)
    (hipGetDeviceCount,
     mk_reply 0 (Some 12288) 0 (PrimFloat.div (float_of_int 2) 1000%float)) 3
    (run Benchmark.main no_device_world).
Proof.
  refine (proj1 (X2_no_device_exits no_device_world
                   (mk_reply 0 (Some 12288) 0 (PrimFloat.div (float_of_int 2) 1000%float))
                   _) _).
  - reflexivity.
  - apply nth_error_In with (n := 2%nat). vm_compute. reflexivity.
Defined.

(** X1.  Loading the libraries.  If a [ctypes.CDLL] call of a run of
    either script fails (the [OSError] of the loader, a non-zero status
    here), the run ends in [sys.exit(1)] with that call as its last one: at
    most the two loads were attempted, no runtime call was issued, nothing
    was recorded and no timing or report line was printed. *)
Theorem X1_library_load_failure_exits w name r :
  status r <> 0 ->
  (In (CDLL name, r) (trace (snd (run Benchmark.main w))) ->
   exists n, (n <= 2)%nat /\
     stopped_in_setup (SystemExit 1) (CDLL name, r) n (run Benchmark.main w)) /\
  (In (CDLL name, r) (trace (snd (run Quick.main w))) ->
   exists n, (n <= 2)%nat /\
     stopped_in_setup (SystemExit 1) (CDLL name, r) n (run Quick.main w)).
Proof.
  intros Hst. split; intros Hin.
  - destruct (run_explained_setup_call _ _ _ (benchmark_run_explained w) Hin eq_refl)
      as (pre & o & more & Hcases & Hpre & Htr & Hend).
    split_cases Hcases; subst pre o; find_event Hpre;
      try discriminate; try contradiction;
      (exists 1%nat + exists 2%nat); (split; [ lia | stopped ]).
  - destruct (run_explained_setup_call _ _ _ (quick_run_explained w) Hin eq_refl)
      as (pre & o & more & Hcases & Hpre & Htr & Hend).
    split_cases Hcases; subst pre o; find_event Hpre;
      try discriminate; try contradiction;
      (exists 1%nat + exists 2%nat); (split; [ lia | stopped ]).
Qed.

Lemma X1_library_load_failure_exits_witness :
  exists n, (n <= 2)%nat /\
    stopped_in_setup (SystemExit 1) (CDLL "librocblas.so", failed_reply 1 1) n
      (run Quick.main (failing_world 1 1)).
Proof.
  refine (proj2 (X1_library_load_failure_exits (failing_world 1 1) "librocblas.so"
                   (failed_reply 1 1) _) _).
  - vm_compute. discriminate.
  - apply nth_error_In with (n := 1%nat). vm_compute. reflexivity.
Defined.

(** X4.  If [rocblas_create_handle] returns a non-zero status, the run of
    either script ends there, at its fifth call, with a [RuntimeError]
    carrying the message "Failed to create rocBLAS handle" and that status;
    no buffer is allocated and [rocblas_destroy_handle] is not called. *)
Theorem X4_handle_creation_failure w r :
  status r <> 0 ->
  (In (rocblas_create_handle, r) (trace (snd (run Benchmark.main w))) ->
   stopped_in_setup (RuntimeError "Failed to create rocBLAS handle" (status r))
     (rocblas_create_handle, r) 5 (run Benchmark.main w)) /\
  (In (rocblas_create_handle, r) (trace (snd (run Quick.main w))) ->
   stopped_in_setup (RuntimeError "Failed to create rocBLAS handle" (status r))
     (rocblas_create_handle, r) 5 (run Quick.main w)).
Proof.
  intros Hst. split; intros Hin.
  - destruct (run_explained_setup_call _ _ _ (benchmark_run_explained w) Hin eq_refl)
      as (pre & o & more & Hcases & Hpre & Htr & Hend).
    split_cases Hcases; subst pre o; find_event Hpre;
      try discriminate; try contradiction; stopped.
  - destruct (run_explained_setup_call _ _ _ (quick_run_explained w) Hin eq_refl)
      as (pre & o & more & Hcases & Hpre & Htr & Hend).
    split_cases Hcases; subst pre o; find_event Hpre;
      try discriminate; try contradiction; stopped.
Qed.

Lemma X4_handle_creation_failure_witness :
  stopped_in_setup (RuntimeError "Failed to create rocBLAS handle" (status (failed_reply 4 3)))
    (rocblas_create_handle, failed_reply 4 3) 5
    (run Benchmark.main (failing_world 4 3)).
Proof.
  refine (proj1 (X4_handle_creation_failure (failing_world 4 3) (failed_reply 4 3) _) _).
  - vm_compute. discriminate.
  - apply nth_error_In with (n := 4%nat). vm_compute. reflexivity.
Defined.

(** X3.  The two device queries of the set-up, [hipGetDeviceCount] and
    [hipGetDeviceProperties].  In [rocblas-quick.py] a non-zero status of
    either ends the run at that call with the [RuntimeError] of
    [hip_check] and its default message, before any handle is created.  In
    [rocblas-benchmark.py] the same status is ignored: unless the device
    count read back is 0, the run goes on to [rocblas_create_handle]. *)
Theorem X3_query_status_checked_in_quick_only w c r :
  is_query c = true ->
  status r <> 0 ->
  (In (c, r) (trace (snd (run Quick.main w))) ->
   exists n,
     stopped_in_setup (RuntimeError "HIP operation failed" (status r)) (c, r) n
       (run Quick.main w) /\
     count is_create (trace (snd (run Quick.main w))) = 0%nat) /\
  (In (c, r) (trace (snd (run Benchmark.main w))) ->
   out_int r <> 0 \/ c = hipGetDeviceProperties 0 ->
   exists hr, In (rocblas_create_handle, hr) (trace (snd (run Benchmark.main w)))).
Proof.
  intros Hq Hst. split.
  - intros Hin.
    assert (Hs : is_setup (ev_call (c, r)) = true) by (destruct c; try discriminate Hq; reflexivity).
    destruct (run_explained_setup_call _ _ _ (quick_run_explained w) Hin Hs)
      as (pre & o & more & Hcases & Hpre & Htr & Hend).
    split_cases Hcases; subst pre o; find_event Hpre;
      try discriminate; try contradiction;
      try match goal with
          | H : true = true -> _ |- _ => specialize (H eq_refl); contradiction
          end;
      (exists 3%nat + exists 4%nat);
      (split; [ stopped | ]);
      destruct Hend as (-> & _); rewrite app_nil_r in Htr; rewrite Htr; reflexivity.
  - intros Hin Hgo.
    assert (Hs : is_setup (ev_call (c, r)) = true) by (destruct c; try discriminate Hq; reflexivity).
    destruct (run_explained_setup_call _ _ _ (benchmark_run_explained w) Hin Hs)
      as (pre & o & more & Hcases & Hpre & Htr & Hend).
    split_cases Hcases; subst pre o; find_event Hpre;
      try discriminate; try contradiction;
      try (destruct Hgo as [Hgo|Hgo]; [ contradiction | discriminate Hgo ]);
      eexists; rewrite Htr; apply in_or_app; left;
      do 4 right; left; reflexivity.
Qed.

Lemma X3_query_status_checked_in_quick_only_witness :
  exists n,
    stopped_in_setup
      (RuntimeError "HIP operation failed" (status (failed_reply 2 5)))
      (hipGetDeviceCount, failed_reply 2 5) n
      (run Quick.main (failing_world 2 5)) /\
    count is_create (trace (snd (run Quick.main (failing_world 2 5)))) = 0%nat.
Proof.
  refine (proj1 (X3_query_status_checked_in_quick_only (failing_world 2 5)
                   hipGetDeviceCount (failed_reply 2 5) _ _) _).
  - reflexivity.
  - vm_compute. discriminate.
  - apply nth_error_In with (n := 2%nat). vm_compute. reflexivity.
Defined.

Lemma run_explained_gemm strict p a :
  run_explained strict p ->
  In (rocblas_gemm_ex a) (map ev_call (trace (snd p))) ->
  gemm_on_created_handle p a.
Proof.
  intros (pre & o & more & Hcases & Htr & Hmore & Hend) Hin.
  rewrite Htr, map_app in Hin. apply in_app_or in Hin.
  destruct Hin as [Hin|Hin].
  - split_cases Hcases; subst pre; find_event Hin.
  - destruct o as [handle|e]; [ | destruct Hend as (-> & _); destruct Hin ].
    destruct (Hend _ Hin) as [Hd|([[m n] k] & dA & dB & dC & Hc)];
      [ discriminate Hd | ].
    split_cases Hcases; try discriminate.
    match goal with
    | H : Ok _ = Ok _ |- _ => injection H as ->
    end.
    eexists. split; [ rewrite Htr; apply in_or_app; left; subst pre;
                      do 4 right; left; reflexivity | ].
    split; [ assumption | ].
    in_cases Hc; try discriminate Hc; injection Hc as <-; cbn;
      repeat split; reflexivity.
Qed.

(** X5.  Every [rocblas_gemm_ex] call of a run of either script is issued
    on the handle that the run's own successful [rocblas_create_handle]
    call returned, with BF16 as the type of A, B, C and D, F32 as the
    compute type, the default algorithm, solution index 0 and flags 0. *)
Theorem X5_gemm_on_created_handle w a :
  (In (rocblas_gemm_ex a) (map ev_call (trace (snd (run Benchmark.main w)))) ->
   gemm_on_created_handle (run Benchmark.main w) a) /\
  (In (rocblas_gemm_ex a) (map ev_call (trace (snd (run Quick.main w)))) ->
   gemm_on_created_handle (run Quick.main w) a).
Proof.
  split.
  - apply (run_explained_gemm false), benchmark_run_explained.
  - apply (run_explained_gemm true), quick_run_explained.
Qed.

Lemma X5_gemm_on_created_handle_witness :
  gemm_on_created_handle (run Quick.main healthy_world) example_run_gemm.
Proof.
  refine (proj2 (X5_gemm_on_created_handle healthy_world example_run_gemm) _).
  apply nth_error_In with (n := 10%nat). vm_compute. reflexivity.
Defined.

(** ** More on one iteration *)

(** X6.  A checked call of an iteration (allocation, upload, GEMM,
    barrier) that returns a non-zero status is the last call of the
    iteration; every call before it succeeded; and the iteration raises a
    [RuntimeError] carrying that status and the message the script gives
    for the position of the call in the protocol ("Failed to allocate
    d_A", ..., "Warmup GEMM failed", "Benchmark GEMM failed", "Failed to
    synchronize"). *)
Theorem X6_failing_call_names_its_step handle s w st ev :
  let l := iteration_trace handle s w st in
  In ev l ->
  checked (ev_call ev) = true ->
  status (ev_reply ev) <> 0 ->
  exists msg,
    iteration_outcome handle s w st =
      Raise (RuntimeError msg (status (ev_reply ev))) /\
    failure_message (List.length l - 1) = Some msg /\
    last (map Some l) None = Some ev /\
    forallb succeeded (removelast l) = true.
Proof.
  cbv zeta. intros Hin Hc Hs.
  pose proof (unsuccessful _ Hc Hs) as Hev.
  destruct (iteration_trace_post handle s w st) as (_ & _ & _ & Hit & Hend).
  pose proof (iteration_trace_intro (fun l o _ => stops_at_first_failure l o)
                handle s w st (bench_shape_message handle s w st)) as Hmsg.
  cbv beta in Hmsg.
  pose proof (failed_is_last _ _ Hin (proj2 Hit) Hev) as Hlast.
  destruct (iteration_outcome handle s w st) as [[]|e].
  - destruct Hend as ([_ Hall] & _).
    rewrite (forallb_In _ _ _ Hall Hin) in Hev. discriminate Hev.
  - destruct Hend as (_ & _ & _ & [(msg & ev' & -> & Hl' & _) | (_ & Hall & _)]).
    + rewrite Hlast in Hl'. injection Hl' as <-.
      exists msg. destruct (Hmsg msg _ eq_refl) as (Hm & _).
      repeat split; auto. apply Hit.
    + rewrite (forallb_In _ _ _ Hall Hin) in Hev. discriminate Hev.
Qed.

Lemma X6_failing_call_names_its_step_witness :
  exists msg,
    iteration_outcome example_handle example_shape (failing_world 6 2) initial_state =
      Raise (RuntimeError msg
               (status (ev_reply (rocblas_gemm_ex example_gemm, failed_reply 6 2)))) /\
    failure_message
      (List.length
         (iteration_trace example_handle example_shape (failing_world 6 2) initial_state)
       - 1) = Some msg /\
    last (map Some
            (iteration_trace example_handle example_shape (failing_world 6 2)
               initial_state)) None =
      Some (rocblas_gemm_ex example_gemm, failed_reply 6 2) /\
    forallb succeeded
      (removelast
         (iteration_trace example_handle example_shape (failing_world 6 2)
            initial_state)) = true.
Proof.
  refine (X6_failing_call_names_its_step example_handle example_shape
            (failing_world 6 2) initial_state
            (rocblas_gemm_ex example_gemm, failed_reply 6 2) _ _ _).
  - apply nth_error_In with (n := 6%nat). vm_compute. reflexivity.
  - reflexivity.
  - vm_compute. discriminate.
Defined.

(** X7.  An iteration that completes allocates exactly three buffers, with
    its first three calls, all of which succeed; and it frees exactly the
    three pointers these calls returned, A then B then C, with its last
    three calls, after the second clock reading. *)
Theorem X7_complete_iteration_frees_its_buffers handle s w st :
  iteration_outcome handle s w st = Ok tt ->
  let l := iteration_trace handle s w st in
  let calls := map ev_call l in
  filter is_malloc calls = firstn 3 calls /\
  forallb succeeded (firstn 3 l) = true /\
  filter is_free calls =
    [hipFree (ptr_at 0 l); hipFree (ptr_at 1 l); hipFree (ptr_at 2 l)] /\
  skipn 22 calls = filter is_free calls.
Proof.
  intros Hok. cbv zeta.
  destruct (iteration_trace_post handle s w st) as (_ & _ & _ & Hit & Hend).
  rewrite Hok in Hend. destruct Hend as (Hc & _).
  rewrite (complete_calls _ _ _ Hit Hc).
  destruct s as [[m n] k]. repeat split; try reflexivity.
  destruct Hc as [Hlen Hall].
  rewrite <- (firstn_skipn 3 (iteration_trace handle (m, n, k) w st)) in Hall.
  rewrite forallb_app in Hall. apply andb_true_iff in Hall. apply Hall.
Qed.

Lemma X7_complete_iteration_frees_its_buffers_witness :
  filter is_malloc (map ev_call example_trace) = firstn 3 (map ev_call example_trace) /\
  forallb succeeded (firstn 3 example_trace) = true /\
  filter is_free (map ev_call example_trace) =
    [hipFree (ptr_at 0 example_trace); hipFree (ptr_at 1 example_trace);
     hipFree (ptr_at 2 example_trace)] /\
  skipn 22 (map ev_call example_trace) = filter is_free (map ev_call example_trace).
Proof.
  refine (X7_complete_iteration_frees_its_buffers example_handle example_shape
            healthy_world initial_state _).
  vm_compute. reflexivity.
Defined.

(** ** A zero elapsed time *)

Lemma is_prefix_firstn {A} (l1 l2 : list A) :
  is_prefix l1 l2 -> l1 = firstn (List.length l1) l2.
Proof.
  intros [t ->]. rewrite firstn_app, firstn_all, Nat.sub_diag.
  cbn. symmetry. apply app_nil_r.
Qed.

Lemma is_prefix_length {A} (l1 l2 : list A) :
  is_prefix l1 l2 -> (List.length l1 <= List.length l2)%nat.
Proof. intros [t ->]. rewrite length_app. lia. Qed.

Lemma zero_times_1e12 (x : float) :
  PrimFloat.eqb x 0%float = true ->
  PrimFloat.eqb (PrimFloat.mul (avg_time x) 1e12%float) 0%float = true.
Proof.
  rewrite eqb_spec. intros H.
  assert (Hx : x = 0%float \/ x = (-0)%float).
  { destruct (Prim2SF x) as [s|s| |s m e] eqn:E.
    - destruct s; [ right | left ]; apply Prim2SF_inj; rewrite E;
        vm_compute; reflexivity.
    - destruct s; vm_compute in H; discriminate H.
    - vm_compute in H; discriminate H.
    - destruct s; vm_compute in H; discriminate H. }
  destruct Hx as [-> | ->]; vm_compute; reflexivity.
Qed.

(** X9.  A zero elapsed time.  If an iteration on a shape with 32-bit
    positive dimensions reaches its second clock reading and the
    difference of the two readings is 0.0 (the clock did not advance), the
    division of [tops] raises [ZeroDivisionError]: the iteration ends after
    22 calls, nothing is appended to [results], no line is printed, and
    the three buffers it allocated are not freed. *)
Theorem X9_zero_elapsed_time_raises handle m n k w st :
  0 < m < 2 ^ 32 -> 0 < n < 2 ^ 32 -> 0 < k < 2 ^ 32 ->
  let l := iteration_trace handle (m, n, k) w st in
  let st' := snd (bench_shape handle (m, n, k) w st) in
  (22 <= List.length l)%nat ->
  PrimFloat.eqb (PrimFloat.sub (clock_at 21 l) (clock_at 9 l)) 0%float = true ->
  iteration_outcome handle (m, n, k) w st = Raise ZeroDivisionError /\
  List.length l = 22%nat /\
  count is_malloc l = 3%nat /\
  count is_free l = 0%nat /\
  results st' = results st /\
  stdout st' = stdout st.
Proof.
  intros Hm Hn Hk. cbv zeta. intros Hlen Hzero.
  assert (Htops : tops m n k (measured_avg (iteration_trace handle (m, n, k) w st))
                  = Raise ZeroDivisionError).
  { unfold tops, py_int_div_float, py_float_div, measured_avg.
    rewrite (u32_product_converts m n k Hm Hn Hk).
    rewrite (zero_times_1e12 _ Hzero). reflexivity. }
  destruct (iteration_trace_post handle (m, n, k) w st)
    as (_ & _ & _ & Hit & Hend).
  pose proof (iteration_trace_intro (fun l o _ => stops_at_first_failure l o)
                handle (m, n, k) w st (bench_shape_message handle (m, n, k) w st))
    as Hmsg.
  cbv beta in Hmsg.
  destruct (iteration_outcome handle (m, n, k) w st) as [[]|e].
  - destruct Hend as (_ & r & (tp & Htp & _) & _).
    rewrite Htops in Htp. discriminate Htp.
  - destruct Hend as (Hres & Hout & Hfree & [(msg & ev & -> & _) | (Hl & _ & _ & Hr)]).
    + destruct (Hmsg msg _ eq_refl) as (Hm' & _).
      pose proof (is_prefix_length _ _ (proj1 Hit)) as Hle.
      rewrite length_map in Hle. cbn in Hle.
      remember (List.length (iteration_trace handle (m, n, k) w st)) as len.
      assert (Hcases : (len = 22 \/ len = 23 \/ len = 24 \/ len = 25)%nat) by lia.
      destruct Hcases as [-> | [-> | [-> | ->]]]; discriminate Hm'.
    + rewrite Htops in Hr. injection Hr as <-.
      split; [ reflexivity | ]. split; [ exact Hl | ].
      pose proof (is_prefix_firstn _ _ (proj1 Hit)) as Hcalls.
      rewrite length_map, Hl in Hcalls.
      unfold count. rewrite Hcalls.
      repeat split; auto.
Qed.

Lemma X9_zero_elapsed_time_raises_witness :
  iteration_outcome example_handle example_shape frozen_clock_world initial_state =
    Raise ZeroDivisionError /\
  List.length
    (iteration_trace example_handle example_shape frozen_clock_world initial_state) =
    22%nat /\
  count is_malloc
    (iteration_trace example_handle example_shape frozen_clock_world initial_state) =
    3%nat /\
  count is_free
    (iteration_trace example_handle example_shape frozen_clock_world initial_state) =
    0%nat /\
  results (snd (bench_shape example_handle example_shape frozen_clock_world initial_state)) =
    results initial_state /\
  stdout (snd (bench_shape example_handle example_shape frozen_clock_world initial_state)) =
    stdout initial_state.
Proof.
  refine (X9_zero_elapsed_time_raises example_handle 2048 4096 2048
            frozen_clock_world initial_state _ _ _ _ _).
  - vm_compute. split; reflexivity.
  - vm_compute. split; reflexivity.
  - vm_compute. split; reflexivity.
  - vm_compute. apply le_n.
  - vm_compute. reflexivity.
Defined.

(** ** Counting the calls of a run *)

Lemma count_completed (p : call -> bool) (c : nat) handle done rs :
  (forall s d_A d_B d_C,
      List.length (filter p (shape_protocol handle s d_A d_B d_C)) = c) ->
  completed handle done rs ->
  count p (events_of done) = (List.length rs * c)%nat.
Proof.
  intros Hp Hdone. unfold events_of.
  induction Hdone as [|[s l] r done rs (Hit & Hc & _) _ IH]; [ reflexivity | ].
  cbn [map fst snd List.concat List.length] in *. rewrite count_app, IH.
  unfold count at 1. rewrite (complete_calls _ _ _ Hit Hc), Hp. lia.
Qed.

Lemma count_setup (p : call -> bool) pre :
  (forall c, is_setup c = true -> p c = false) ->
  forallb is_setup (map ev_call pre) = true ->
  count p pre = 0%nat.
Proof.
  intros Hp Hpre. apply count_none. revert Hpre. apply forallb_weaken.
  intros c Hc. rewrite (Hp c Hc). reflexivity.
Qed.

Lemma is_prefix_filter_length {A} (p : A -> bool) (l1 l2 : list A) :
  is_prefix l1 l2 ->
  (List.length (filter p l1) <= List.length (filter p l2))%nat.
Proof. intros [t ->]. rewrite filter_app, length_app. lia. Qed.

Lemma script_buffers_balance shapes lines sorted w p :
  script_post shapes lines sorted w (fst p) (snd p) ->
  buffers_balance shapes p.
Proof.
  intros (pre & Hpre & _ & Hrun). unfold buffers_balance. cbv zeta.
  assert (Hfree : count is_free pre = 0%nat)
    by (apply count_setup; [ intros []; cbn; congruence | exact Hpre ]).
  assert (Hmalloc : count is_malloc pre = 0%nat)
    by (apply count_setup; [ intros []; cbn; congruence | exact Hpre ]).
  assert (Hgemm : count is_gemm pre = 0%nat)
    by (apply count_setup; [ intros []; cbn; congruence | exact Hpre ]).
  assert (Hsync : count is_sync pre = 0%nat)
    by (apply count_setup; [ intros []; cbn; congruence | exact Hpre ]).
  destruct Hrun as [(e & Ho & _ & Htr & Hres & _) | (hr & done & _ & _ & Hdone & Hend)].
  - rewrite Htr, Hres, Hfree, Hmalloc, Hgemm. cbn [List.length].
    split; [ reflexivity | ]. split; [ lia | ]. split; [ lia | ].
    rewrite Ho. discriminate.
  - pose proof (count_completed is_free 3 _ _ _
                  (fun s a b c => ltac:(destruct s as [[? ?] ?]; reflexivity)) Hdone)
      as Dfree.
    pose proof (count_completed is_malloc 3 _ _ _
                  (fun s a b c => ltac:(destruct s as [[? ?] ?]; reflexivity)) Hdone)
      as Dmalloc.
    pose proof (count_completed is_gemm 13 _ _ _
                  (fun s a b c => ltac:(destruct s as [[? ?] ?]; reflexivity)) Hdone)
      as Dgemm.
    pose proof (count_completed is_sync 2 _ _ _
                  (fun s a b c => ltac:(destruct s as [[? ?] ?]; reflexivity)) Hdone)
      as Dsync.
    pose proof (Forall2_length Hdone) as Hlen.
    destruct (fst p) as [[]|e].
    + destruct Hend as (Hshapes & (dr & Htr) & _).
      rewrite Htr, !count_app, Hfree, Hmalloc, Hgemm, Hsync,
        Dfree, Dmalloc, Dgemm, Dsync.
      unfold count at 1 2 3 4 5 6 7. cbn [map ev_call fst filter is_free is_malloc
                                   is_gemm is_sync List.length].
      rewrite <- Hlen, <- Hshapes, length_map.
      split; [ lia | ]. split; [ lia | ]. split; [ lia | ].
      intros _. repeat split; lia.
    + destruct Hend as (s & rest & tail & _ & Htr & Hit & Hnofree & _).
      assert (Tfree : count is_free tail = 0%nat).
      { apply count_none. unfold no_free in Hnofree.
        clear - Hnofree. induction tail as [|ev tail IH]; [ reflexivity | ].
        cbn [map forallb] in *. apply andb_true_iff in Hnofree.
        destruct Hnofree as [-> Ht]. exact (IH Ht). }
      assert (Tmalloc : (count is_malloc tail <= 3)%nat).
      { unfold count.
        etransitivity; [ apply (is_prefix_filter_length _ _ _ (proj1 Hit)) | ].
        destruct s as [[? ?] ?]. apply Nat.le_refl. }
      assert (Tgemm : (count is_gemm tail <= 13)%nat).
      { unfold count.
        etransitivity; [ apply (is_prefix_filter_length _ _ _ (proj1 Hit)) | ].
        destruct s as [[? ?] ?]. apply Nat.le_refl. }
      rewrite Htr, !count_app, Hfree, Hmalloc, Hgemm, Dfree, Dmalloc, Dgemm, Tfree.
      split; [ lia | ]. split; [ lia | ]. split; [ lia | ]. discriminate.
Qed.

(** X10.  Counting the calls of a run of either script.  [hipFree] is
    called three times for each record of [results], and [hipMalloc] at
    most three times more: only the iteration that raised leaves buffers
    behind, and at most 13 GEMM calls belong to it.  A run that completes
    has one record per shape (64 and 5), 3 allocations, 3 frees, 13 GEMM
    calls and 2 barriers per shape. *)
Theorem X10_buffers_balance w :
  buffers_balance benchmark_shapes (run Benchmark.main w) /\
  buffers_balance Quick.test_cases (run Quick.main w) /\
  List.length benchmark_shapes = 64%nat /\
  List.length Quick.test_cases = 5%nat.
Proof.
  split; [ | split; [ | split; reflexivity ] ].
  - eapply script_buffers_balance. apply benchmark_main_run.
  - eapply script_buffers_balance. apply quick_main_run.
Qed.

(** ** The uploads *)

Lemma uploads_fit_app l1 l2 :
  uploads_fit l1 -> uploads_fit l2 -> uploads_fit (l1 ++ l2).
Proof.
  intros H1 H2 j dst src size kind r Hj.
  destruct (Nat.lt_ge_cases j (List.length l1)) as [Hlt|Hge].
  - rewrite nth_error_app1 in Hj by exact Hlt.
    destruct (H1 _ _ _ _ _ _ Hj) as (Hs & Hk & i & r' & -> & Hi & Hr).
    split; [ exact Hs | ]. split; [ exact Hk | ].
    exists i, r'. split; [ reflexivity | ].
    rewrite nth_error_app1 by lia. auto.
  - rewrite nth_error_app2 in Hj by exact Hge.
    destruct (H2 _ _ _ _ _ _ Hj) as (Hs & Hk & i & r' & Hji & Hi & Hr).
    split; [ exact Hs | ]. split; [ exact Hk | ].
    exists (List.length l1 + i)%nat, r'. split; [ lia | ].
    rewrite nth_error_app2 by lia.
    replace (List.length l1 + i - List.length l1)%nat with i by lia. auto.
Qed.

Lemma uploads_fit_none (p : call -> bool) l :
  (forall dst src size kind, p (hipMemcpy dst src size kind) = false) ->
  forallb p (map ev_call l) = true -> uploads_fit l.
Proof.
  intros Hp Hall j dst src size kind r Hj.
  apply nth_error_In in Hj. apply (in_map ev_call) in Hj.
  pose proof (forallb_In _ _ _ Hall Hj) as H. cbn [ev_call fst] in H.
  rewrite Hp in H. discriminate H.
Qed.

Lemma succeeded_status c r :
  succeeded (c, r) = true -> checked c = true -> status r = 0.
Proof.
  unfold succeeded. cbn [ev_call ev_reply fst snd]. intros H Hc.
  rewrite Hc in H. cbn in H. apply Z.eqb_eq. exact H.
Qed.

Ltac split_index j H n :=
  lazymatch n with
  | O => destruct j; discriminate H
  | S ?n' =>
      destruct j as [|j];
      [ cbn [nth_error] in H; try discriminate H
      | cbn [nth_error] in H; split_index j H n' ]
  end.

Lemma iteration_ok_uploads handle s l :
  iteration_ok handle s l -> uploads_fit l.
Proof.
  destruct s as [[m n] k]. intros [Hpre Hsucc] j dst src size kind r Hj.
  pose proof (is_prefix_nth_error _ _ _ _ Hpre
                (map_nth_error ev_call _ _ Hj)) as Hc.
  cbn [ev_call fst shape_protocol repeat app] in Hc.
  split_index j Hc 25%nat.
  - (* the upload of A, call 3 *)
    destruct l as [|[c0 r0] [|e1 [|e2 [|e3 l]]]]; try discriminate Hj.
    destruct Hpre as [t Hpre].
    cbn [shape_protocol repeat app map ev_call fst] in Hpre.
    injection Hpre as E0 _. subst c0.
    cbn [removelast forallb] in Hsucc.
    apply andb_true_iff in Hsucc. destruct Hsucc as [Hs0 _].
    injection Hc as <- <- <- <-.
    split; [ reflexivity | ]. split; [ reflexivity | ].
    exists 0%nat, r0. repeat split.
    exact (succeeded_status _ _ Hs0 eq_refl).
  - (* the upload of B, call 4 *)
    destruct l as [|e0 [|[c1 r1] [|e2 [|e3 [|e4 l]]]]]; try discriminate Hj.
    destruct Hpre as [t Hpre].
    cbn [shape_protocol repeat app map ev_call fst] in Hpre.
    injection Hpre as _ E1 _. subst c1.
    cbn [removelast forallb] in Hsucc.
    apply andb_true_iff in Hsucc. destruct Hsucc as [_ Hsucc].
    apply andb_true_iff in Hsucc. destruct Hsucc as [Hs1 _].
    injection Hc as <- <- <- <-.
    split; [ reflexivity | ]. split; [ reflexivity | ].
    exists 1%nat, r1. repeat split.
    exact (succeeded_status _ _ Hs1 eq_refl).
Qed.

Lemma completed_uploads handle done rs :
  completed handle done rs -> uploads_fit (events_of done).
Proof.
  intros Hdone. unfold events_of.
  induction Hdone as [|[s l] r done rs (Hit & _) _ IH].
  - intros [|j] ? ? ? ? ? Hj; discriminate Hj.
  - cbn [map snd List.concat]. apply uploads_fit_app; [ | exact IH ].
    exact (iteration_ok_uploads _ _ _ Hit).
Qed.

Lemma script_uploads shapes lines sorted w o st :
  script_post shapes lines sorted w o st -> uploads_fit (trace st).
Proof.
  intros (pre & Hpre & _ & Hrun).
  assert (Hp : uploads_fit pre)
    by (apply (uploads_fit_none is_setup); [ reflexivity | exact Hpre ]).
  destruct Hrun as [(e & _ & _ & -> & _) | (hr & done & _ & _ & Hdone & Hend)];
    [ exact Hp | ].
  pose proof (completed_uploads _ _ _ Hdone) as Hd.
  destruct o as [[]|e].
  - destruct Hend as (_ & (dr & ->) & _).
    apply uploads_fit_app; [ exact Hp | ].
    apply uploads_fit_app; [ exact Hd | ].
    apply (uploads_fit_none is_destroy); reflexivity.
  - destruct Hend as (s & rest & tail & _ & -> & Hit & _).
    apply uploads_fit_app; [ exact Hp | ].
    apply uploads_fit_app; [ exact Hd | ].
    exact (iteration_ok_uploads _ _ _ Hit).
Qed.

(** X8.  The uploads of [rocblas-quick.py], which declares the source of
    [hipMemcpy] as a pointer, so that the address of the host array is
    handed over whole.  Every [hipMemcpy] of a run is issued host-to-device
    (kind 1) with the byte count of its host array (rows x cols float16
    items, 2 bytes each), and its destination is the pointer that the
    [hipMalloc] exactly three calls earlier, which succeeded, returned for
    that same byte count.  ([rocblas-benchmark.py] declares no argument
    types and passes the host address as a Python int; it is left out.) *)
Theorem X8_uploads_fit w j dst src size kind r :
  let l := trace (snd (run Quick.main w)) in
  nth_error l j = Some (hipMemcpy dst src size kind, r) ->
  size = nbytes src /\ kind = 1 /\
  exists i r',
    j = (i + 3)%nat /\
    nth_error l i = Some (hipMalloc size, r') /\
    status r' = 0 /\ out_ptr r' = dst.
Proof.
  cbv zeta.
  exact (script_uploads _ _ _ _ _ _ (quick_main_run w) j dst src size kind r).
Qed.

Lemma X8_uploads_fit_witness :
  2048 * 2048 * 2 = nbytes (h_A 2048 2048) /\ 1 = 1 /\
  exists i r',
    33%nat = (i + 3)%nat /\
    nth_error (trace (snd (run Quick.main healthy_world))) i =
      Some (hipMalloc (2048 * 2048 * 2), r') /\
    status r' = 0 /\ out_ptr r' = Some 126976.
Proof.
  refine (X8_uploads_fit healthy_world 33 (Some 126976) (h_A 2048 2048)
            (2048 * 2048 * 2) 1
            (mk_reply 0 (Some 139264) 1 (PrimFloat.div (float_of_int 33) 1000%float)) _).
  vm_compute. reflexivity.
Defined.

(** ** The report *)

Lemma enumerate_length {A} (l : list A) start :
  List.length (enumerate l start) = List.length l.
Proof.
  revert start. induction l as [|x l IH]; intros start; cbn; [ reflexivity | ].
  rewrite IH. reflexivity.
Qed.

Lemma enumerate_In {A} (l : list A) start i x :
  In (i, x) (enumerate l start) ->
  start <= i < start + Z.of_nat (List.length l) /\
  nth_error l (Z.to_nat (i - start)) = Some x.
Proof.
  revert start. induction l as [|y l IH]; intros start; cbn [enumerate In].
  - intros [].
  - intros [Heq | Hin].
    + injection Heq as <- <-. rewrite Z.sub_diag. cbn [List.length].
      split; [ lia | reflexivity ].
    + destruct (IH _ Hin) as (Hi & Hn). cbn [List.length]. split; [ lia | ].
      replace (Z.to_nat (i - start)) with (S (Z.to_nat (i - (start + 1)))) by lia.
      exact Hn.
Qed.

Lemma filter_map_all {A B} (p : B -> bool) (f : A -> B) (l : list A) :
  (forall x, p (f x) = true) -> filter p (map f l) = map f l.
Proof.
  intros Hp. induction l as [|x l IH]; cbn; [ reflexivity | ].
  rewrite Hp, IH. reflexivity.
Qed.

Lemma filter_map_none {A B} (p : B -> bool) (f : A -> B) (l : list A) :
  (forall x, p (f x) = false) -> filter p (map f l) = [].
Proof.
  intros Hp. induction l as [|x l IH]; cbn; [ reflexivity | ].
  rewrite Hp, IH. reflexivity.
Qed.

Lemma benchmark_report_printed w st :
  printed Benchmark.report w st = benchmark_report_lines (results st).
Proof.
  unfold printed.
  destruct (wp_elim _ _ _ _ (benchmark_report_post w st)) as (_ & _ & _ & _ & Hout).
  rewrite Hout. apply skipn_length_app.
Qed.

(** X11.  The report of [rocblas-benchmark.py], from any state.  Of the
    1 + min(10, n) + n lines it prints for [n] records, min(10, n) are
    "top" lines; each top line carries a rank between 1 and 10 and the
    record at that rank in [results_sorted], which is a record of
    [results]. *)
Theorem X11_top_view w st :
  let out := printed Benchmark.report w st in
  let n := List.length (results st) in
  List.length (filter is_top_line out) = Nat.min 10 n /\
  List.length out = (1 + Nat.min 10 n + n)%nat /\
  (forall i r,
      In (TopLine i r) out ->
      1 <= i <= 10 /\
      In r (results st) /\
      nth_error (sorted_by_tops (results st)) (Z.to_nat (i - 1)) = Some r).
Proof.
  cbv zeta. rewrite benchmark_report_printed. unfold benchmark_report_lines.
  pose proof (Permutation_length (sorted_by_tops_perm (results st))) as Hlen.
  assert (Hten : List.length (firstn 10 (sorted_by_tops (results st))) =
                 Nat.min 10 (List.length (results st)))
    by (rewrite length_firstn, Hlen; reflexivity).
  split; [ | split ].
  - cbn [filter is_top_line]. rewrite filter_app.
    rewrite (filter_map_all is_top_line) by reflexivity.
    rewrite (filter_map_none is_top_line) by reflexivity.
    rewrite app_nil_r, length_map, enumerate_length. exact Hten.
  - cbn [List.length]. rewrite length_app, !length_map, enumerate_length, Hten. lia.
  - intros i r [Hin | Hin]; [ discriminate Hin | ].
    apply in_app_or in Hin. destruct Hin as [Hin | Hin].
    + apply in_map_iff in Hin. destruct Hin as ([i' r'] & Heq & Hin).
      cbn [fst snd] in Heq. injection Heq as -> ->.
      destruct (enumerate_In _ _ _ _ Hin) as (Hi & Hn).
      rewrite Hten in Hi.
      assert (Hsorted : nth_error (sorted_by_tops (results st)) (Z.to_nat (i - 1)) = Some r).
      { rewrite nth_error_firstn in Hn.
        destruct (Nat.ltb (Z.to_nat (i - 1)) 10); [ exact Hn | discriminate Hn ]. }
      split; [ lia | ]. split; [ | exact Hsorted ].
      apply (Permutation_in _ (sorted_by_tops_perm (results st))).
      eapply nth_error_In. exact Hsorted.
    + apply in_map_iff in Hin. destruct Hin as (r' & Heq & _). discriminate Heq.
Qed.

Lemma script_report_only_when_complete shapes lines sorted w p :
  script_post shapes lines sorted w (fst p) (snd p) ->
  report_only_when_complete lines p.
Proof.
  intros (pre & _ & _ & Hrun). unfold report_only_when_complete.
  assert (Hperf : forall rs, forallb is_perf_line (map perf_line rs) = true)
    by (intros rs; induction rs as [|r rs IH]; [ reflexivity | exact IH ]).
  destruct Hrun as [(e & Ho & _ & _ & Hres & _ & Hout) | (hr & done & _ & _ & _ & Hend)].
  - rewrite Ho, Hres, Hout. split; [ intros _ _; split; reflexivity | discriminate ].
  - destruct (fst p) as [[]|e].
    + destruct Hend as (_ & _ & _ & Hout). split; [ discriminate | intros _ ].
      rewrite Hout.
      rewrite <- (length_map perf_line (results (snd p))).
      rewrite skipn_length_app.
      rewrite firstn_app, Nat.sub_diag, firstn_all. cbn [firstn].
      rewrite app_nil_r. split; reflexivity.
    + destruct Hend as (s & rest & tail & _ & _ & _ & _ & _ & _ & Hout).
      split; [ intros _ _ | discriminate ].
      rewrite Hout, length_map. split; [ apply Hperf | reflexivity ].
Qed.

(** X12.  A run of either script that raises prints no summary, top or
    result line: its timing lines, one per record, are all it printed.  A
    run that completes printed one timing line per record and then exactly
    the lines of the report. *)
Theorem X12_report_only_when_complete w :
  report_only_when_complete benchmark_report_lines (run Benchmark.main w) /\
  report_only_when_complete quick_report_lines (run Quick.main w).
Proof.
  split.
  - eapply script_report_only_when_complete. apply benchmark_main_run.
  - eapply script_report_only_when_complete. apply quick_main_run.
Qed.

(** ** The throughput, for every [avg_time] *)

Lemma zero_avg_times_1e12 (x : float) :
  PrimFloat.eqb x 0%float = true ->
  PrimFloat.eqb (PrimFloat.mul x 1e12%float) 0%float = true.
Proof.
  rewrite eqb_spec. intros H.
  assert (Hx : x = 0%float \/ x = (-0)%float).
  { destruct (Prim2SF x) as [s|s| |s m e] eqn:E.
    - destruct s; [ right | left ]; apply Prim2SF_inj; rewrite E;
        vm_compute; reflexivity.
    - destruct s; vm_compute in H; discriminate H.
    - vm_compute in H; discriminate H.
    - destruct s; vm_compute in H; discriminate H. }
  destruct Hx as [-> | ->]; vm_compute; reflexivity.
Qed.

Lemma nonzero_times_1e12_nonzero (x : float) :
  PrimFloat.eqb x 0%float = false ->
  PrimFloat.eqb (PrimFloat.mul x 1e12%float) 0%float = false.
Proof.
  rewrite !eqb_spec, mul_spec.
  pose proof (Prim2SF_valid x) as Hv.
  assert (E12 : Prim2SF 1e12%float = S754_finite false 8192000000000000 (-13))
    by (vm_compute; reflexivity).
  assert (E0 : Prim2SF 0%float = S754_zero false) by (vm_compute; reflexivity).
  rewrite E12, E0.
  destruct (Prim2SF x) as [s|s| |s m e].
  - destruct s; intros H; vm_compute in H; discriminate H.
  - intros _. destruct s; reflexivity.
  - intros _. reflexivity.
  - intros _. unfold SF64mul, SFmul.
    pose proof (binary_round_aux_nonzero (xorb s false) (m * 8192000000000000)
                  (e + -13) loc_Exact) as Hnz.
    cbn [valid_binary] in Hv. unfold bounded, canonical_mantissa in Hv.
    apply andb_true_iff in Hv. destruct Hv as [Hc _]. apply Z.eqb_eq in Hc.
    assert (Hd : 53 <= Zpos (digits2_pos (m * 8192000000000000))).
    { pose proof (digits2_pos_upper (m * 8192000000000000)) as Hu.
      assert (2 ^ 52 < 2 ^ Zpos (digits2_pos (m * 8192000000000000))) by
        (rewrite Pos2Z.inj_mul in Hu; change (2 ^ 52) with 4503599627370496; nia).
      apply Z.pow_lt_mono_r_iff in H; lia. }
    assert (He : emin <= e).
    { rewrite <- Hc. apply Z.le_max_r. }
    assert (Hsh : fexp prec emax (Zpos (digits2_pos (m * 8192000000000000)) + (e + -13))
                  - (e + -13)
                  <= Zpos (digits2_pos (m * 8192000000000000)) - 1).
    { unfold fexp. unfold SpecFloat.emin, FloatOps.prec, FloatOps.emax in *. lia. }
    specialize (Hnz Hsh).
    destruct (binary_round_aux prec emax (xorb s false) (Zpos (m * 8192000000000000))
                (e + -13) loc_Exact) as [s'|s'| |s' m' e'];
      [ destruct (Hnz s' eq_refl) | destruct s'; reflexivity | reflexivity
      | destruct s'; reflexivity ].
Qed.

(** X20.  The throughput expression, for every value of [avg_time].  With
    positive 32-bit dimensions, [tops] raises [ZeroDivisionError] exactly
    when [avg_time == 0.0], and otherwise is the binary64 quotient of
    [2*m*n*k] by [avg_time * 1e12], whatever the sign of [avg_time]: an
    iteration all of whose calls succeed and whose clock readings give a
    non-zero [avg_time], negative ones included, completes and records that
    quotient. *)
Theorem X20_tops_raises_only_on_zero m n k avg :
  0 < m < 2 ^ 32 -> 0 < n < 2 ^ 32 -> 0 < k < 2 ^ 32 ->
  let value :=
    PrimFloat.div (float_of_int (2 * m * n * k)) (PrimFloat.mul avg 1e12%float) in
  tops m n k avg =
    (if PrimFloat.eqb avg 0%float then Raise ZeroDivisionError else Ok value) /\
  forall handle w st,
    let l := iteration_trace handle (m, n, k) w st in
    let st' := snd (bench_shape handle (m, n, k) w st) in
    measured_avg l = avg ->
    forallb succeeded l = true ->
    PrimFloat.eqb avg 0%float = false ->
    iteration_outcome handle (m, n, k) w st = Ok tt /\
    results st' = results st ++ [mk_result m n k (time_ms avg) value].
Proof.
  intros Hm Hn Hk. cbv zeta.
  assert (Htops : tops m n k avg =
                  if PrimFloat.eqb avg 0%float then Raise ZeroDivisionError
                  else Ok (PrimFloat.div (float_of_int (2 * m * n * k))
                             (PrimFloat.mul avg 1e12%float))).
  { unfold tops, py_int_div_float, py_float_div.
    rewrite (u32_product_converts m n k Hm Hn Hk).
    destruct (PrimFloat.eqb avg 0%float) eqn:E.
    - rewrite (zero_avg_times_1e12 avg E). reflexivity.
    - rewrite (nonzero_times_1e12_nonzero avg E). reflexivity. }
  split; [ exact Htops | ].
  intros handle w st Hmeasured Hall Hnz.
  rewrite Hnz in Htops.
  destruct (iteration_trace_post handle (m, n, k) w st)
    as (_ & _ & _ & Hit & Hend).
  unfold recorded, raised_at in Hend. rewrite Hmeasured in Hend.
  destruct (iteration_outcome handle (m, n, k) w st) as [[]|e].
  - destruct Hend as (_ & r & (tp & Htp & ->) & Hres & _).
    rewrite Htops in Htp. injection Htp as <-.
    split; [ reflexivity | exact Hres ].
  - destruct Hend as (_ & _ & _ & [(msg & ev & _ & Hlast & Hc & Hs) | (_ & _ & _ & Hr)]).
    + pose proof (forallb_In _ _ _ Hall (last_Some_In _ _ Hlast)) as Hev.
      rewrite (unsuccessful _ Hc Hs) in Hev. discriminate Hev.
    + rewrite Htops in Hr. discriminate Hr.
Qed.

Lemma X20_tops_raises_only_on_zero_witness :
  (iteration_outcome example_handle example_shape backwards_clock_world initial_state =
     Ok tt /\
   results (snd (bench_shape example_handle example_shape backwards_clock_world
                   initial_state)) =
     results initial_state
     ++ [mk_result 2048 4096 2048 (time_ms backwards_avg)
           (PrimFloat.div (float_of_int (2 * 2048 * 4096 * 2048))
              (PrimFloat.mul backwards_avg 1e12%float))]) /\
  PrimFloat.ltb backwards_avg 0%float = true.
Proof.
  split.
  - refine (proj2 (X20_tops_raises_only_on_zero 2048 4096 2048 backwards_avg _ _ _)
              example_handle backwards_clock_world initial_state eq_refl _ _).
    + vm_compute. split; reflexivity.
    + vm_compute. split; reflexivity.
    + vm_compute. split; reflexivity.
    + vm_compute. reflexivity.
    + vm_compute. reflexivity.
  - vm_compute. reflexivity.
Defined.

(** ** The PyTorch script *)

Lemma torch_wp_consequence {A} (p : Torch.prog A) :
  forall log (Q Q' : Torch.ending A -> list Torch.obs -> Prop),
    (forall e l, Q e l -> Q' e l) ->
    Torch.wp p log Q -> Torch.wp p log Q'.
Proof.
  induction p as [a|f|c k IH|l k IH|r k IH|k IH]; intros log Q Q' HQ; cbn [Torch.wp].
  - apply HQ.
  - apply HQ.
  - intros H r. specialize (H r). destruct (Torch.raised r).
    + apply HQ, H.
    + revert H. apply IH. intros e l. apply HQ.
  - apply IH. intros e l'. apply HQ.
  - apply IH. intros e l'. apply HQ.
  - apply IH. exact HQ.
Qed.

Lemma torch_wp_bind {A B} (p : Torch.prog A) (f : A -> Torch.prog B) :
  forall log (Q : Torch.ending B -> list Torch.obs -> Prop),
    Torch.wp p log
      (fun e l =>
         match e with
         | Torch.Done a => Torch.wp (f a) (log ++ l) (fun e' l' => Q e' (l ++ l'))
         | Torch.Failed x => Q (Torch.Failed x) l
         end) ->
    Torch.wp (Torch.bind p f) log Q.
Proof.
  induction p as [a|x|c k IH|l k IH|r k IH|k IH]; intros log Q;
    cbn [Torch.wp Torch.bind].
  - rewrite app_nil_r. cbn [app]. auto.
  - auto.
  - intros H r. specialize (H r). destruct (Torch.raised r); [ exact H | ].
    apply IH. revert H. apply torch_wp_consequence.
    intros [a|x] l; [ | auto ].
    rewrite <- app_assoc. cbn [app]. auto.
  - intros H. apply IH. revert H. apply torch_wp_consequence.
    intros [a|x] l'; [ | auto ].
    rewrite <- app_assoc. cbn [app]. auto.
  - intros H. apply IH. revert H. apply torch_wp_consequence.
    intros [a|x] l'; [ | auto ].
    rewrite <- app_assoc. cbn [app]. auto.
  - apply IH.
Qed.

Lemma torch_wp_sound {A} (p : Torch.prog A) (w : Torch.world) :
  forall log (Q : Torch.ending A -> list Torch.obs -> Prop),
    Torch.wp p log Q ->
    Q (fst (Torch.run p w log)) (snd (Torch.run p w log)).
Proof.
  induction p as [a|x|c k IH|l k IH|r k IH|k IH]; intros log Q;
    cbn [Torch.wp Torch.run].
  - auto.
  - auto.
  - intros H. specialize (H (w log c)). destruct (Torch.raised (w log c)).
    + exact H.
    + apply IH in H.
      destruct (Torch.run (k (w log c)) w (log ++ [Torch.Called c (w log c)])).
      exact H.
  - intros H. apply IH in H.
    destruct (Torch.run k w (log ++ [Torch.Printed l])). exact H.
  - intros H. apply IH in H.
    destruct (Torch.run k w (log ++ [Torch.Appended r])). exact H.
  - apply IH.
Qed.

Ltac torch_returned :=
  unfold Torch.returned; cbn [snd];
  repeat match goal with
         | H : Torch.raised ?r = None |- context [Torch.raised ?r] => rewrite H
         end;
  reflexivity.

Lemma torch_bench_shape_post dev i s log :
  Torch.wp (Torch.bench_shape dev i s) log (Torch.iteration_post dev i s).
Proof.
  destruct s as [[m n] k].
  unfold Torch.bench_shape.
  cbn [Torch.wp Torch.bind Torch.print Torch.ask Torch.for_range].
  repeat (let r := fresh "r" in let E := fresh "E" in
          intros r; destruct (Torch.raised r) eqn:E).
  20: destruct (tops m n k
                  (avg_time (PrimFloat.sub (Torch.out_float r17) (Torch.out_float r5))))
        as [tp|x] eqn:Etops;
      cbn [Torch.lift Torch.wp Torch.bind Torch.results_append Torch.print].
  all: unfold Torch.iteration_post;
    cbn [Torch.calls flat_map app map fst snd removelast forallb List.length
         Torch.tensor_at Torch.clock_at Torch.measured_avg
         nth_error Torch.protocol repeat].
  all: (split; [ eexists; cbn [app]; reflexivity | ]).
  all: (split; [ torch_returned | ]).
  all: try (split; [ do 2 eexists; split; [ reflexivity | eassumption ]
                   | reflexivity ]).
  - split; [ reflexivity | ]. split; [ torch_returned | ].
    exists tp. split; [ exact Etops | reflexivity ].
  - split; [ reflexivity | ]. split; [ torch_returned | ].
    split; [ exact Etops | reflexivity ].
Qed.

Lemma torch_sweep_post dev items :
  forall log,
    Torch.wp (Torch.for_each items
                (fun ir => Torch.bench_shape dev (fst ir) (snd ir)))
      log (Torch.sweep_post dev items).
Proof.
  induction items as [|[i s] rest IH]; intros log;
    cbn [Torch.for_each Torch.sweep_post fst snd].
  - cbn [Torch.wp]. split; reflexivity.
  - apply torch_wp_bind.
    eapply torch_wp_consequence; [ | apply torch_bench_shape_post ].
    intros [[]|x] l Hit.
    + eapply torch_wp_consequence; [ | apply IH ].
      intros e l2 Hs. exists (Torch.Done tt), l. split; [ exact Hit | ].
      exists l2. split; [ reflexivity | exact Hs ].
    + exists (Torch.Failed x), l. split; [ exact Hit | split; reflexivity ].
Qed.

Lemma torch_print_rows rs :
  forall log (Q : Torch.ending unit -> list Torch.obs -> Prop),
    Q (Torch.Done tt) (map (fun r => Torch.Printed (Torch.ResultLine r)) rs) ->
    Torch.wp (Torch.for_each rs (fun r => Torch.print (Torch.ResultLine r))) log Q.
Proof.
  induction rs as [|r rs IH]; intros log Q H;
    cbn [Torch.for_each Torch.wp Torch.bind Torch.print map] in *.
  - exact H.
  - apply IH. exact H.
Qed.

Lemma torch_main_post : Torch.wp Torch.main [] Torch.run_post.
Proof.
  unfold Torch.main.
  cbn [Torch.wp Torch.bind Torch.print Torch.ask app].
  intros r1. destruct (Torch.raised r1) as [what|] eqn:E1.
  { unfold Torch.run_post. left. exists r1, what. auto. }
  intros r2. destruct (Torch.raised r2) as [what|] eqn:E2.
  { unfold Torch.run_post. right; left. exists r1, r2, what. auto. }
  destruct (Torch.out_bool r2) eqn:B2;
    cbn [negb Torch.wp Torch.bind Torch.print Torch.throw app].
  2: { unfold Torch.run_post. do 2 right; left. exists r1, r2. auto 10. }
  intros r3. destruct (Torch.raised r3) as [what|] eqn:E3.
  { unfold Torch.run_post. do 3 right; left. exists r1, r2, r3, what. auto 10. }
  intros r4. destruct (Torch.raised r4) as [what|] eqn:E4.
  { unfold Torch.run_post. do 4 right; left. exists r1, r2, r3, r4, what. auto 10. }
  apply torch_wp_bind.
  eapply torch_wp_consequence; [ | apply torch_sweep_post ].
  intros e1 body Hsweep.
  destruct e1 as [[]|x].
  - cbn [Torch.wp Torch.bind Torch.print Torch.get_results].
    apply torch_wp_bind. apply torch_print_rows.
    cbn [Torch.wp].
    unfold Torch.run_post. do 5 right.
    exists r1, r2, r3, r4, (Torch.Done tt), body.
    repeat (split; [ assumption | ]).
    split; [ reflexivity | ].
    unfold Torch.prologue, Torch.summary, Torch.banner. cbn [app].
    rewrite <- !app_assoc. cbn [app].
    unfold Torch.appended. cbn [flat_map app].
    rewrite flat_map_app. cbn [flat_map app]. rewrite app_nil_r. reflexivity.
  - unfold Torch.run_post. do 5 right.
    exists r1, r2, r3, r4, (Torch.Failed x), body.
    repeat (split; [ assumption | ]).
    split; reflexivity.
Qed.

Lemma torch_main_run w :
  Torch.run_post (fst (Torch.run Torch.main w [])) (snd (Torch.run Torch.main w [])).
Proof. apply torch_wp_sound, torch_main_post. Qed.

Lemma torch_calls_app l1 l2 :
  Torch.calls (l1 ++ l2) = Torch.calls l1 ++ Torch.calls l2.
Proof. apply flat_map_app. Qed.

Lemma torch_appended_app l1 l2 :
  Torch.appended (l1 ++ l2) = Torch.appended l1 ++ Torch.appended l2.
Proof. apply flat_map_app. Qed.

Lemma torch_printed_app l1 l2 :
  Torch.printed (l1 ++ l2) = Torch.printed l1 ++ Torch.printed l2.
Proof. apply flat_map_app. Qed.

Lemma torch_calls_called cs : Torch.calls (map Torch.called cs) = cs.
Proof.
  induction cs as [|[c r] cs IH]; [ reflexivity | ].
  cbn [map Torch.called Torch.calls flat_map fst snd app].
  unfold Torch.calls in IH. rewrite IH. reflexivity.
Qed.

Lemma torch_appended_called cs : Torch.appended (map Torch.called cs) = [].
Proof. induction cs as [|[c r] cs IH]; [ reflexivity | exact IH ]. Qed.

Lemma torch_printed_called cs : Torch.printed (map Torch.called cs) = [].
Proof. induction cs as [|[c r] cs IH]; [ reflexivity | exact IH ]. Qed.

Lemma torch_calls_summary rs : Torch.calls (Torch.summary rs) = [].
Proof.
  unfold Torch.summary. cbn [app Torch.calls flat_map].
  rewrite flat_map_app. cbn [flat_map app]. rewrite app_nil_r.
  induction rs as [|r rs IH]; [ reflexivity | exact IH ].
Qed.

Lemma torch_appended_summary rs : Torch.appended (Torch.summary rs) = [].
Proof.
  unfold Torch.summary. cbn [app Torch.appended flat_map].
  rewrite flat_map_app. cbn [flat_map app]. rewrite app_nil_r.
  induction rs as [|r rs IH]; [ reflexivity | exact IH ].
Qed.




Lemma torch_iteration_nonempty dev i s e l :
  Torch.iteration_post dev i s e l -> l <> [].
Proof.
  destruct s as [[m n] k]. unfold Torch.iteration_post. cbv zeta.
  intros (_ & _ & Hend).
  destruct e as [[]|[x|what']].
  - destruct Hend as (_ & _ & tp & _ & ->). discriminate.
  - destruct Hend as (_ & _ & _ & ->). discriminate.
  - destruct Hend as (_ & ->). discriminate.
Qed.


Ltac torch_cases H :=
  unfold Torch.run_post in H;
  destruct H as [H|[H|[H|[H|[H|H]]]]];
  [ destruct H as (r1 & what1 & E1 & He & Hl)
  | destruct H as (r1 & r2 & what2 & E1 & E2 & He & Hl)
  | destruct H as (r1 & r2 & E1 & E2 & B2 & He & Hl)
  | destruct H as (r1 & r2 & r3 & what3 & E1 & E2 & B2 & E3 & He & Hl)
  | destruct H as (r1 & r2 & r3 & r4 & what4 & E1 & E2 & B2 & E3 & E4 & He & Hl)
  | destruct H as (r1 & r2 & r3 & r4 & e1 & body & E1 & E2 & B2 & E3 & E4 & Hsweep & Hend) ].

Lemma torch_calls_prologue r1 r2 r3 r4 rest :
  Torch.calls (Torch.prologue r1 r2 r3 r4 ++ rest) =
  (Torch.is_available, r1) :: (Torch.is_available, r2)
  :: (Torch.get_device_name 0, r3) :: (Torch.version, r4) :: Torch.calls rest.
Proof. reflexivity. Qed.

(** X13.  No GPU.  If the second [torch.cuda.is_available()] of a run
    answers [False], the run prints that CUDA/ROCm is not available and
    ends in [exit(1)]: the two availability queries are its only calls, no
    tensor is created and nothing is recorded. *)
Theorem X13_torch_exits_without_gpu w r :
  let p := Torch.run Torch.main w [] in
  nth_error (Torch.calls (snd p)) 1 = Some (Torch.is_available, r) ->
  Torch.raised r = None ->
  Torch.out_bool r = false ->
  fst p = Torch.Failed (Torch.Py (SystemExit 1)) /\
  List.length (Torch.calls (snd p)) = 2%nat /\
  Torch.printed (snd p) =
    [Torch.Rule; Torch.Title; Torch.Rule; Torch.NotAvailable] /\
  Torch.appended (snd p) = [].
Proof.
  cbv zeta. intros Hnth Hr Hb.
  pose proof (torch_main_run w) as H. torch_cases H.
  - rewrite Hl in Hnth. discriminate Hnth.
  - rewrite Hl in Hnth. cbn in Hnth. injection Hnth as <-. congruence.
  - rewrite He, Hl. repeat split.
  - rewrite Hl in Hnth. cbn in Hnth. injection Hnth as <-. congruence.
  - rewrite Hl in Hnth. cbn in Hnth. injection Hnth as <-. congruence.
  - assert (Hl : exists rest, snd (Torch.run Torch.main w []) =
                              Torch.prologue r1 r2 r3 r4 ++ rest).
    { destruct e1 as [[]|x]; destruct Hend as (_ & ->); eexists; reflexivity. }
    destruct Hl as (rest & Hl). rewrite Hl, torch_calls_prologue in Hnth.
    cbn in Hnth. injection Hnth as <-. congruence.
Qed.

Lemma torch_iteration_calls dev i s e l c :
  Torch.iteration_post dev i s e l ->
  In c (map fst (Torch.calls l)) ->
  In c (Torch.protocol dev s (Torch.tensor_at 0 (Torch.calls l))
          (Torch.tensor_at 1 (Torch.calls l))).
Proof.
  destruct s as [[m n] k]. unfold Torch.iteration_post. cbv zeta.
  intros (Hpre & _) Hin. eapply is_prefix_In; eassumption.
Qed.

Lemma torch_sweep_calls dev items :
  forall e l c,
    Torch.sweep_post dev items e l ->
    In c (map fst (Torch.calls l)) ->
    exists s A B, In s (map snd items) /\ In c (Torch.protocol dev s A B).
Proof.
  induction items as [|[i s] rest IH]; intros e l c; cbn [Torch.sweep_post].
  - intros (_ & ->) [].
  - intros (e1 & l1 & Hit & Hend) Hin.
    assert (Hhere : In c (map fst (Torch.calls l1)) ->
                    exists s0 A B, In s0 (map snd ((i, s) :: rest)) /\
                                   In c (Torch.protocol dev s0 A B)).
    { intros H1. exists s. do 2 eexists. split; [ left; reflexivity | ].
      exact (torch_iteration_calls _ _ _ _ _ _ Hit H1). }
    destruct e1 as [[]|x].
    + destruct Hend as (l2 & -> & Hs).
      rewrite torch_calls_app, map_app in Hin. apply in_app_or in Hin.
      destruct Hin as [Hin|Hin]; [ exact (Hhere Hin) | ].
      destruct (IH _ _ _ Hs Hin) as (s0 & A & B & Hs0 & Hc).
      exists s0, A, B. split; [ right; exact Hs0 | exact Hc ].
    + destruct Hend as (_ & ->). exact (Hhere Hin).
Qed.

Ltac torch_in_cases H :=
  cbn [Torch.protocol repeat app In map fst] in H;
  repeat match type of H with
         | _ \/ _ => destruct H as [H|H]
         | False => destruct H
         end.

(** X14.  The device of the tensors.  Every [torch.randn] of a run creates
    its tensor on the device chosen from the answer of the first
    [torch.cuda.is_available()] ("cuda" if [True], "cpu" otherwise), while
    the run got that far because the second query answered [True]: should
    the two answers differ, the sweep runs on the CPU. *)
Theorem X14_torch_device_from_first_query w rows cols dev :
  let cs := Torch.calls (snd (Torch.run Torch.main w [])) in
  In (Torch.randn rows cols dev) (map fst cs) ->
  exists r1 r2,
    nth_error cs 0 = Some (Torch.is_available, r1) /\
    nth_error cs 1 = Some (Torch.is_available, r2) /\
    Torch.out_bool r2 = true /\
    dev = (if Torch.out_bool r1 then Torch.cuda else Torch.cpu).
Proof.
  cbv zeta. intros Hin.
  pose proof (torch_main_run w) as H. torch_cases H.
  1-5: rewrite Hl in Hin; cbn in Hin;
    repeat match type of Hin with
           | _ \/ _ => destruct Hin as [Hin|Hin]
           | False => destruct Hin
           end; discriminate Hin.
  assert (Hl : exists rest,
             snd (Torch.run Torch.main w []) = Torch.prologue r1 r2 r3 r4 ++ rest /\
             Torch.calls rest = Torch.calls body).
  { destruct e1 as [[]|x]; destruct Hend as (_ & ->); eexists; split;
      try reflexivity.
    rewrite torch_calls_app, torch_calls_summary. apply app_nil_r. }
  destruct Hl as (rest & Hl & Hrest).
  rewrite Hl, torch_calls_prologue in *. rewrite Hrest in Hin.
  exists r1, r2. repeat split; auto.
  cbn [map fst In] in Hin.
  destruct Hin as [Hin|[Hin|[Hin|[Hin|Hin]]]]; try discriminate Hin.
  destruct (torch_sweep_calls _ _ _ _ _ Hsweep Hin) as ([[m n] k] & A & B & _ & Hc).
  torch_in_cases Hc; try discriminate Hc; injection Hc as _ _ <-; reflexivity.
Qed.

Lemma torch_bench_shape_operands dev i m n k log :
  Torch.wp (Torch.bench_shape dev i (m, n, k)) log
    (fun _ l =>
       forall a b,
         In (Torch.mm a b) (map fst (Torch.calls l)) ->
         exists rA rB,
           nth_error (Torch.calls l) 0 = Some (Torch.randn m k dev, rA) /\
           nth_error (Torch.calls l) 1 = Some (Torch.randn k n dev, rB) /\
           Torch.raised rA = None /\ Torch.raised rB = None /\
           a = Torch.out_tensor rA /\ b = Torch.out_tensor rB).
Proof.
  unfold Torch.bench_shape.
  cbn [Torch.wp Torch.bind Torch.print Torch.ask Torch.for_range].
  repeat (let r := fresh "r" in let E := fresh "E" in
          intros r; destruct (Torch.raised r) eqn:E).
  20: destruct (tops m n k
                  (avg_time (PrimFloat.sub (Torch.out_float r17) (Torch.out_float r5))))
        as [tp|x] eqn:Etops;
      cbn [Torch.lift Torch.wp Torch.bind Torch.results_append Torch.print].
  all: intros a b Hin;
    cbn [Torch.calls flat_map app map fst snd In] in Hin;
    repeat match type of Hin with
           | _ \/ _ => destruct Hin as [Hin|Hin]
           | False => destruct Hin
           end;
    try discriminate Hin.
  all: injection Hin as <- <-; exists r, r0;
    repeat split; auto.
Qed.

(** X15.  The calls of one iteration of the PyTorch script are a prefix of
    the protocol: two [torch.randn] (m x k, then k x n, on the device of
    the run), three warmup [torch.mm], a synchronize, a clock reading, ten
    timed [torch.mm], a synchronize, a clock reading; all of it when the
    iteration completes.  Every [torch.mm] multiplies the two tensors that
    the iteration's own [torch.randn] calls returned, A first. *)
Theorem X15_torch_iteration_protocol dev i m n k w log :
  let p := Torch.run (Torch.bench_shape dev i (m, n, k)) w log in
  let cs := Torch.calls (snd p) in
  is_prefix (map fst cs)
    (Torch.protocol dev (m, n, k) (Torch.tensor_at 0 cs) (Torch.tensor_at 1 cs)) /\
  (forall a b,
      In (Torch.mm a b) (map fst cs) ->
      exists rA rB,
        nth_error cs 0 = Some (Torch.randn m k dev, rA) /\
        nth_error cs 1 = Some (Torch.randn k n dev, rB) /\
        Torch.raised rA = None /\ Torch.raised rB = None /\
        a = Torch.out_tensor rA /\ b = Torch.out_tensor rB) /\
  (fst p = Torch.Done tt ->
   map fst cs =
     Torch.protocol dev (m, n, k) (Torch.tensor_at 0 cs) (Torch.tensor_at 1 cs) /\
   forallb Torch.returned cs = true).
Proof.
  cbv zeta.
  pose proof (torch_wp_sound _ w _ _ (torch_bench_shape_post dev i (m, n, k) log))
    as (Hpre & _ & Hend).
  split; [ exact Hpre | ].
  split; [ exact (torch_wp_sound _ w _ _ (torch_bench_shape_operands dev i m n k log)) | ].
  intros Hdone. rewrite Hdone in Hend. destruct Hend as (Hlen & Hall & _).
  split; [ | exact Hall ].
  apply is_prefix_full; [ exact Hpre | ]. rewrite length_map, Hlen. reflexivity.
Qed.

Lemma tops_value m n k avg tp :
  tops m n k avg = Ok tp ->
  tp = PrimFloat.div (float_of_int (2 * m * n * k)) (PrimFloat.mul avg 1e12%float).
Proof.
  unfold tops, py_int_div_float, py_float_of_int, py_float_div.
  destruct (Z.abs (2 * m * n * k) <? 2 ^ 1024 - 2 ^ 970); [ | discriminate ].
  destruct (PrimFloat.eqb _ _); [ discriminate | ].
  intros H. injection H as <-. reflexivity.
Qed.

(** X16.  The PyTorch script measures as the rocBLAS scripts do.  In an
    iteration that completes, the calls from the first clock reading (call
    6) to the second (call 18) are the ten timed [torch.mm] and the
    synchronize; with [avg] the difference of the two readings divided by
    10, the iteration appends the record of its shape with
    [tops = (2*m*n*k) / (avg * 1e12)] and [time_ms = avg * 1000], in
    binary64 arithmetic, and prints these two numbers.  With 32-bit
    positive dimensions it completes whenever none of its calls raises and
    [avg] is positive. *)
Theorem X16_torch_measure dev i m n k w log :
  let p := Torch.run (Torch.bench_shape dev i (m, n, k)) w log in
  let cs := Torch.calls (snd p) in
  let elapsed := PrimFloat.sub (Torch.clock_at 18 cs) (Torch.clock_at 6 cs) in
  let avg := PrimFloat.div elapsed 10%float in
  let value :=
    PrimFloat.div (float_of_int (2 * m * n * k)) (PrimFloat.mul avg 1e12%float) in
  (fst p = Torch.Done tt ->
   map fst (firstn 13 (skipn 6 cs)) =
     Torch.time_time
     :: repeat (Torch.mm (Torch.tensor_at 0 cs) (Torch.tensor_at 1 cs)) 10
     ++ [Torch.synchronize; Torch.time_time] /\
   Torch.appended (snd p) = [mk_result m n k (PrimFloat.mul avg 1000%float) value] /\
   Torch.printed (snd p) =
     [Torch.Progress i 5 (m, n, k);
      Torch.PerfLine (PrimFloat.mul avg 1000%float) value]) /\
  (0 < m < 2 ^ 32 -> 0 < n < 2 ^ 32 -> 0 < k < 2 ^ 32 ->
   forallb Torch.returned cs = true ->
   PrimFloat.ltb 0%float avg = true ->
   fst p = Torch.Done tt /\ tops m n k avg = Ok value).
Proof.
  cbv zeta.
  pose proof (torch_wp_sound _ w _ _ (torch_bench_shape_post dev i (m, n, k) log))
    as (Hpre & _ & Hend).
  unfold Torch.measured_avg, avg_time, time_ms in Hend.
  split.
  - intros Hdone. rewrite Hdone in Hend.
    destruct Hend as (Hlen & _ & tp & Htp & Hl).
    apply tops_value in Htp. subst tp.
    set (cs := Torch.calls _) in *.
    split.
    { rewrite <- firstn_map, <- skipn_map.
      rewrite (is_prefix_full _ _ Hpre)
        by (rewrite length_map, Hlen; reflexivity).
      reflexivity. }
    rewrite Hl. unfold Torch.progress.
    cbn [Torch.appended Torch.printed flat_map app].
    match goal with
    | |- flat_map ?f (map Torch.called cs ++ ?t) = _ /\ _ =>
        change (flat_map f (map Torch.called cs ++ t))
          with (Torch.appended (map Torch.called cs ++ t))
    end.
    match goal with
    | |- _ /\ _ :: flat_map ?f (map Torch.called cs ++ ?t) = _ =>
        change (flat_map f (map Torch.called cs ++ t))
          with (Torch.printed (map Torch.called cs ++ t))
    end.
    rewrite torch_appended_app, torch_printed_app,
      torch_appended_called, torch_printed_called.
    split; reflexivity.
  - intros Hm Hn Hk Hall Havg.
    match type of Havg with
    | PrimFloat.ltb _ ?a = true =>
        assert (Htops : tops m n k a =
                        Ok (PrimFloat.div (float_of_int (2 * m * n * k))
                              (PrimFloat.mul a 1e12%float)))
    end.
    { unfold tops, py_int_div_float, py_float_div.
      rewrite (u32_product_converts m n k Hm Hn Hk).
      rewrite (positive_times_1e12_nonzero _ Havg). reflexivity. }
    split; [ | exact Htops ].
    destruct (fst (Torch.run (Torch.bench_shape dev i (m, n, k)) w log))
      as [[]|[x|what]]; [ reflexivity | | ].
    + destruct Hend as (_ & _ & Hr & _). rewrite Htops in Hr. discriminate Hr.
    + destruct Hend as ((c & r & Hlast & Hr) & _).
      pose proof (forallb_In _ _ _ Hall (last_Some_In _ _ Hlast)) as Hret.
      unfold Torch.returned in Hret. cbn [snd] in Hret. rewrite Hr in Hret.
      discriminate Hret.
Qed.


Lemma torch_iteration_done dev i s l :
  Torch.iteration_post dev i s (Torch.Done tt) l ->
  map shape_of (Torch.appended l) = [s] /\
  List.length (Torch.calls l) = 19%nat /\
  forallb Torch.returned (Torch.calls l) = true.
Proof.
  destruct s as [[m n] k]. unfold Torch.iteration_post. cbv zeta.
  set (cs := Torch.calls l).
  intros (_ & _ & Hlen & Hall & tp & _ & Hl).
  split; [ | split; assumption ].
  rewrite Hl. unfold Torch.progress. cbn [Torch.appended flat_map app].
  fold (Torch.appended (map Torch.called cs ++
          [Torch.Printed (Torch.PerfLine (time_ms (Torch.measured_avg cs)) tp);
           Torch.Appended (mk_result m n k (time_ms (Torch.measured_avg cs)) tp)])).
  rewrite torch_appended_app, torch_appended_called. reflexivity.
Qed.

Lemma torch_sweep_done dev items :
  forall l,
    Torch.sweep_post dev items (Torch.Done tt) l ->
    map shape_of (Torch.appended l) = map snd items /\
    List.length (Torch.calls l) = (19 * List.length items)%nat /\
    forallb Torch.returned (Torch.calls l) = true.
Proof.
  induction items as [|[i s] rest IH]; intros l; cbn [Torch.sweep_post].
  - intros (_ & ->). repeat split.
  - intros (e1 & l1 & Hit & Hend).
    destruct e1 as [[]|x]; [ | destruct Hend as (E & _); discriminate E ].
    destruct Hend as (l2 & -> & Hs).
    destruct (torch_iteration_done _ _ _ _ Hit) as (H1 & H2 & H3).
    destruct (IH _ Hs) as (G1 & G2 & G3).
    rewrite torch_appended_app, torch_calls_app, map_app, length_app, forallb_app.
    rewrite H1, H2, H3, G1, G2, G3. cbn [map snd List.length].
    repeat split. lia.
Qed.

Lemma enumerate_snd {A} (l : list A) start : map snd (enumerate l start) = l.
Proof.
  revert start. induction l as [|x l IH]; intros start; cbn; [ reflexivity | ].
  rewrite IH. reflexivity.
Qed.

(** X18.  A run of the PyTorch script that completes measured the five
    shapes of [rocblas-quick.py], in the same order, one record each; it
    made 99 calls (the four of the set-up and 19 per shape), none of which
    raised; and it ended by printing the summary, one line per record in
    that order. *)
Theorem X18_torch_complete_run w :
  let p := Torch.run Torch.main w [] in
  fst p = Torch.Done tt ->
  let rs := Torch.appended (snd p) in
  map shape_of rs = Quick.test_cases /\
  List.length (Torch.calls (snd p)) = 99%nat /\
  forallb Torch.returned (Torch.calls (snd p)) = true /\
  exists before,
    snd p = before ++ Torch.summary rs /\ Torch.appended before = rs.
Proof.
  cbv zeta. intros Hdone.
  pose proof (torch_main_run w) as H. torch_cases H.
  1-5: rewrite He in Hdone; discriminate Hdone.
  destruct e1 as [[]|x]; destruct Hend as (He & Hl);
    [ | rewrite He in Hdone; discriminate Hdone ].
  destruct (torch_sweep_done _ _ _ Hsweep) as (G1 & G2 & G3).
  rewrite enumerate_snd in G1. rewrite enumerate_length in G2.
  assert (Hrs : Torch.appended (snd (Torch.run Torch.main w [])) =
                Torch.appended body).
  { rewrite Hl, app_assoc, torch_appended_app, torch_appended_summary, app_nil_r.
    reflexivity. }
  rewrite Hrs.
  split; [ exact G1 | ].
  rewrite Hl at 1 2. rewrite app_assoc, torch_calls_app, torch_calls_summary, app_nil_r.
  rewrite torch_calls_prologue.
  split; [ cbn [List.length]; rewrite G2; reflexivity | ].
  split.
  - cbn [forallb]. rewrite G3. unfold Torch.returned. cbn [snd].
    rewrite E1, E2, E3, E4. reflexivity.
  - exists (Torch.prologue r1 r2 r3 r4 ++ body). split.
    + rewrite Hl, app_assoc. reflexivity.
    + reflexivity.
Qed.

Lemma X13_torch_exits_without_gpu_witness :
  fst (Torch.run Torch.main Torch.no_gpu_world []) =
    Torch.Failed (Torch.Py (SystemExit 1)) /\
  List.length (Torch.calls (snd (Torch.run Torch.main Torch.no_gpu_world []))) = 2%nat /\
  Torch.printed (snd (Torch.run Torch.main Torch.no_gpu_world [])) =
    [Torch.Rule; Torch.Title; Torch.Rule; Torch.NotAvailable] /\
  Torch.appended (snd (Torch.run Torch.main Torch.no_gpu_world [])) = [].
Proof.
  refine (X13_torch_exits_without_gpu Torch.no_gpu_world
            (Torch.mk_reply None false "gpu" 4
               (PrimFloat.div (float_of_int 4) 1000%float)) _ _ _).
  - vm_compute. reflexivity.
  - reflexivity.
  - reflexivity.
Defined.

Lemma X14_torch_device_from_first_query_witness :
  exists r1 r2,
    nth_error (Torch.calls (snd (Torch.run Torch.main Torch.late_gpu_world []))) 0 =
      Some (Torch.is_available, r1) /\
    nth_error (Torch.calls (snd (Torch.run Torch.main Torch.late_gpu_world []))) 1 =
      Some (Torch.is_available, r2) /\
    Torch.out_bool r2 = true /\
    Torch.cpu = (if Torch.out_bool r1 then Torch.cuda else Torch.cpu).
Proof.
  refine (X14_torch_device_from_first_query Torch.late_gpu_world
            1024 1024 Torch.cpu _).
  apply nth_error_In with (n := 4%nat). vm_compute. reflexivity.
Defined.


Lemma X18_torch_complete_run_witness :
  map shape_of (Torch.appended (snd (Torch.run Torch.main Torch.healthy_world []))) =
    Quick.test_cases /\
  List.length (Torch.calls (snd (Torch.run Torch.main Torch.healthy_world []))) =
    99%nat /\
  forallb Torch.returned
    (Torch.calls (snd (Torch.run Torch.main Torch.healthy_world []))) = true /\
  exists before,
    snd (Torch.run Torch.main Torch.healthy_world []) =
      before ++ Torch.summary
                  (Torch.appended (snd (Torch.run Torch.main Torch.healthy_world []))) /\
    Torch.appended before =
      Torch.appended (snd (Torch.run Torch.main Torch.healthy_world [])).
Proof.
  refine (X18_torch_complete_run Torch.healthy_world _).
  vm_compute. reflexivity.
Defined.

Lemma X16_torch_measure_witness :
  fst (Torch.run (Torch.bench_shape Torch.cuda 1 (1024, 1024, 1024))
         Torch.healthy_world []) = Torch.Done tt /\
  tops 1024 1024 1024
    (PrimFloat.div
       (PrimFloat.sub
          (Torch.clock_at 18
             (Torch.calls
                (snd (Torch.run (Torch.bench_shape Torch.cuda 1 (1024, 1024, 1024))
                        Torch.healthy_world []))))
          (Torch.clock_at 6
             (Torch.calls
                (snd (Torch.run (Torch.bench_shape Torch.cuda 1 (1024, 1024, 1024))
                        Torch.healthy_world [])))))
       10%float) =
    Ok (PrimFloat.div (float_of_int (2 * 1024 * 1024 * 1024))
          (PrimFloat.mul
             (PrimFloat.div
                (PrimFloat.sub
                   (Torch.clock_at 18
                      (Torch.calls
                         (snd (Torch.run
                                 (Torch.bench_shape Torch.cuda 1 (1024, 1024, 1024))
                                 Torch.healthy_world []))))
                   (Torch.clock_at 6
                      (Torch.calls
                         (snd (Torch.run
                                 (Torch.bench_shape Torch.cuda 1 (1024, 1024, 1024))
                                 Torch.healthy_world [])))))
                10%float)
             1e12%float)).
Proof.
  refine (proj2 (X16_torch_measure Torch.cuda 1 1024 1024 1024
                   Torch.healthy_world []) _ _ _ _ _).
  - vm_compute. split; reflexivity.
  - vm_compute. split; reflexivity.
  - vm_compute. split; reflexivity.
  - vm_compute. reflexivity.
  - vm_compute. reflexivity.
Defined.

(** ** The kernel filter of the profiler script *)

Lemma prefix_split (n h : string) :
  String.prefix n h = true <-> exists post, h = (n ++ post)%string.
Proof.
  revert h. induction n as [|c n IH]; intros h.
  - split; [ intros _; exists h; reflexivity | intros _; destruct h; reflexivity ].
  - destruct h as [|d h]; cbn [String.prefix String.append].
    + split; [ discriminate | intros (post & E); discriminate E ].
    + destruct (Ascii.ascii_dec c d) as [->|Hne].
      * rewrite IH. split; intros (post & E); exists post; congruence.
      * split; [ discriminate | intros (post & E); congruence ].
Qed.

Lemma contains_split (n h : string) :
  Profiler.contains n h = true <->
  exists pre post, h = (pre ++ n ++ post)%string.
Proof.
  induction h as [|d h IH]; cbn [Profiler.contains].
  - rewrite orb_false_r, prefix_split. split.
    + intros (post & E). exists EmptyString, post. exact E.
    + intros ([|c pre] & post & E); [ exists post; exact E | discriminate E ].
  - rewrite orb_true_iff, prefix_split, IH. split.
    + intros [(post & E) | (pre & post & E)].
      * exists EmptyString, post. exact E.
      * exists (String d pre), post. cbn [String.append]. congruence.
    + intros ([|c pre] & post & E).
      * left. exists post. exact E.
      * right. exists pre, post. cbn [String.append] in E. congruence.
Qed.

(** X19.  The filter of [pytorch-profiler.py] selects a kernel exactly when
    its lower-cased name has "mm" or "blas" as a substring: the test for
    "gemm", which contains "mm", never decides. *)
Theorem X19_profiler_filter (key_lower : string) :
  Profiler.selected key_lower =
    (Profiler.contains "mm" key_lower || Profiler.contains "blas" key_lower) /\
  (Profiler.selected key_lower = true <->
   exists pre post,
     key_lower = (pre ++ "mm" ++ post)%string \/
     key_lower = (pre ++ "blas" ++ post)%string).
Proof.
  assert (Hgemm : Profiler.contains "gemm" key_lower = true ->
                  Profiler.contains "mm" key_lower = true).
  { rewrite !contains_split. intros (pre & post & ->).
    exists (pre ++ "ge")%string, post.
    clear. induction pre as [|c pre IH]; [ reflexivity | ].
    cbn [String.append] in *. rewrite IH. reflexivity. }
  assert (Heq : Profiler.selected key_lower =
                (Profiler.contains "mm" key_lower || Profiler.contains "blas" key_lower)).
  { unfold Profiler.selected.
    destruct (Profiler.contains "gemm" key_lower) eqn:G; [ | reflexivity ].
    rewrite (Hgemm eq_refl). reflexivity. }
  split; [ exact Heq | ].
  rewrite Heq, orb_true_iff, !contains_split. split.
  - intros [(pre & post & E) | (pre & post & E)]; exists pre, post; auto.
  - intros (pre & post & [E | E]); [ left | right ]; exists pre, post; exact E.
Qed.

(** ** More concrete runs *)

Lemma X10_buffers_balance_witness :
  List.length (results (snd (run Quick.main healthy_world))) =
    List.length Quick.test_cases /\
  count is_malloc (trace (snd (run Quick.main healthy_world))) =
    (3 * List.length (results (snd (run Quick.main healthy_world))))%nat /\
  count is_gemm (trace (snd (run Quick.main healthy_world))) =
    (13 * List.length (results (snd (run Quick.main healthy_world))))%nat /\
  count is_sync (trace (snd (run Quick.main healthy_world))) =
    (2 * List.length (results (snd (run Quick.main healthy_world))))%nat.
Proof.
  refine (proj2 (proj2 (proj2 (proj1 (proj2 (X10_buffers_balance healthy_world))))) _).
  vm_compute. reflexivity.
Defined.

Lemma X12_report_only_when_complete_witness :
  forallb is_perf_line (stdout (snd (run Quick.main (failing_world 40 2)))) = true /\
  List.length (stdout (snd (run Quick.main (failing_world 40 2)))) =
    List.length (results (snd (run Quick.main (failing_world 40 2)))).
Proof.
  refine (proj1 (proj2 (X12_report_only_when_complete (failing_world 40 2)))
            (RuntimeError "Benchmark GEMM failed" 2) _).
  vm_compute. reflexivity.
Defined.

Lemma X11_top_view_witness :
  1 <= 1 <= 10 /\
  In (mk_result 1024 1024 1024 1%float 2%float)
    (results (mk_state [] [mk_result 1024 1024 1024 1%float 2%float] None [])) /\
  nth_error
    (sorted_by_tops
       (results (mk_state [] [mk_result 1024 1024 1024 1%float 2%float] None [])))
    (Z.to_nat (1 - 1)) = Some (mk_result 1024 1024 1024 1%float 2%float).
Proof.
  refine (proj2 (proj2 (X11_top_view healthy_world
                          (mk_state [] [mk_result 1024 1024 1024 1%float 2%float]
                             None [])))
            1 (mk_result 1024 1024 1024 1%float 2%float) _).
  vm_compute. right. left. reflexivity.
Defined.

Lemma X15_torch_iteration_protocol_witness :
  map fst
    (Torch.calls
       (snd (Torch.run (Torch.bench_shape Torch.cuda 1 (1024, 1024, 1024))
               Torch.healthy_world []))) =
    Torch.protocol Torch.cuda (1024, 1024, 1024)
      (Torch.tensor_at 0
         (Torch.calls
            (snd (Torch.run (Torch.bench_shape Torch.cuda 1 (1024, 1024, 1024))
                    Torch.healthy_world []))))
      (Torch.tensor_at 1
         (Torch.calls
            (snd (Torch.run (Torch.bench_shape Torch.cuda 1 (1024, 1024, 1024))
                    Torch.healthy_world [])))) /\
  forallb Torch.returned
    (Torch.calls
       (snd (Torch.run (Torch.bench_shape Torch.cuda 1 (1024, 1024, 1024))
               Torch.healthy_world []))) = true.
Proof.
  refine (proj2 (proj2 (X15_torch_iteration_protocol Torch.cuda 1 1024 1024 1024
                          Torch.healthy_world [])) _).
  vm_compute. reflexivity.
Defined.
